(** * Plumber data-engineering assistant: the templated-job core

    A shallow embedding of the parameter validator (both copies), the
    Dataflow template submission, the job-name sanitizer and the custom
    pipeline builder, then of the helpers around them (the template
    repositories, the file searches, the template build, the template copy
    and the SQL query), followed by the properties proved about them.

    Conventions of the embedding.
    - A Python [str] is the list of its code points ([list N]); [py "..."]
      writes an ASCII literal.
    - What the code takes from outside (the Unicode character database,
      [uuid4], [json.loads], subprocesses, the file system, object storage)
      is an explicit argument: a record of functions, a value drawn before
      the call, or a state that is passed in and returned.
    - A result dictionary is a record of its keys; where the code returns
      [json.dumps] of a dictionary, the value here is the dictionary.
    - What the code prints is left out. *)

From Stdlib Require Import Strings.Ascii.
From stdpp Require Import gmap strings.

Set Warnings "-register-all".

Open Scope N_scope.

(** ** Python strings *)

Abbreviation pystr := (list N).

Fixpoint py (x : string) : pystr :=
  match x with
  | EmptyString => []
  | String a rest => N_of_ascii a :: py rest
  end.
Arguments py x%_string.

Abbreviation HYPHEN := 45.

Definition in_range (lo hi c : N) : bool := (lo <=? c) && (c <=? hi).

Definition ascii_lower_letter (c : N) : bool := in_range 97 122 c.
Definition ascii_upper_letter (c : N) : bool := in_range 65 90 c.
Definition ascii_digit (c : N) : bool := in_range 48 57 c.
Definition ascii_letter (c : N) : bool := ascii_lower_letter c || ascii_upper_letter c.

(** The part of the Unicode character database the code reaches through
    [str.lower], [str.isalpha], [str.isalnum] and the regular-expression
    class [\d].  ASCII is modelled below, exactly; for code points from 128
    on the tables are this record's fields. *)
Record Unicode := {
  (** [lower_nonascii s i]: what [str.lower] puts for the non-ASCII code
      point at index [i] of [s] (it reads the neighbours of a capital
      sigma, and may give several code points). *)
  lower_nonascii : pystr → nat → pystr;
  isalpha_nonascii : N → bool;
  isalnum_nonascii : N → bool;
  (** [\d] in a [str] pattern: the decimal digits of every script. *)
  isdecimal_nonascii : N → bool;
  (** [str.isprintable], which [repr] consults. *)
  isprintable_nonascii : N → bool
}.

(** A database with no letters or digits beyond ASCII. *)
Definition ascii_only : Unicode :=
  {| lower_nonascii := λ s i, take 1 (drop i s);
     isalpha_nonascii := λ _, false;
     isalnum_nonascii := λ _, false;
     isdecimal_nonascii := λ _, false;
     isprintable_nonascii := λ _, true |}.

Section PyStr.
Context (U : Unicode).

Definition lower_char (s : pystr) (i : nat) (c : N) : pystr :=
  if c <? 128
  then [if ascii_upper_letter c then c + 32 else c]
  else lower_nonascii U s i.

(** [s.lower()] *)
Definition lower (s : pystr) : pystr := concat (imap (lower_char s) s).

(** [c.isalpha()] and [c.isalnum()] on one code point *)
Definition isalpha (c : N) : bool :=
  if c <? 128 then ascii_letter c else isalpha_nonascii U c.
Definition isalnum (c : N) : bool :=
  if c <? 128 then ascii_letter c || ascii_digit c else isalnum_nonascii U c.

(** [\d] *)
Definition re_digit (c : N) : bool :=
  if c <? 128 then ascii_digit c else isdecimal_nonascii U c.

(** [n] in [width] lowercase hexadecimal digits *)
Definition hex_digit (d : N) : N := if d <? 10 then 48 + d else 87 + d.

Fixpoint hex_fixed (width : nat) (n : N) : pystr :=
  match width with
  | O => []
  | S w => hex_fixed w (n / 16) ++ [hex_digit (n mod 16)]
  end.

(** One code point inside [repr(s)], [quote] being the quote chosen for
    [s]: the quote and the backslash are escaped, then tab, newline and
    return, and what is not printable goes out in hexadecimal. *)
Definition repr_char (quote c : N) : pystr :=
  if (c =? quote) || (c =? 92) then [92; c]
  else if c =? 9 then py "\t"
  else if c =? 10 then py "\n"
  else if c =? 13 then py "\r"
  else if (c <? 32) || (c =? 127) then py "\x" ++ hex_fixed 2 c
  else if c <? 127 then [c]
  else if isprintable_nonascii U c then [c]
  else if c <=? 255 then py "\x" ++ hex_fixed 2 c
  else if c <=? 65535 then py "\u" ++ hex_fixed 4 c
  else py "\U" ++ hex_fixed 8 c.

End PyStr.

(** [s.lstrip(chars)], [s.rstrip(chars)], [s.strip(chars)] for a one-character
    [chars] *)
Fixpoint lstrip (ch : N) (s : pystr) : pystr :=
  match s with
  | [] => []
  | c :: rest => if c =? ch then lstrip ch rest else s
  end.
Definition rstrip (ch : N) (s : pystr) : pystr := rev (lstrip ch (rev s)).
Definition strip (ch : N) (s : pystr) : pystr := rstrip ch (lstrip ch s).

(** [s.startswith(p)] *)
Fixpoint startswith (p s : pystr) : bool :=
  match p, s with
  | [], _ => true
  | _ :: _, [] => false
  | a :: p', b :: s' => (a =? b) && startswith p' s'
  end.

(** [sub in s] *)
Fixpoint contains (sub s : pystr) : bool :=
  startswith sub s ||
  match s with
  | [] => false
  | _ :: rest => contains sub rest
  end.

(** [sep.join(parts)] *)
Fixpoint join (sep : pystr) (parts : list pystr) : pystr :=
  match parts with
  | [] => []
  | [p] => p
  | p :: rest => p ++ sep ++ join sep rest
  end.

(** [s.split(sep)] for a one-character [sep] *)
Fixpoint split (ch : N) (s : pystr) : list pystr :=
  match s with
  | [] => [[]]
  | c :: rest =>
      if c =? ch then [] :: split ch rest
      else match split ch rest with
           | w :: ws => (c :: w) :: ws
           | [] => [[c]]
           end
  end.

(** [repr(s)], whose quote is the double one only when [s] has a single
    quote and no double quote, and [repr(l)] for a list of [str]; [str(l)]
    is the same text. *)
Definition repr_str (U : Unicode) (s : pystr) : pystr :=
  let quote :=
    if contains [39] s && negb (contains [34] s) then 34 else 39 in
  [quote] ++ concat (map (repr_char U quote) s) ++ [quote].

Definition repr_list (U : Unicode) (l : list pystr) : pystr :=
  py "[" ++ join (py ", ") (map (repr_str U) l) ++ py "]".

(** The double quote and the newline, as strings. *)
Definition dq : pystr := [34].
Definition nl : pystr := [10].

(** ** Dictionaries

    A [dict] with [str] keys keeps its insertion order: a list of pairs
    whose keys differ.  The schema dictionaries, which are only looked up,
    are finite maps. *)

Abbreviation dict V := (list (pystr * V)).

Definition keys {V : Type} (d : dict V) : list pystr := d.*1.

(** The dictionary returned by both validators. *)
Record validation := {
  validation_result : pystr;
  comment : pystr
}.

(** ** dataflow_template_tools.py: the validator and the submission *)

Module DataflowTemplateTools.

(** [validate_input_params(template_definition, user_inputs)].  The schema
    maps [required] and [optional] to lists of names; at these types no
    statement of the [try] block raises, so the handler is not reached. *)
Definition validate_input_params {V : Type} (U : Unicode)
    (template_definition : gmap pystr (list pystr)) (user_inputs : dict V)
    : validation :=
  let required_params := default [] (template_definition !! py "required") in
  let optional_params := default [] (template_definition !! py "optional") in
  let all_defined_params := required_params ++ optional_params in
  let user_param_keys := keys user_inputs in
  let invalid_params : list pystr :=
    elements (list_to_set user_param_keys ∖ list_to_set all_defined_params
              : gset pystr) in
  match invalid_params with
  | _ :: _ =>
      {| validation_result := py "failed";
         comment := py "Invalid param(s) passed: " ++ repr_list U invalid_params
                    ++ py ". Valid params are: "
                    ++ repr_list U all_defined_params |}
  | [] =>
      let missing_required : list pystr :=
        elements (list_to_set required_params ∖ list_to_set user_param_keys
                  : gset pystr) in
      match missing_required with
      | _ :: _ =>
          {| validation_result := py "failed";
             comment := py "Missing required param(s): "
                        ++ repr_list U missing_required |}
      | [] =>
          {| validation_result := py "success";
             comment := py "Validation Passed" |}
      end
  end.

(** The template definition as [json.loads] gives it: an object with the
    keys the code reads, a list, or any other JSON value. *)
Record template_dict := {
  template_gcs_path : option pystr;
  type_ : option pystr;
  params : option (gmap pystr (list pystr))
}.

Inductive template_json :=
  | TObject (d : template_dict)
  | TArray (l : list template_json)
  | TOther.

(** What [json.loads(input_params)] gives: an object, or another JSON value
    (a list, a string, a number, [true], [false], [null]), of which the
    code meets nothing but the name of its Python type ([list], [str],
    [int], [float], [bool], [NoneType]). *)
Inductive inputs_json (V : Type) :=
  | IObject (d : dict V)
  | INotObject (type_name : pystr).
Arguments IObject {V}.
Arguments INotObject {V}.

(** [str(err)] of the [AttributeError] for a method the type lacks. *)
Definition no_attribute (type_name attr : pystr) : pystr :=
  py "'" ++ type_name ++ py "' object has no attribute '" ++ attr ++ py "'".

(** [validate_input_params] as the submission calls it, with whatever
    [json.loads] gave: on a value that is not an object
    [user_inputs.keys()] (line 75) raises [AttributeError], which the
    handler of lines 94 to 98 turns into a failed validation. *)
Definition validate_decoded {V : Type} (U : Unicode)
    (template_definition : gmap pystr (list pystr))
    (user_inputs : inputs_json V) : validation :=
  match user_inputs with
  | IObject d => validate_input_params U template_definition d
  | INotObject type_name =>
      {| validation_result := py "failed";
         comment := py "An unexpected error occurred during validation - "
                    ++ no_attribute type_name (py "keys") |}
  end.

(** What [subprocess.run(run_cmd, capture_output=True, text=True,
    check=True, shell=True)] comes to.  [Completed]: the call returned its
    [CompletedProcess], which [check=True] allows for exit status 0 only
    and [text=True] only once the output is decoded.  [RunRaised]: the call
    raised ([CalledProcessError] for another exit status, or the error of
    starting the shell or of decoding its output). *)
Inductive run_outcome :=
  | Completed (stdout : pystr)
  | RunRaised (str_err : pystr).

(** The collaborators of [submit_dataflow_template].  A raised exception is
    kept as [str(err)], the only thing the handler reads. *)
Record World (V : Type) := {
  (** [json.loads(input_params)] *)
  json_loads_inputs : pystr → pystr + inputs_json V;
  (** [json.loads(template_params)] *)
  json_loads_template : pystr → pystr + template_json;
  (** [str(value)] of a parameter value, as the f-string formats it *)
  value_str : V → pystr;
  subprocess_run : pystr → run_outcome
}.
Arguments json_loads_inputs {V}.
Arguments json_loads_template {V}.
Arguments value_str {V}.
Arguments subprocess_run {V}.

(** The dictionary [submit_dataflow_template] returns. *)
Record submit_result := {
  status : pystr;
  submit_comment : pystr;
  stdout_key : option pystr
}.

(** A call's effect and value: the commands handed to the shell, in order,
    and the returned dictionary. *)
Record submission := {
  executed : list pystr;
  returned : submit_result
}.

Definition failed (why : pystr) : submission :=
  {| executed := [];
     returned := {| status := py "failed"; submit_comment := why;
                    stdout_key := None |} |}.

Definition unexpected (str_err : pystr) : pystr :=
  py "An unexpected error occurred: " ++ str_err.

(** Lines 365 to 370 *)
Definition encode_parameters {V : Type} (value_str : V → pystr)
    (user_input_dict : dict V) : pystr :=
  let delemeter := py "~" in
  let parameters_str :=
    join delemeter
      (map (λ kv, kv.1 ++ py "=" ++ value_str kv.2) user_input_dict) in
  py "^" ++ delemeter ++ py "^" ++ parameters_str.

(** Lines 373 to 376 *)
Definition is_flex (template_gcs_path : pystr)
    (template_definition_dict : template_dict) : bool :=
  contains (py "/flex/") template_gcs_path
  || bool_decide (type_ template_definition_dict = Some (py "FLEX")).

Definition default_labels : pystr := py "source=plumber".

(** Line 380 *)
Definition flex_cmd (job_name gcp_project region template_gcs_path
    parameters_str : pystr) : pystr :=
  py "gcloud dataflow flex-template run " ++ job_name
  ++ py " --project=" ++ gcp_project ++ py " --region=" ++ region
  ++ py " --template-file-gcs-location=" ++ template_gcs_path
  ++ py " --parameters " ++ dq ++ parameters_str ++ dq
  ++ py " --additional-user-labels=" ++ default_labels.

(** Line 382 *)
Definition classic_cmd (job_name gcp_project region template_gcs_path
    parameters_str gcs_staging_location : pystr) : pystr :=
  py "gcloud dataflow jobs run " ++ job_name
  ++ py " --project=" ++ gcp_project ++ py " --region=" ++ region
  ++ py " --gcs-location=" ++ template_gcs_path
  ++ py " --parameters " ++ dq ++ parameters_str ++ dq
  ++ py " --staging-location=" ++ gcs_staging_location
  ++ py " --additional-user-labels=" ++ default_labels.

(** Lines 318 to 326: a definition wrapped in a list is replaced by the
    list's first element; [None] stands for the empty list. *)
Definition unwrap_list (template_definition_dict : template_json)
    : option template_json :=
  match template_definition_dict with
  | TArray (first :: _) => Some first
  | TArray [] => None
  | other => Some other
  end.

(** Lines 334 to 338 *)
Definition resolve_path (custom_gcs_path : pystr)
    (template_definition_dict : template_dict) : option pystr :=
  match custom_gcs_path with
  | _ :: _ => Some custom_gcs_path
  | [] => template_gcs_path template_definition_dict
  end.

Section Submit.
Context {V : Type} (U : Unicode) (W : World V).

(** Lines 334 to 397, once [template_definition_dict] is known to be an
    object. *)
Definition submit_definition (job_name : pystr)
    (user_input_dict : inputs_json V)
    (template_definition_dict : template_dict)
    (gcp_project region gcs_staging_location custom_gcs_path : pystr)
    : submission :=
  match resolve_path custom_gcs_path template_definition_dict with
  | None | Some [] =>
      failed (py "Job could not be submitted because the " ++ dq
              ++ py "template_gcs_path" ++ dq ++ py " key was not found.")
  | Some template_gcs_path =>
      let validation_error : option pystr :=
        match custom_gcs_path with
        | _ :: _ => None
        | [] =>
            let params_to_validate :=
              default ∅ (params template_definition_dict) in
            if bool_decide (params_to_validate = ∅)
            then Some (py "Job could not be submitted because the template definition is missing the "
                       ++ dq ++ py "params" ++ dq ++ py " key.")
            else
              let param_validation_result :=
                validate_decoded U params_to_validate user_input_dict in
              if bool_decide (validation_result param_validation_result
                              ≠ py "success")
              then Some (py "Job could not be submitted due to a parameter validation error: "
                         ++ comment param_validation_result)
              else None
        end in
      match validation_error, user_input_dict with
      | Some why, _ => failed why
      | None, INotObject type_name =>
          (* [user_input_dict.items()], line 368 *)
          failed (unexpected (no_attribute type_name (py "items")))
      | None, IObject user_input_dict =>
          let parameters_str :=
            encode_parameters (value_str W) user_input_dict in
          let run_cmd :=
            if is_flex template_gcs_path template_definition_dict
            then flex_cmd job_name gcp_project region template_gcs_path
                   parameters_str
            else classic_cmd job_name gcp_project region template_gcs_path
                   parameters_str gcs_staging_location in
          match subprocess_run W run_cmd with
          | Completed stdout =>
              {| executed := [run_cmd];
                 returned := {| status := py "success";
                                submit_comment := py "Job Submitted Successfully";
                                stdout_key := Some stdout |} |}
          | RunRaised str_err =>
              {| executed := [run_cmd];
                 returned := {| status := py "failed";
                                submit_comment := unexpected str_err;
                                stdout_key := None |} |}
          end
      end
  end.

(** [submit_dataflow_template(job_name, input_params, template_params,
    gcp_project, region, gcs_staging_location, custom_gcs_path)] *)
Definition submit_dataflow_template (job_name input_params template_params
    gcp_project region gcs_staging_location custom_gcs_path : pystr)
    : submission :=
  match json_loads_inputs W input_params with
  | inl str_err => failed (unexpected str_err)
  | inr user_input_dict =>
      match json_loads_template W template_params with
      | inl str_err => failed (unexpected str_err)
      | inr template_definition_dict =>
          match unwrap_list template_definition_dict with
          | None =>
              failed (py "Job could not be submitted because the template definition was an empty list.")
          | Some (TObject template_definition_dict) =>
              submit_definition job_name user_input_dict
                template_definition_dict gcp_project region
                gcs_staging_location custom_gcs_path
          | Some _ =>
              failed (py "Job could not be submitted because the processed template definition is not a valid dictionary (JSON object).")
          end
      end
  end.

End Submit.

End DataflowTemplateTools.

(** ** dataproc_template_agent/utils.py: the validator's second copy *)

Module DataprocUtils.

(** [validate_input_params(template_params, input_params)] *)
Definition validate_input_params {V : Type}
    (template_params : gmap pystr (list pystr)) (input_params : dict V)
    : validation :=
  let required_template_params :=
    default [] (template_params !! py "required") in
  let optional_template_params :=
    default [] (template_params !! py "optional") in
  let all_params := required_template_params ++ optional_template_params in
  let input_params_name := keys input_params in
  let invalid_input_params : list pystr :=
    elements (list_to_set input_params_name ∖ list_to_set all_params
              : gset pystr) in
  match invalid_input_params with
  | _ :: _ =>
      {| validation_result := py "failed";
         comment := py "Invalid param passed" |}
  | [] =>
      let all_required_params :=
        bool_decide ((list_to_set required_template_params : gset pystr)
                     ⊆ list_to_set input_params_name) in
      if negb all_required_params
      then {| validation_result := py "failed";
              comment := py "Missing required params" |}
      else {| validation_result := py "success";
              comment := py "Validation Passed" |}
  end.

End DataprocUtils.

(** ** pipeline_utils.py: the job-name sanitizer *)

Module PipelineUtils.

(** [[a-z0-9-]] *)
Definition job_char (c : N) : bool :=
  ascii_lower_letter c || ascii_digit c || (c =? HYPHEN).

(** [re.sub(r"[^a-z0-9-]", "-", s)] *)
Definition sub_illegal (s : pystr) : pystr :=
  map (λ c, if job_char c then c else HYPHEN) s.

(** [re.sub(r"-+", "-", s)]: of a run of hyphens the last one stays. *)
Fixpoint sub_hyphen_runs (s : pystr) : pystr :=
  match s with
  | [] => []
  | c :: rest =>
      if (c =? HYPHEN) && startswith [HYPHEN] rest
      then sub_hyphen_runs rest
      else c :: sub_hyphen_runs rest
  end.

Section Sanitizer.
Context (U : Unicode).

(** Lines 33 to 36: the name after lowering, replacing, collapsing and
    stripping. *)
Definition cleaned (name : pystr) : pystr :=
  let sanitized := lower U name in
  let sanitized := sub_illegal sanitized in
  let sanitized := sub_hyphen_runs sanitized in
  strip HYPHEN sanitized.

(** Lines 39 to 42, on a non-empty name: the prefix and the trailing-character
    fix, before the final slice. *)
Definition fix_ends (sanitized : pystr) : pystr :=
  let sanitized :=
    if negb (isalpha U (hd 0 sanitized))
    then py "job-" ++ sanitized else sanitized in
  if negb (isalnum U (List.last sanitized 0))
  then removelast sanitized else sanitized.

(** [_sanitize_job_name(name)]; [uuid4_hex] is [uuid.uuid4().hex], drawn by
    the caller. *)
Definition _sanitize_job_name (uuid4_hex : pystr) (name : pystr) : pystr :=
  let sanitized := cleaned name in
  match sanitized with
  | [] => py "job-" ++ take 8 uuid4_hex
  | _ :: _ => take 63 (fix_ends sanitized)
  end.

End Sanitizer.

(** ** pipeline_utils.py: the custom pipeline builder *)

(** [(\d{4}-\d{2}-\d{2}_\d{2}_\d{2}_\d{2}-\d+)]: the items before the final
    [\d+]. *)
Inductive re_item := Digit | Lit (c : N).

Definition job_id_head : list re_item :=
  [Digit; Digit; Digit; Digit; Lit 45; Digit; Digit; Lit 45; Digit; Digit;
   Lit 95; Digit; Digit; Lit 95; Digit; Digit; Lit 95; Digit; Digit; Lit 45].

Section Search.
Context (U : Unicode).

Definition item_ok (it : re_item) (c : N) : bool :=
  match it with
  | Digit => re_digit U c
  | Lit l => c =? l
  end.

(** The items matched at the start of [s]: the matched text and the rest. *)
Fixpoint match_items (items : list re_item) (s : pystr)
    : option (pystr * pystr) :=
  match items, s with
  | [], _ => Some ([], s)
  | _ :: _, [] => None
  | it :: items', c :: s' =>
      if item_ok it c
      then match match_items items' s' with
           | Some (m, rest) => Some (c :: m, rest)
           | None => None
           end
      else None
  end.

Fixpoint leading_digits (s : pystr) : pystr :=
  match s with
  | [] => []
  | c :: rest => if re_digit U c then c :: leading_digits rest else []
  end.

(** The pattern matched at the start of [s]: group 1. *)
Definition match_job_id (s : pystr) : option pystr :=
  match match_items job_id_head s with
  | Some (m, rest) =>
      match leading_digits rest with
      | [] => None
      | ds => Some (m ++ ds)
      end
  | None => None
  end.

(** [re.search(pattern, s)]: the leftmost match, as its group 1. *)
Fixpoint search_job_id (s : pystr) : option pystr :=
  match match_job_id s with
  | Some id => Some id
  | None =>
      match s with
      | [] => None
      | _ :: rest => search_job_id rest
      end
  end.

End Search.

Fixpoint until_quote (s : pystr) : pystr :=
  match s with
  | [] => []
  | c :: rest => if c =? 39 then [] else c :: until_quote rest
  end.

(** A pattern [key: '(...)'] whose group is any run of code points other
    than the quote, matched at the start of [s]; [opening] is the text up to
    and with the first quote. *)
Definition match_quoted (opening s : pystr) : option pystr :=
  if startswith opening s
  then let rest := drop (length opening) s in
       if contains [39] rest then Some (until_quote rest) else None
  else None.

Fixpoint search_quoted (opening s : pystr) : option pystr :=
  match match_quoted opening s with
  | Some v => Some v
  | None =>
      match s with
      | [] => None
      | _ :: rest => search_quoted opening rest
      end
  end.

(** [s.replace(old, new)], for a non-empty [old]; [skip] counts the code
    points of a replaced occurrence still to pass. *)
Fixpoint replace_from (old new : pystr) (skip : nat) (s : pystr) : pystr :=
  match s with
  | [] => []
  | c :: rest =>
      match skip with
      | S k => replace_from old new k rest
      | O =>
          if startswith old s
          then new ++ replace_from old new (length old - 1) rest
          else c :: replace_from old new 0 rest
      end
  end.
Definition replace (old new s : pystr) : pystr := replace_from old new 0 s.

Definition endswith (suffix s : pystr) : bool :=
  startswith (rev suffix) (rev s).

(** [os.path.join(a, *p)] of [posixpath] *)
Definition os_path_join (a : pystr) (p : list pystr) : pystr :=
  foldl (λ path b,
           if startswith (py "/") b then b
           else if bool_decide (path = []) || endswith (py "/") path
                then path ++ b
                else path ++ py "/" ++ b) a p.

(** [d[k] = v] and [{**d, **more}] on an ordered dictionary *)
Fixpoint dict_set (k v : pystr) (d : dict pystr) : dict pystr :=
  match d with
  | [] => [(k, v)]
  | (k', v') :: rest =>
      if bool_decide (k' = k) then (k, v) :: rest
      else (k', v') :: dict_set k v rest
  end.
Definition dict_update (d more : dict pystr) : dict pystr :=
  foldl (λ acc kv, dict_set kv.1 kv.2 acc) d more.

(** [a <= b] on [str]: code point by code point *)
Fixpoint str_le (a b : pystr) : bool :=
  match a, b with
  | [], _ => true
  | _ :: _, [] => false
  | x :: a', y :: b' => (x <? y) || ((x =? y) && str_le a' b')
  end.

(** [sorted(d.items())]: the keys differ, so they alone decide. *)
Fixpoint insert_item (kv : pystr * pystr) (l : dict pystr) : dict pystr :=
  match l with
  | [] => [kv]
  | kv' :: rest =>
      if str_le kv.1 kv'.1 then kv :: l else kv' :: insert_item kv rest
  end.
Definition sorted_items (d : dict pystr) : dict pystr :=
  foldr insert_item [] d.

(** The values [uuid.uuid4()] takes in one call, in the order of the
    draws. *)
Record entropy := {
  (** [str(uuid.uuid4())] in the transient file's name *)
  uuid_temp : pystr;
  (** [uuid.uuid4().hex] in the sanitizer *)
  uuid_job : pystr;
  (** [uuid.uuid4().hex] in the archived script's name *)
  uuid_script : pystr
}.

(** The file system: what each path that exists holds, a regular file
    with its text or a directory; [os.path.exists] is membership. *)
Inductive node :=
  | File (text : pystr)
  | Directory.

Abbreviation files := (gmap pystr node).

(** The batch subprocess once [communicate()] has returned. *)
Record batch_process := {
  b_returncode : Z;
  b_stdout : pystr;
  b_stderr : pystr
}.

Inductive terminate_outcome :=
  | Exited          (* [process.wait()] returned within the timeout *)
  | TimedOut        (* [asyncio.TimeoutError] *)
  | NoSuchProcess.  (* [ProcessLookupError] from [terminate()] *)

(** The streaming subprocess, as the builder meets it: the decoded lines
    its output yields up to end of file, [process.returncode] when the read
    loop is left, what a termination request leads to, and what
    [communicate()] still returns.  A process that neither prints an
    identifier nor closes its output keeps the builder in the loop; such
    a call does not return and has no value here. *)
Record stream_process := {
  s_lines : list pystr;
  s_returncode_after_read : option Z;
  s_terminate : terminate_outcome;
  s_rest : pystr;
  s_returncode : Z
}.

Inductive signal := SIGTERM | SIGKILL.

(** What the [try] block raises. *)
Inductive raised :=
  | CalledProcessError (returncode : Z) (cmd : list pystr) (output : pystr)
  | Exception (str_e : pystr).

(** The collaborators of the builder.  The subprocess is arbitrary code: it
    hands back the file system as it leaves it. *)
Record Host := {
  sys_executable : pystr;
  (** [os.mkdir(path)] where nothing exists at [path]: [None] when the
      directory is made, else [str(e)] (the parent is missing or is no
      directory, the permissions do not allow it) *)
  mkdir_fault : pystr → files → option pystr;
  (** writing the transient file: [None] when it goes through, else
      [str(e)] and the text the file is left with, if it was created *)
  write_fault : pystr → pystr → files → option (pystr * option pystr);
  (** [os.remove(path)] of a regular file: [None] when the file is
      removed, else [str(e)] (the directory does not allow it, the file is
      in use) and the file stays *)
  remove_fault : pystr → files → option pystr;
  exec_batch : list pystr → files → files * (pystr + batch_process);
  exec_streaming : list pystr → files → files * (pystr + stream_process);
  (** [storage.Client(project).bucket(bucket).blob(path)
      .upload_from_string(text)]: [str(e)] when one of the calls raises *)
  upload_from_string : pystr → pystr → pystr → pystr → option pystr
}.

(** The dictionary that is serialised and returned. *)
Inductive report :=
  | Error (error_message : pystr)
  | Final (status report_text job_id : pystr) (gcs_script_path : option pystr).

Definition status_of (r : report) : pystr :=
  match r with
  | Error _ => py "error"
  | Final status _ _ _ => status
  end.

Definition job_id_of (r : report) : option pystr :=
  match r with
  | Error _ => None
  | Final _ _ job_id _ => Some job_id
  end.

(** What a call leaves behind and gives back: the file system, the signals
    sent to the subprocess, and [result], the dictionary that a [return]
    statement hands over, or [str(e)] of the exception that leaves the
    function ahead of the [try] statement.  The [finally] clause runs after
    that: when it raises, [raised_in_finally] is [str(e)] of its exception,
    which then leaves the function in place of the dictionary. *)
Record outcome := {
  fs_after : files;
  signals : list signal;
  result : pystr + report;
  raised_in_finally : option pystr
}.

(** What the caller gets. *)
Definition delivered (o : outcome) : pystr + report :=
  match raised_in_finally o with
  | Some str_e => inl str_e
  | None => result o
  end.

(** [str(e)] of an [OSError] that names a file, as Linux words it;
    [repr_path] is [repr] of the path. *)
Definition os_error (errno strerror repr_path : pystr) : pystr :=
  py "[Errno " ++ errno ++ py "] " ++ strerror ++ py ": " ++ repr_path.

Section WorkingDirectory.
Context (W : Host).

(** [os.mkdir(path)], for a path that [repr] only puts between quotes, as
    those of the working directory are. *)
Definition os_mkdir (path : pystr) (fs : files) : files * option pystr :=
  match fs !! path with
  | Some _ =>
      (fs, Some (os_error (py "17") (py "File exists")
                   (py "'" ++ path ++ py "'")))
  | None =>
      match mkdir_fault W path fs with
      | Some str_e => (fs, Some str_e)
      | None => (<[path := Directory]> fs, None)
      end
  end.

(** [os.makedirs(name, exist_ok=True)] for a relative path [name] given by
    its components, the last one first.  The missing ancestors are made
    first, when the parent does not exist; then [name] itself, where an
    [OSError] is let go if [name] is a directory by then.  (The
    [FileExistsError] that the library ignores in the recursive call takes
    another process to arise.) *)
Fixpoint os_makedirs (rparts : list pystr) (fs : files)
    : files * option pystr :=
  match rparts with
  | [] => (fs, None)
  | tail :: rhead =>
      let name := join (py "/") (rev rparts) in
      let head := join (py "/") (rev rhead) in
      let '(fs, raised) :=
        if bool_decide (rhead ≠ []) && bool_decide (fs !! head = None)
        then os_makedirs rhead fs
        else (fs, None) in
      match raised with
      | Some str_e => (fs, Some str_e)
      | None =>
          match os_mkdir name fs with
          | (fs, Some str_e) =>
              match fs !! name with
              | Some Directory => (fs, None)
              | _ => (fs, Some str_e)
              end
          | (fs, None) => (fs, None)
          end
      end
  end.

Definition makedirs (name : pystr) (fs : files) : files * option pystr :=
  os_makedirs (rev (split 47 name)) fs.

End WorkingDirectory.

Section Builder.
Context (U : Unicode) (W : Host).

(** [os.remove(path)]: a directory is refused ([IsADirectoryError]), a
    regular file is removed unless the host refuses. *)
Definition os_remove (path : pystr) (fs : files) : files * option pystr :=
  match fs !! path with
  | Some Directory =>
      (fs, Some (os_error (py "21") (py "Is a directory") (repr_str U path)))
  | Some (File _) =>
      match remove_fault W path fs with
      | Some str_e => (fs, Some str_e)
      | None => (delete path fs, None)
      end
  | None =>
      (fs, Some (os_error (py "2") (py "No such file or directory")
                   (repr_str U path)))
  end.

(** Lines 173 to 213: the streaming branch.  The loop reads lines up to the
    first that holds an identifier. *)
Fixpoint read_lines (lines : list pystr) (output : pystr)
    : pystr * option pystr :=
  match lines with
  | [] => (output, None)
  | line :: more =>
      let output := output ++ line in
      match search_job_id U line with
      | Some id => (output, Some id)
      | None => read_lines more output
      end
  end.

Definition stop_process (p : stream_process) : list signal :=
  match s_returncode_after_read p with
  | Some _ => []
  | None =>
      match s_terminate p with
      | Exited => [SIGTERM]
      | TimedOut => [SIGTERM; SIGKILL]
      | NoSuchProcess => []
      end
  end.

Definition or_1 (returncode : Z) : Z :=
  if (returncode =? 0)%Z then 1%Z else returncode.

(** Lines 255 to 260: the bucket and the object name of the archived
    script; [None] stands for the [ValueError] of unpacking an empty list. *)
Definition archive_target (gcs_bucket_path sanitized_job_name
    uuid4_hex : pystr) : option (pystr * pystr) :=
  match split 47 (replace (py "gs://") [] gcs_bucket_path) with
  | [] => None
  | bucket_name :: path_parts =>
      let base_prefix :=
        join (py "/") (filter (λ part, part ≠ []) path_parts) in
      let script_filename :=
        sanitized_job_name ++ py "-" ++ take 8 uuid4_hex ++ py ".py" in
      let gcs_path_str :=
        os_path_join base_prefix [py "generated_pipelines"; script_filename] in
      Some (bucket_name, gcs_path_str)
  end.

(** Lines 252 to 267: the archival, with its own handler.  The value is
    [(gcs_path, gcs_error)]. *)
Definition archive (project_id gcs_bucket_path sanitized_job_name
    pipeline_code uuid4_hex : pystr) : option pystr * option pystr :=
  match archive_target gcs_bucket_path sanitized_job_name uuid4_hex with
  | None =>
      (None, Some (py "not enough values to unpack (expected at least 1, got 0)"))
  | Some (bucket_name, gcs_path_str) =>
      match upload_from_string W project_id bucket_name gcs_path_str
              pipeline_code with
      | Some str_e => (None, Some str_e)
      | None => (Some (py "gs://" ++ bucket_name ++ py "/" ++ gcs_path_str), None)
      end
  end.

(** Lines 238 to 290: the report, once an identifier is in hand. *)
Definition report_success (project_id gcs_bucket_path sanitized_job_name
    pipeline_code uuid4_hex output job_id : pystr) : report :=
  let job_details := [(py "name", sanitized_job_name)] in
  let id_match := search_quoted (py "id: '") output in
  let client_request_id_match :=
    search_quoted (py "clientRequestId: '") output in
  let create_time_match := search_quoted (py "createTime: '") output in
  let job_details := dict_set (py "id") job_id job_details in
  let job_details :=
    match id_match, client_request_id_match with
    | Some _, Some v => dict_set (py "clientRequestId") v job_details
    | _, _ => job_details
    end in
  let job_details :=
    match id_match, create_time_match with
    | Some _, Some v => dict_set (py "createTime") v job_details
    | _, _ => job_details
    end in
  let '(gcs_path, gcs_error) :=
    archive project_id gcs_bucket_path sanitized_job_name pipeline_code
      uuid4_hex in
  let report_lines :=
    [py "Successfully launched Dataflow job '" ++ sanitized_job_name
     ++ py "'."] in
  let report_lines := report_lines ++ [py "Job Details:"] in
  let report_lines :=
    report_lines
    ++ map (λ kv, py "  " ++ kv.1 ++ py ": " ++ kv.2)
         (sorted_items job_details) in
  let status := py "success" in
  let report_lines :=
    match gcs_path with
    | Some ((_ :: _) as path) =>
        report_lines
        ++ [nl ++ py "The pipeline script was saved to " ++ path]
    | _ => report_lines
    end in
  let '(status, report_lines) :=
    match gcs_error with
    | Some str_e =>
        (py "success_with_warning",
         report_lines
         ++ [nl ++ py "WARNING: Failed to save the script to GCS. Error: "
             ++ str_e])
    | None => (status, report_lines)
    end in
  Final status (join nl report_lines) job_id gcs_path.

(** Lines 165 to 168 *)
Definition command_line (temp_filename : pystr) (full_args : dict pystr)
    : list pystr :=
  [sys_executable W; temp_filename]
  ++ concat (map (λ kv, [py "--" ++ kv.1; kv.2]) full_args).

(** Lines 162 to 228: the transient file is written and the script is run;
    the value is the captured output with the identifier found in it, if
    any, or what was raised. *)
Definition launch (fs : files) (temp_filename pipeline_code
    pipeline_type : pystr) (full_args : dict pystr)
    : files * list signal * (raised + pystr * option pystr) :=
  match write_fault W temp_filename pipeline_code fs with
  | Some (str_e, left_with) =>
      (match left_with with
       | Some text => <[temp_filename := File text]> fs
       | None => fs
       end, [], inl (Exception str_e))
  | None =>
      let fs := <[temp_filename := File pipeline_code]> fs in
      let command := command_line temp_filename full_args in
      if bool_decide (pipeline_type = py "streaming")
      then
        match exec_streaming W command fs with
        | (fs, inl str_e) => (fs, [], inl (Exception str_e))
        | (fs, inr process) =>
            let '(output, job_id_match) := read_lines (s_lines process) [] in
            let sent := stop_process process in
            match job_id_match with
            | None =>
                let output := output ++ s_rest process in
                (fs, sent,
                 inl (CalledProcessError (or_1 (s_returncode process))
                        command output))
            | Some job_id => (fs, sent, inr (output, Some job_id))
            end
        end
      else
        match exec_batch W command fs with
        | (fs, inl str_e) => (fs, [], inl (Exception str_e))
        | (fs, inr process) =>
            let output := b_stdout process ++ b_stderr process in
            if bool_decide (b_returncode process ≠ 0%Z)
            then (fs, [],
                  inl (CalledProcessError (or_1 (b_returncode process))
                         command output))
            else (fs, [], inr (output, search_job_id U output))
        end
  end.

(** Lines 162 to 290: the [try] block, from the file system in which the
    transient file is about to be written. *)
Definition try_block (fs : files) (temp_filename sanitized_job_name
    project_id gcs_bucket_path pipeline_code pipeline_type uuid4_hex : pystr)
    (full_args : dict pystr)
    : files * list signal * (raised + report) :=
  let '(fs, sent, launched) :=
    launch fs temp_filename pipeline_code pipeline_type full_args in
  (fs, sent,
   match launched with
   | inl e => inl e
   | inr (output, None) =>
       inr (Error (py "Job launched, but could not find Job ID in output. Full output:"
                   ++ nl ++ output))
   | inr (output, Some job_id) =>
       inr (report_success project_id gcs_bucket_path sanitized_job_name
              pipeline_code uuid4_hex output job_id)
   end).

(** Lines 303 to 305: the clause holds no handler of its own. *)
Definition finally (temp_filename : pystr) (fs : files)
    : files * option pystr :=
  if bool_decide (is_Some (fs !! temp_filename))
  then os_remove temp_filename fs else (fs, None).

(** Lines 145 and 147 *)
Definition base_path : pystr :=
  os_path_join (py "plumber") [py "agent"; py "agents"; py "dataflow_agent"].
Definition temp_path (E : entropy) : pystr :=
  os_path_join base_path [py "temp_pipeline_" ++ uuid_temp E ++ py ".py"].

(** Lines 150 to 159 *)
Definition full_args_of (project_id region gcs_bucket_path
    sanitized_job_name : pystr) (pipeline_args : dict pystr) : dict pystr :=
  dict_update
    [(py "runner", py "DataflowRunner");
     (py "project", project_id);
     (py "region", region);
     (py "job_name", sanitized_job_name);
     (py "temp_location", os_path_join gcs_bucket_path [py "temp"]);
     (py "staging_location", os_path_join gcs_bucket_path [py "staging"]);
     (py "labels",
      py "{" ++ dq ++ py "source" ++ dq ++ py ": " ++ dq ++ py "plumber"
      ++ dq ++ py "}")]
    pipeline_args.

(** [generate_and_run_beam_pipeline(project_id, region, gcs_bucket_path,
    job_name, pipeline_code, pipeline_args, pipeline_type)] *)
Definition generate_and_run_beam_pipeline (E : entropy) (fs : files)
    (project_id region gcs_bucket_path job_name pipeline_code : pystr)
    (pipeline_args : dict pystr) (pipeline_type : pystr) : outcome :=
  if negb (forallb (λ x, bool_decide (x ≠ []))
             [project_id; region; gcs_bucket_path])
  then {| fs_after := fs; signals := [];
          result := inr (Error (py "project_id, region, and gcs_bucket_path are required."));
          raised_in_finally := None |}
  else if negb (startswith (py "gs://") gcs_bucket_path)
  then {| fs_after := fs; signals := [];
          result := inr (Error (py "gcs_bucket_path must start with 'gs://'."));
          raised_in_finally := None |}
  else
    match makedirs W base_path fs with
    | (fs, Some str_e) =>
        {| fs_after := fs; signals := []; result := inl str_e;
           raised_in_finally := None |}
    | (fs, None) =>
        let temp_filename := temp_path E in
        let sanitized_job_name := _sanitize_job_name U (uuid_job E) job_name in
        let full_args :=
          full_args_of project_id region gcs_bucket_path sanitized_job_name
            pipeline_args in
        let '(fs, sent, r) :=
          try_block fs temp_filename sanitized_job_name project_id
            gcs_bucket_path pipeline_code pipeline_type (uuid_script E)
            full_args in
        let returned :=
          match r with
          | inr rep => rep
          | inl (CalledProcessError _ _ output) =>
              Error (py "Failed to execute pipeline script." ++ nl
                     ++ py "--- ERROR ---" ++ nl ++ output)
          | inl (Exception str_e) => Error (py "Unexpected error: " ++ str_e)
          end in
        let '(fs, raised) := finally temp_filename fs in
        {| fs_after := fs; signals := sent; result := inr returned;
           raised_in_finally := raised |}
    end.

(** [create_pipeline_from_scratch(...)] *)
Definition create_pipeline_from_scratch (E : entropy) (fs : files)
    (project_id region gcs_bucket_path job_name pipeline_code : pystr)
    (pipeline_args : dict pystr) (pipeline_type : pystr) : outcome :=
  if negb (bool_decide (pipeline_type ∈ [py "batch"; py "streaming"]))
  then {| fs_after := fs; signals := [];
          result := inr (Error (py "Invalid pipeline type. Please choose 'batch' or 'streaming'."));
          raised_in_finally := None |}
  else
    let pipeline_args :=
      if bool_decide (pipeline_type = py "streaming")
      then dict_set (py "streaming") (py "true") pipeline_args
      else pipeline_args in
    generate_and_run_beam_pipeline E fs project_id region gcs_bucket_path
      job_name pipeline_code pipeline_args pipeline_type.

End Builder.
End PipelineUtils.

(** ** Whitespace and lines

    [str.isspace] on one code point, which [str.strip()] and the pattern
    class [\s] share: in ASCII the codes 9 to 13 and 28 to 32; beyond ASCII
    the Unicode database decides, here the argument [space_nonascii]. *)

Section Whitespace.
Context (space_nonascii : N → bool).

Definition isspace (c : N) : bool :=
  if c <? 128 then in_range 9 13 c || in_range 28 32 c
  else space_nonascii c.

(** [s.lstrip()], [s.rstrip()], [s.strip()] *)
Fixpoint lstrip_ws (s : pystr) : pystr :=
  match s with
  | [] => []
  | c :: rest => if isspace c then lstrip_ws rest else s
  end.
Definition rstrip_ws (s : pystr) : pystr := rev (lstrip_ws (rev s)).
Definition strip_ws (s : pystr) : pystr := rstrip_ws (lstrip_ws s).

(** [[^\s]*] at the start of [s] *)
Fixpoint nonspace_run (s : pystr) : pystr :=
  match s with
  | [] => []
  | c :: rest => if isspace c then [] else c :: nonspace_run rest
  end.

(** [announcement\s+(gs://[^\s]+)] matched at the start of [s], for a
    literal [announcement]: group 1.  The run of whitespace is taken whole
    (a shorter one would leave whitespace where [g] is asked for), and so
    is the run that follows [gs://]. *)
Definition match_staged (announcement s : pystr) : option pystr :=
  if startswith announcement s
  then
    match drop (length announcement) s with
    | c :: rest =>
        if isspace c
        then
          let after := lstrip_ws rest in
          if startswith (py "gs://") after
          then
            match nonspace_run (drop 5 after) with
            | [] => None
            | path => Some (py "gs://" ++ path)
            end
          else None
        else None
    | [] => None
    end
  else None.

(** [re.search] with that pattern: the leftmost match. *)
Fixpoint search_staged (announcement s : pystr) : option pystr :=
  match match_staged announcement s with
  | Some path => Some path
  | None =>
      match s with
      | [] => None
      | _ :: rest => search_staged announcement rest
      end
  end.

End Whitespace.

(** The line boundaries of [str.splitlines]: line feed, vertical tab, form
    feed, carriage return, the separators 28 to 30, next line, and the line
    and paragraph separators. *)
Definition linebreak (c : N) : bool :=
  in_range 10 13 c || in_range 28 30 c || (c =? 133) || (c =? 8232)
  || (c =? 8233).

(** [s.splitlines()]; [after_cr] says that the code point before was a
    carriage return, whose line feed belongs to the same boundary. *)
Fixpoint splitlines_from (after_cr : bool) (s : pystr) : list pystr :=
  match s with
  | [] => []
  | c :: rest =>
      if after_cr && (c =? 10) then splitlines_from false rest
      else if linebreak c then [] :: splitlines_from (c =? 13) rest
      else match splitlines_from false rest with
           | line :: lines => (c :: line) :: lines
           | [] => [[c]]
           end
  end.
Definition splitlines (s : pystr) : list pystr := splitlines_from false s.

(** ** The machine the tools run on

    The tools below reach the file system, git, the shell, object storage
    and a generative model.  The machine's state is a type [S] of its own,
    read and changed only through this record; a call's value comes with
    the state it leaves and the list of what it did, in order. *)

Module Machines.

(** A finished child process. *)
Record completed := {
  returncode : Z;
  stdout : pystr;
  stderr : pystr
}.

Inductive action :=
  | GitPull (repo_path : pystr)
  | GitClone (url to_path : pystr)
  | Shell (cmd : pystr)
  | AskModel (prompt : pystr) (arguments : list pystr)
  | CopyTree (src dst : pystr)
  | WriteFile (path text : pystr).

Record Machine (S : Type) := {
  os_path_exists : pystr → S → bool;
  os_path_isdir : pystr → S → bool;
  (** [git.Repo(path).remotes.origin.pull("main")]: [str(err)] when one of
      the calls raises *)
  git_pull : pystr → S → S * option pystr;
  (** [git.Repo.clone_from(url, to_path=path, branch="main")] *)
  git_clone : pystr → pystr → S → S * option pystr;
  (** [subprocess.run(cmd, ..., text=True, shell=True)] up to the exit of
      the child: its exit status and decoded output, or [str(err)] of what
      is raised without one.  The flag says that the child's standard error
      goes to its standard output ([stderr=subprocess.STDOUT]); otherwise
      both are captured apart. *)
  run : pystr → bool → S → S * (pystr + completed);
  (** The text of the model's response to the prompt made from the named
      template of [prompts.py] (which is not part of the sources at hand)
      and its arguments; [str(err)] when setting up the client, formatting
      the prompt, the call or reading the response raises. *)
  generate_content : pystr → list pystr → S → S * (pystr + pystr);
  (** [shutil.copytree(src, dst, dirs_exist_ok=True)] *)
  copytree : pystr → pystr → S → S * option pystr;
  (** [open(path, "r").read()] and [open(path, "w").write(text)] *)
  read_text : pystr → S → pystr + pystr;
  write_text : pystr → pystr → S → S * option pystr;
  (** [storage.Client().bucket(b).blob(n)]: [exists()] and
      [download_as_text()] *)
  blob_exists : pystr → pystr → S → pystr + bool;
  download_as_text : pystr → pystr → S → pystr + pystr
}.
Arguments os_path_exists {S}.
Arguments os_path_isdir {S}.
Arguments git_pull {S}.
Arguments git_clone {S}.
Arguments run {S}.
Arguments generate_content {S}.
Arguments copytree {S}.
Arguments read_text {S}.
Arguments write_text {S}.
Arguments blob_exists {S}.
Arguments download_as_text {S}.

(** What both repository helpers return. *)
Record repo_status := {
  status : pystr;
  repo_path : option pystr
}.

(** [subprocess.run(cmd, capture_output=True, shell=True, text=True,
    check=True).stdout], with [None] for any exception: the two [find]
    helpers catch them all. *)
Definition stdout_of_checked {S : Type} (M : Machine S) (cmd : pystr) (s : S)
    : S * option pystr :=
  match run M cmd false s with
  | (s, inr p) =>
      (s, if (returncode p =? 0)%Z then Some (stdout p) else None)
  | (s, inl _) => (s, None)
  end.

End Machines.

(** ** dataflow_agent/utils.py *)

Module DataflowUtils.
Import Machines.

Section Utils.
Context {S : Type} (M : Machine S) (space_nonascii : N → bool).

(** [find_all_java_files_in_dir(directory)] *)
Definition find_all_java_files_in_dir (directory : pystr) (s : S)
    : S * list action * list pystr :=
  if negb (os_path_isdir M directory s) then (s, [], [])
  else
    let find_cmd :=
      py "find " ++ dq ++ directory ++ dq ++ py " -name " ++ dq
      ++ py "*.java" ++ dq in
    let '(s, out) := stdout_of_checked M find_cmd s in
    (s, [Shell find_cmd],
     match out with
     | Some text => splitlines (strip_ws space_nonascii text)
     | None => []
     end).

(** Lines 96 to 100, shared with [customize_and_build_template]: the
    model's choice, stripped, when it names an existing path. *)
Definition existing_choice (text : pystr) (s : S) : option pystr :=
  let correct_file_path := strip_ws space_nonascii text in
  if bool_decide (correct_file_path = py "not_found")
     || negb (os_path_exists M correct_file_path s)
  then None else Some correct_file_path.

(** [find_template_source_file_with_llm(repo_root_path, template_name,
    template_path_in_repo)] *)
Definition find_template_source_file_with_llm (repo_root_path template_name
    template_path_in_repo : pystr) (s : S) : S * list action * pystr :=
  let search_directory :=
    PipelineUtils.os_path_join repo_root_path [template_path_in_repo] in
  let '(s, did, all_java_files) :=
    find_all_java_files_in_dir search_directory s in
  match all_java_files with
  | [] => (s, did, [])
  | [only] => (s, did, only)
  | _ =>
      let arguments := [template_name; join nl all_java_files] in
      let asked := AskModel (py "CORRECT_JAVA_FILE_INSTRUCTION") arguments in
      match generate_content M (py "CORRECT_JAVA_FILE_INSTRUCTION")
              arguments s with
      | (s, inl _) => (s, did ++ [asked], [])
      | (s, inr text) =>
          (s, did ++ [asked], default [] (existing_choice text s))
      end
  end.

(** [s.split("/", 1)] unpacked into two names; [None] stands for the
    [ValueError] when there is no slash. *)
Fixpoint split_once (s : pystr) : option (pystr * pystr) :=
  match s with
  | [] => None
  | c :: rest =>
      if c =? 47 then Some ([], rest)
      else match split_once rest with
           | Some (a, b) => Some (c :: a, b)
           | None => None
           end
  end.

(** [generate_beam_sql_query_from_sttm(gcs_path)]; every exception ends in
    the empty string. *)
Definition generate_beam_sql_query_from_sttm (gcs_path : pystr) (s : S)
    : S * list action * pystr :=
  match split_once (PipelineUtils.replace (py "gs://") [] gcs_path) with
  | None => (s, [], [])
  | Some (bucket_name, blob_name) =>
      match blob_exists M bucket_name blob_name s with
      | inl _ | inr false => (s, [], [])
      | inr true =>
          match download_as_text M bucket_name blob_name s with
          | inl _ => (s, [], [])
          | inr file_content =>
              let asked :=
                AskModel (py "STTM_PARSING_INSTRUCTIONS_BEAM")
                  [file_content] in
              match generate_content M (py "STTM_PARSING_INSTRUCTIONS_BEAM")
                      [file_content] s with
              | (s, inl _) => (s, [asked], [])
              | (s, inr text) =>
                  let output_sql :=
                    strip_ws space_nonascii
                      (PipelineUtils.replace (py "```") []
                         (PipelineUtils.replace (py "```sql") [] text)) in
                  (s, [asked], output_sql)
              end
          end
      end
  end.

End Utils.
End DataflowUtils.

(** ** dataflow_template_tools.py: the template repository and the build *)

Module TemplateBuild.
Import Machines.

(** The dictionary [customize_and_build_template] returns. *)
Record build_result := {
  build_status : pystr;
  build_comment : pystr;
  staged_template_gcs_path : option pystr;
  stdout_key : option pystr;
  stderr_key : option pystr
}.

Definition build_failed (why : pystr) (stdout stderr : option pystr)
    : build_result :=
  {| build_status := py "failed"; build_comment := why;
     staged_template_gcs_path := None;
     stdout_key := stdout; stderr_key := stderr |}.

(** Lines 235 to 238 *)
Definition flex_announcement : pystr := py "Flex Template was staged!".
Definition classic_announcement : pystr :=
  py "Template staged successfully. It is available at".

(** Lines 211 to 220; the backslash has code 92. *)
Definition mvn_cmd_of (gcp_project bucket_name template_name
    template_module_path : pystr) : pystr :=
  let default_labels := py "plumber" in
  let continued := py " " ++ [92] ++ nl ++ py "            " in
  nl ++ py "        mvn clean package -PtemplatesStage -DskipTests"
  ++ continued ++ py "-DprojectId=" ++ dq ++ gcp_project ++ dq
  ++ continued ++ py "-DbucketName=" ++ dq ++ bucket_name ++ dq
  ++ continued ++ py "-DstagePrefix=" ++ dq ++ py "templates" ++ dq
  ++ continued ++ py "-DtemplateName=" ++ dq ++ template_name ++ dq
  ++ continued ++ py "-Dlabels=" ++ default_labels
  ++ continued ++ py "-f " ++ dq ++ template_module_path ++ dq
  ++ nl ++ py "        ".

Section Build.
Context {S : Type} (M : Machine S) (space_nonascii : N → bool).
(** Of [dataflow_agent/constants.py], which is not part of the sources at
    hand. *)
Context (GIT_PATH DATAFLOW_TEMPLATE_GIT_URL : pystr).

(** [get_dataflow_template_repo()] *)
Definition get_dataflow_template_repo (s : S)
    : S * list action * repo_status :=
  let repo_path := py "./" ++ GIT_PATH ++ py "/DataflowTemplates" in
  let '(s, did, raised) :=
    if os_path_exists M repo_path s
    then let '(s, raised) := git_pull M repo_path s in
         (s, [GitPull repo_path], raised)
    else let '(s, raised) :=
           git_clone M DATAFLOW_TEMPLATE_GIT_URL repo_path s in
         (s, [GitClone DATAFLOW_TEMPLATE_GIT_URL repo_path], raised) in
  (s, did,
   match raised with
   | None => {| status := py "success"; repo_path := Some repo_path |}
   | Some str_err =>
       {| status := py "error - " ++ str_err; repo_path := None |}
   end).

(** Lines 233 to 244: the first pattern that is found gives the path. *)
Definition staged_path_of (combined_output : pystr) : pystr :=
  match search_staged space_nonascii flex_announcement combined_output with
  | Some path => path
  | None =>
      match search_staged space_nonascii classic_announcement
              combined_output with
      | Some path => path
      | None => []
      end
  end.

(** Lines 209 to 259, once the source file is identified. *)
Definition build_and_stage (gcp_project bucket_name template_name
    template_path repo_root_path : pystr) (s : S)
    : S * list action * build_result :=
  let template_module_path :=
    PipelineUtils.os_path_join repo_root_path [template_path] in
  let mvn_cmd :=
    mvn_cmd_of gcp_project bucket_name template_name template_module_path in
  match run M mvn_cmd true s with
  | (s, inl str_err) =>
      (s, [Shell mvn_cmd],
       build_failed (py "An unexpected error occurred: " ++ str_err)
         None None)
  | (s, inr p) =>
      if bool_decide (returncode p ≠ 0%Z)
      then (s, [Shell mvn_cmd],
            build_failed (py "The maven build command failed.")
              (Some (stdout p)) (Some []))
      else
        let combined_output := stdout p in
        match staged_path_of combined_output with
        | [] =>
            (s, [Shell mvn_cmd],
             build_failed
               (py "Build succeeded, but could not find the staged template GCS path in the build output.")
               (Some combined_output) None)
        | staged_path =>
            (s, [Shell mvn_cmd],
             {| build_status := py "success";
                build_comment :=
                  py "Template '" ++ template_name
                  ++ py "' was built and staged.";
                staged_template_gcs_path := Some staged_path;
                stdout_key := None; stderr_key := None |})
        end
  end.

(** [customize_and_build_template(gcp_project, bucket_name, template_name,
    template_path, sttm_gcs_path)] *)
Definition customize_and_build_template (gcp_project bucket_name
    template_name template_path sttm_gcs_path : pystr) (s : S)
    : S * list action * build_result :=
  let '(s, did, repo_status) := get_dataflow_template_repo s in
  if contains (py "error") (status repo_status)
  then (s, did,
        build_failed
          (py "Could not access template repo: " ++ status repo_status)
          None None)
  else
    match repo_path repo_status with
    | None =>
        (* [KeyError('repo_path')] *)
        (s, did,
         build_failed (py "An unexpected error occurred: 'repo_path'")
           None None)
    | Some repo_root_path =>
        let search_directory :=
          PipelineUtils.os_path_join repo_root_path [template_path] in
        let '(s, found, all_java_files) :=
          DataflowUtils.find_all_java_files_in_dir M space_nonascii
            search_directory s in
        let did := did ++ found in
        match all_java_files with
        | [] =>
            (s, did,
             build_failed
               (py "No .java source files found in directory: "
                ++ search_directory) None None)
        | _ :: _ =>
            let arguments := [template_name; join nl all_java_files] in
            let did :=
              did ++ [AskModel (py "CORRECT_JAVA_FILE_INSTRUCTION")
                        arguments] in
            match generate_content M (py "CORRECT_JAVA_FILE_INSTRUCTION")
                    arguments s with
            | (s, inl str_err) =>
                (s, did,
                 build_failed (py "An unexpected error occurred: " ++ str_err)
                   None None)
            | (s, inr text) =>
                match DataflowUtils.existing_choice M space_nonascii text s
                with
                | None =>
                    (s, did,
                     build_failed
                       (py "LLM could not identify the correct source file for "
                        ++ template_name ++ py ".") None None)
                | Some _ =>
                    let '(s, built, r) :=
                      build_and_stage gcp_project bucket_name template_name
                        template_path repo_root_path s in
                    (s, did ++ built, r)
                end
            end
        end
    end.

End Build.
End TemplateBuild.

(** ** dataproc_template_agent/utils.py: files, repository, template copy *)

Module DataprocTemplates.
Import Machines.

(** constants.py *)
Definition DATAPROC_TEMPLATE_GIT_URL : pystr :=
  py "https://github.com/GoogleCloudPlatform/dataproc-templates".
Definition TEMPLATE_REPO_PATH : pystr :=
  py "src/agents/plumber/agents/dataproc_template_agent/sources/git/dataproc_template".
Definition GIT_PATH : pystr :=
  py "src/agents/plumber/agents/dataproc_template_agent/sources/git".
Definition TEMP_DIR_PATH : pystr :=
  py "src/agents/plumber/agents/dataproc_template_agent/temp".

Section Templates.
Context {S : Type} (M : Machine S) (space_nonascii : N → bool).

(** [find_files(dir, regex)] *)
Definition find_files (dir regex : pystr) (s : S)
    : S * list action * list pystr :=
  let readmd_run_cmd :=
    py "find " ++ dir ++ py " -iname " ++ dq ++ regex ++ dq
    ++ py " -not -iname " ++ dq ++ py "*Config*" ++ dq in
  let '(s, out) := stdout_of_checked M readmd_run_cmd s in
  (s, [Shell readmd_run_cmd],
   match out with
   | Some text => splitlines text
   | None => []
   end).

(** [get_dataproc_template_repo()] *)
Definition get_dataproc_template_repo (s : S)
    : S * list action * repo_status :=
  let path := py "./" ++ GIT_PATH ++ py "/dataproc_template" in
  if os_path_exists M path s
  then
    let '(s, raised) := git_pull M path s in
    (s, [GitPull path],
     match raised with
     | None =>
         {| status :=
              py "success - repo already exists, updated with latest changes";
            repo_path := Some path |}
     | Some str_err =>
         {| status := py "error - " ++ str_err; repo_path := None |}
     end)
  else
    let '(s, raised) := git_clone M DATAPROC_TEMPLATE_GIT_URL path s in
    (s, [GitClone DATAPROC_TEMPLATE_GIT_URL path],
     match raised with
     | None =>
         {| status := py "success - repo created"; repo_path := Some path |}
     | Some str_err =>
         {| status := py "error - " ++ str_err; repo_path := None |}
     end).


(** Lines 275 to 282 *)
Definition temp_template_repo_path_of (run_id : pystr) : pystr :=
  py "./" ++ TEMP_DIR_PATH ++ py "/" ++ run_id ++ py "/dataproc_template".
Definition temp_template_path_of (run_id template_file_name
    template_dir : pystr) : pystr :=
  PipelineUtils.replace (py "./" ++ TEMPLATE_REPO_PATH)
    (temp_template_repo_path_of run_id)
    (template_dir ++ py "/" ++ template_file_name).


End Templates.
End DataprocTemplates.

(** ** dbt_agent/tools/dbt_project_runner.py *)

Module DbtRunner.
Import Machines.

(** The dictionary [run_dbt_project] returns; [None] is Python's [None]. *)
Record dbt_result := {
  dbt_status : pystr;
  return_code : option Z;
  output : pystr
}.

(** [subprocess.run(cmd, capture_output=True, text=True, check=True,
    shell=True)]: the completed process, or what is raised. *)
Inductive checked :=
  | Returned (p : completed)
  | CalledProcessError (p : completed)
  | Raised (str_err : pystr).

Section Runner.
Context {S : Type} (M : Machine S).

Definition checked_run (cmd : pystr) (s : S) : S * checked :=
  match run M cmd false s with
  | (s, inl str_err) => (s, Raised str_err)
  | (s, inr p) =>
      (s, if (returncode p =? 0)%Z then Returned p else CalledProcessError p)
  end.

Definition dbt_debug_cmd (dbt_project_path : pystr) : pystr :=
  py "dbt debug --project-dir " ++ dbt_project_path ++ py " --profiles-dir "
  ++ dbt_project_path.
Definition dbt_run_cmd (dbt_project_path : pystr) : pystr :=
  py "dbt run --project-dir " ++ dbt_project_path ++ py "  --profiles-dir "
  ++ dbt_project_path.

(** The two handlers. *)
Definition on_called (cmd_err : completed) : dbt_result :=
  {| dbt_status := py "error"; return_code := Some (returncode cmd_err);
     output := stderr cmd_err |}.
Definition on_exception (str_err : pystr) : dbt_result :=
  {| dbt_status := py "failure"; return_code := None; output := str_err |}.

(** [run_dbt_project(dbt_project_path)] *)
Definition run_dbt_project (dbt_project_path : pystr) (s : S)
    : S * list action * dbt_result :=
  let debug := Shell (dbt_debug_cmd dbt_project_path) in
  let run := Shell (dbt_run_cmd dbt_project_path) in
  match checked_run (dbt_debug_cmd dbt_project_path) s with
  | (s, CalledProcessError cmd_err) => (s, [debug], on_called cmd_err)
  | (s, Raised str_err) => (s, [debug], on_exception str_err)
  | (s, Returned _) =>
      match checked_run (dbt_run_cmd dbt_project_path) s with
      | (s, CalledProcessError cmd_err) =>
          (s, [debug; run], on_called cmd_err)
      | (s, Raised str_err) => (s, [debug; run], on_exception str_err)
      | (s, Returned dbt_run_status) =>
          (s, [debug; run],
           {| dbt_status := py "success";
              return_code := Some (returncode dbt_run_status);
              output := stdout dbt_run_status |})
      end
  end.

End Runner.
End DbtRunner.

(** ** github_agent/utils.py: the repository path *)

Module GithubUtils.

(** [s.split(sep)] for a non-empty [sep]; [skip] counts the code points of
    a separator just found that are still to pass. *)
Fixpoint split_str_from (sep : pystr) (skip : nat) (s : pystr)
    : list pystr :=
  match s with
  | [] => [[]]
  | c :: rest =>
      match skip with
      | S k => split_str_from sep k rest
      | O =>
          if startswith sep s
          then [] :: split_str_from sep (length sep - 1) rest
          else match split_str_from sep 0 rest with
               | w :: ws => (c :: w) :: ws
               | [] => [[c]]
               end
      end
  end.
Definition split_str (sep s : pystr) : list pystr := split_str_from sep 0 s.

(** [s.rstrip(chars)]: the trailing code points that occur in [chars] are
    dropped. *)
Fixpoint lstrip_chars (chars s : pystr) : pystr :=
  match s with
  | [] => []
  | c :: rest =>
      if bool_decide (c ∈ chars) then lstrip_chars chars rest else s
  end.
Definition rstrip_chars (chars s : pystr) : pystr :=
  rev (lstrip_chars chars (rev s)).

(** [_parse_repo_path(repository)]; [None] is Python's [None]. *)
Definition _parse_repo_path (repository : pystr)
    : option pystr * option pystr :=
  let repo_path :=
    if startswith (py "http://") repository
       || startswith (py "https://") repository
    then rstrip_chars (py ".git")
           (List.last (split_str (py "github.com/") repository) [])
    else repository in
  if negb (contains (py "/") repo_path) then (None, None)
  else
    match DataflowUtils.split_once repo_path with
    | Some (owner, repo) => (Some owner, Some repo)
    | None => (None, None)
    end.

End GithubUtils.


(** * Specification vocabulary and test doubles

    The predicates in which the properties are stated, and the concrete
    collaborators on which they are exercised. *)

Import PipelineUtils.
Import DataflowTemplateTools.

(** ** For the validators *)

(** The schema's lists, as both copies read them. *)
Definition required_of (S : gmap pystr (list pystr)) : list pystr :=
  default [] (S !! py "required").
Definition optional_of (S : gmap pystr (list pystr)) : list pystr :=
  default [] (S !! py "optional").
Definition legal_of (S : gmap pystr (list pystr)) : list pystr :=
  required_of S ++ optional_of S.

(** Every supplied name is legal, and every required name is supplied. *)
Definition conforms {V : Type} (S : gmap pystr (list pystr)) (P : dict V)
    : Prop :=
  keys P ⊆ legal_of S ∧ required_of S ⊆ keys P.

(** [list(set(a) - set(b))]: its members, each once. *)
Definition difference_list (a b : list pystr) : list pystr :=
  elements (list_to_set a ∖ list_to_set b : gset pystr).

(** The schema and the inputs of the examples: [required: [a, b]],
    [optional: [c]]. *)
Definition abc_schema : gmap pystr (list pystr) :=
  {[ py "required" := [py "a"; py "b"]; py "optional" := [py "c"] ]}.
Definition a_schema : gmap pystr (list pystr) :=
  {[ py "required" := [py "a"]; py "optional" := [] ]}.

(** A schema with longer names. *)
Definition bucket_schema : gmap pystr (list pystr) :=
  {[ py "required" := [py "bucket"]; py "optional" := [py "table"] ]}.

(** ** For the sanitizer *)

(** [[a-z0-9]] *)
Definition lower_alnum (c : N) : bool := ascii_lower_letter c || ascii_digit c.

(** [^[a-z][a-z0-9-]*[a-z0-9]$] on the whole string. *)
Definition whole_name_re (s : pystr) : bool :=
  match s with
  | c :: ((_ :: _) as rest) =>
      ascii_lower_letter c && forallb job_char (removelast rest)
      && lower_alnum (List.last rest 0)
  | _ => false
  end.

(** [re.search] with that pattern: [$] also matches before a final
    newline. *)
Definition name_re (s : pystr) : bool :=
  whole_name_re s
  || (endswith nl s && whole_name_re (removelast s)).

(** [^[a-z]([a-z0-9-]*[a-z0-9])?$]: a letter alone is a name as well. *)
Definition relaxed_name_re (s : pystr) : bool :=
  match s with
  | [c] => ascii_lower_letter c
  | _ => whole_name_re s
  end.

(** [[0-9a-f]] *)
Definition hex_char (c : N) : bool := ascii_digit c || in_range 97 102 c.

(** [job-] and eight hexadecimal digits. *)
Definition fallback_form (s : pystr) : bool :=
  startswith (py "job-") s && bool_decide (length s = 12%nat)
  && forallb hex_char (drop 4 s).

(** [uuid.uuid4().hex]: 32 hexadecimal digits. *)
Definition uuid4_hex_form (s : pystr) : bool :=
  bool_decide (length s = 32%nat) && forallb hex_char s.

(** No two hyphens in a row. *)
Fixpoint no_hyphen_runs (s : pystr) : bool :=
  match s with
  | [] => true
  | c :: rest =>
      negb ((c =? 45) && startswith [45] rest) && no_hyphen_runs rest
  end.

(** A name of the target form: letters, digits and single hyphens, a letter
    first, a letter or digit last. *)
Definition settled (s : pystr) : Prop :=
  ∃ c r, s = c :: r
    ∧ ascii_lower_letter c = true
    ∧ Forall (λ c, job_char c = true) r
    ∧ lower_alnum (List.last (c :: r) 0) = true
    ∧ no_hyphen_runs (c :: r) = true.

(** Character-class goals: the classes are unfolded to comparisons. *)
Ltac char_lia :=
  unfold job_char, lower_alnum, hex_char, ascii_letter, ascii_lower_letter,
    ascii_upper_letter, ascii_digit, in_range in *;
  rewrite ?orb_true_iff, ?andb_true_iff, ?orb_false_iff, ?andb_false_iff,
    ?N.leb_le, ?N.eqb_eq, ?N.ltb_lt, ?N.leb_gt, ?N.eqb_neq, ?N.ltb_ge in *;
  lia.

(** ** For the template submission *)

(** The platform's side of the caret convention: [^D^] declares the
    delimiter [D], the fields are what stands between its occurrences, and
    a field is a name and a value around its first [=]. *)
Definition caret_fields (s : pystr) : option (list pystr) :=
  match s with
  | 94 :: d :: 94 :: body => Some (split d body)
  | _ => None
  end.

Fixpoint key_value (field : pystr) : pystr * pystr :=
  match field with
  | [] => ([], [])
  | c :: rest =>
      if c =? 61 then ([], rest)
      else let '(k, v) := key_value rest in (c :: k, v)
  end.

Definition decode_parameters (s : pystr) : option (list (pystr * pystr)) :=
  map key_value <$> caret_fields s.

Definition flex_prefix : pystr := py "gcloud dataflow flex-template run ".
Definition classic_prefix : pystr := py "gcloud dataflow jobs run ".

(** Test doubles: a decoder that knows a few JSON texts, and a shell that
    exits with status 0 and prints what it is told to. *)
Definition q (s : pystr) : pystr := dq ++ s ++ dq.

Fixpoint assoc {A} (k : pystr) (table : list (pystr * A)) : option A :=
  match table with
  | [] => None
  | (k', v) :: rest => if bool_decide (k' = k) then Some v else assoc k rest
  end.

Definition loads_from {A} (table : list (pystr * A)) (text : pystr)
    : pystr + A :=
  match assoc text table with
  | Some v => inr v
  | None => inl (py "Expecting value: line 1 column 1 (char 0)")
  end.

Definition wordcount : template_dict :=
  {| template_gcs_path := Some (py "gs://dataflow-templates/latest/Word_Count");
     type_ := Some (py "CLASSIC");
     params := Some a_schema |}.
Definition wordcount_json : pystr :=
  py "{" ++ q (py "template_gcs_path") ++ py ": "
  ++ q (py "gs://dataflow-templates/latest/Word_Count") ++ py ", "
  ++ q (py "type") ++ py ": " ++ q (py "CLASSIC") ++ py ", "
  ++ q (py "params") ++ py ": {" ++ q (py "required") ++ py ": ["
  ++ q (py "a") ++ py "], " ++ q (py "optional") ++ py ": []}}".

Definition kafka : template_dict :=
  {| template_gcs_path :=
       Some (py "gs://dataflow-templates/latest/flex/Kafka_to_BigQuery");
     type_ := Some (py "FLEX");
     params := Some a_schema |}.
Definition kafka_json : pystr :=
  py "{" ++ q (py "template_gcs_path") ++ py ": "
  ++ q (py "gs://dataflow-templates/latest/flex/Kafka_to_BigQuery") ++ py ", "
  ++ q (py "type") ++ py ": " ++ q (py "FLEX") ++ py ", "
  ++ q (py "params") ++ py ": {" ++ q (py "required") ++ py ": ["
  ++ q (py "a") ++ py "], " ++ q (py "optional") ++ py ": []}}".

(** [{"a": "x~y"}], [{"a": "x,y"}] *)
Definition a_is (value : pystr) : pystr :=
  py "{" ++ q (py "a") ++ py ": " ++ q value ++ py "}".

Definition test_world (printed : pystr) : World pystr :=
  {| json_loads_inputs :=
       loads_from [(a_is (py "x~y"), IObject [(py "a", py "x~y")]);
                   (a_is (py "x,y"), IObject [(py "a", py "x,y")]);
                   (py "[]", INotObject (py "list"));
                   (py "null", INotObject (py "NoneType"))];
     json_loads_template :=
       loads_from
         [(wordcount_json, TObject wordcount);
          (kafka_json, TObject kafka);
          (py "[" ++ wordcount_json ++ py "]", TArray [TObject wordcount]);
          (py "[[" ++ wordcount_json ++ py "]]",
           TArray [TArray [TObject wordcount]]);
          (py "[]", TArray [])];
     value_str := λ v, v;
     subprocess_run := λ _, Completed printed |}.

Definition kafka_command : pystr :=
  py "gcloud dataflow flex-template run wc --project=proj --region=us-central1 --template-file-gcs-location=gs://dataflow-templates/latest/flex/Kafka_to_BigQuery --parameters "
  ++ q (py "^~^a=x,y") ++ py " --additional-user-labels=source=plumber".

(** ** For the pipeline builder *)

(** The call gets as far as writing the transient file: the three required
    arguments are given, the bucket path starts with [gs://], and the
    working directory could be made. *)
Definition reaches_write (W : Host) (fs : files)
    (project_id region gcs_bucket_path : pystr) : Prop :=
  project_id ≠ [] ∧ region ≠ [] ∧ gcs_bucket_path ≠ []
  ∧ startswith (py "gs://") gcs_bucket_path = true
  ∧ (makedirs W base_path fs).2 = None.

(** The file system in which the transient file is written: the one of the
    call, with the working directory made. *)
Definition workdir_made (W : Host) (fs : files) : files :=
  (makedirs W base_path fs).1.

(** The working directory and its ancestors. *)
Definition workdirs : list pystr :=
  [py "plumber"; py "plumber/agent"; py "plumber/agent/agents";
   py "plumber/agent/agents/dataflow_agent"].

(** What running the script came to in a call: the captured output with
    the identifier found in it, or what was raised. *)
Definition launched (U : Unicode) (W : Host) (E : entropy) (fs : files)
    (project_id region gcs_bucket_path job_name pipeline_code : pystr)
    (pipeline_args : dict pystr) (pipeline_type : pystr)
    : raised + pystr * option pystr :=
  (launch U W (workdir_made W fs) (temp_path E) pipeline_code pipeline_type
     (full_args_of project_id region gcs_bucket_path
        (_sanitize_job_name U (uuid_job E) job_name) pipeline_args)).2.

(** Test doubles: a host on which everything goes through, whose script
    prints [printed] and exits with status 0 (in streaming mode it is
    stopped on request), and whose object storage answers [upload_error]. *)
Definition test_host (printed : pystr) (upload_error : option pystr) : Host :=
  {| sys_executable := py "/usr/bin/python3";
     mkdir_fault := λ _ _, None;
     write_fault := λ _ _ _, None;
     remove_fault := λ _ _, None;
     exec_batch := λ _ fs,
       (fs, inr {| b_returncode := 0; b_stdout := printed; b_stderr := [] |});
     exec_streaming := λ _ fs,
       (fs, inr {| s_lines := [printed]; s_returncode_after_read := None;
                   s_terminate := Exited; s_rest := [];
                   s_returncode := (-15)%Z |});
     upload_from_string := λ _ _ _ _, upload_error |}.

Definition test_entropy : entropy :=
  {| uuid_temp := py "6f1c2d3e-4a5b-4c6d-8e9f-0a1b2c3d4e5f";
     uuid_job := py "0123456789ab4def8123456789abcdef";
     uuid_script := py "89abcdef0123456789abcdef01234567" |}.

Definition printed_id : pystr :=
  py "Submitted job: 2024-05-06_07_08_09-1234567890123456789" ++ nl.


(** A host whose script puts a directory where its source file was, then
    prints an identifier and exits with status 0. *)
Definition replacing_host : Host :=
  {| sys_executable := py "/usr/bin/python3";
     mkdir_fault := λ _ _, None;
     write_fault := λ _ _ _, None;
     remove_fault := λ _ _, None;
     exec_batch := λ command fs,
       (<[default [] (command !! 1%nat) := Directory]> fs,
        inr {| b_returncode := 0; b_stdout := printed_id; b_stderr := [] |});
     exec_streaming := λ _ fs, (fs, inl (py "No such file or directory"));
     upload_from_string := λ _ _ _ _, None |}.

(** A host whose streaming script prints an identifier on its second line
    and does not exit within the timeout once asked to. *)
Definition stubborn_host : Host :=
  {| sys_executable := py "/usr/bin/python3";
     mkdir_fault := λ _ _, None;
     write_fault := λ _ _ _, None;
     remove_fault := λ _ _, None;
     exec_batch := λ _ fs, (fs, inl (py "not used"));
     exec_streaming := λ _ fs,
       (fs, inr {| s_lines := [py "starting" ++ nl; printed_id;
                               py "running" ++ nl];
                   s_returncode_after_read := None;
                   s_terminate := TimedOut; s_rest := py "more";
                   s_returncode := (-9)%Z |});
     upload_from_string := λ _ _ _ _, None |}.

(** ** For the further properties *)

(** A name that needs no repair: the relaxed pattern, no two hyphens in a
    row, at most 63 characters. *)
Definition valid_job_name (s : pystr) : bool :=
  relaxed_name_re s && no_hyphen_runs s && bool_decide (length s ≤ 63)%nat.

(** The text of a job identifier: the twenty items of the pattern's head,
    then one digit or more. *)
Definition job_id_form (U : Unicode) (id : pystr) : Prop :=
  Forall2 (λ it c, item_ok U it c = true) job_id_head (take 20 id)
  ∧ drop 20 id ≠ []
  ∧ Forall (λ c, re_digit U c = true) (drop 20 id).

(** ** For the tools that shell out *)

(** A path as [find] prints it: not empty, on one line, no whitespace at
    either end. *)
Definition plain_path (ws : N → bool) (f : pystr) : Prop :=
  f ≠ [] ∧ Forall (λ c, linebreak c = false) f
  ∧ isspace ws (hd 0 f) = false ∧ isspace ws (List.last f 0) = false.

(** The output of a process that prints each line and ends it. *)
Definition printed_lines (lines : list pystr) : pystr :=
  concat (map (λ l, l ++ nl) lines).

(** Test double: a machine without state of its own, on which the paths
    of [there] exist (as directories too), git answers [git_error], the
    shell answers by [shell], the model by [answer], and files and objects
    can be read and written. *)
Definition test_machine (there : list pystr) (git_error : option pystr)
    (shell : pystr → pystr + Machines.completed) (answer : pystr + pystr)
    : Machines.Machine unit :=
  {| Machines.os_path_exists := λ path _, bool_decide (path ∈ there);
     Machines.os_path_isdir := λ path _, bool_decide (path ∈ there);
     Machines.git_pull := λ _ s, (s, git_error);
     Machines.git_clone := λ _ _ s, (s, git_error);
     Machines.run := λ cmd _ s, (s, shell cmd);
     Machines.generate_content := λ _ _ s, (s, answer);
     Machines.copytree := λ _ _ s, (s, None);
     Machines.read_text := λ _ _, inr (py "print(1)");
     Machines.write_text := λ _ _ s, (s, None);
     Machines.blob_exists := λ _ _ _, inr true;
     Machines.download_as_text := λ _ _ _, inr (py "a,b") |}.

Definition exits (code : Z) (out : pystr) : pystr + Machines.completed :=
  inr {| Machines.returncode := code; Machines.stdout := out;
         Machines.stderr := [] |}.

(** A machine on which the repository is in place, [find] prints two Java
    files, the model picks the first, and the build announces a staged flex
    template. *)
Definition build_shell (cmd : pystr) : pystr + Machines.completed :=
  if startswith (py "find ") cmd
  then exits 0
         (printed_lines
            [py "./git/DataflowTemplates/v2/kafka/src/KafkaToBQ.java";
             py "./git/DataflowTemplates/v2/kafka/src/Options.java"])
  else exits 0
         (py "[INFO] Flex Template was staged! gs://bkt/templates/flex/Kafka_to_BQ"
          ++ nl ++ py "[INFO] BUILD SUCCESS" ++ nl).

Definition build_machine : Machines.Machine unit :=
  test_machine
    [py "./git/DataflowTemplates"; py "./git/DataflowTemplates/v2/kafka";
     py "./git/DataflowTemplates/v2/kafka/src/KafkaToBQ.java"]
    None build_shell
    (inr (py " ./git/DataflowTemplates/v2/kafka/src/KafkaToBQ.java" ++ nl)).

(** Machines for single steps: one whose model answers with fenced code,
    one that cannot reach the git remote, and one on which [find] prints a
    single file while the model is out of reach. *)
Definition fenced_answer : pystr :=
  py "```python" ++ nl ++ py "print(2)" ++ nl ++ py "```" ++ nl.
Definition copy_machine : Machines.Machine unit :=
  test_machine [] None build_shell (inr fenced_answer).
Definition offline_machine : Machines.Machine unit :=
  test_machine [] (Some (py "could not resolve host")) build_shell (inl []).
Definition single_file_machine : Machines.Machine unit :=
  test_machine [py "./r/t"] None
    (λ _, exits 0 (printed_lines [py "./r/t/Main.java"]))
    (inl (py "model is down")).

(** Two results of [run_dbt_project] with different statuses differ. *)
Ltac status_clash H :=
  apply (f_equal DbtRunner.dbt_status) in H; vm_compute in H; discriminate H.

(** * Properties *)

(** ** The validators *)

Section ValidatorFacts.
Context {V : Type}.
Implicit Types (S : gmap pystr (list pystr)) (P : dict V).

Lemma difference_list_spec a b x :
  x ∈ difference_list a b ↔ x ∈ a ∧ x ∉ b.
Proof.
  unfold difference_list. rewrite elem_of_elements. set_solver.
Qed.

Lemma difference_list_NoDup a b : NoDup (difference_list a b).
Proof. apply NoDup_elements. Qed.

Lemma difference_list_nil a b : difference_list a b = [] ↔ a ⊆ b.
Proof.
  split.
  - intros E x Hx. destruct (decide (x ∈ b)) as [|Hn]; [done|].
    assert (x ∈ difference_list a b) as H by (apply difference_list_spec; done).
    rewrite E in H. by apply elem_of_nil in H.
  - intros Hsub. destruct (difference_list a b) as [|x l] eqn:E; [done|].
    assert (x ∈ difference_list a b) as H by (rewrite E; left).
    apply difference_list_spec in H as [Ha Hb]. destruct Hb. by apply Hsub.
Qed.

Lemma dataflow_validate_cases U S P :
  let r := DataflowTemplateTools.validate_input_params U S P in
  (keys P ⊆ legal_of S ∧ required_of S ⊆ keys P
     ∧ r = {| validation_result := py "success"; comment := py "Validation Passed" |})
  ∨ (¬ keys P ⊆ legal_of S
     ∧ r = {| validation_result := py "failed";
              comment := py "Invalid param(s) passed: "
                         ++ repr_list U (difference_list (keys P) (legal_of S))
                         ++ py ". Valid params are: " ++ repr_list U (legal_of S) |})
  ∨ (keys P ⊆ legal_of S ∧ ¬ required_of S ⊆ keys P
     ∧ r = {| validation_result := py "failed";
              comment := py "Missing required param(s): "
                         ++ repr_list U (difference_list (required_of S) (keys P)) |}).
Proof.
  intros r. subst r. unfold DataflowTemplateTools.validate_input_params.
  fold (required_of S) (optional_of S). fold (legal_of S).
  fold (difference_list (keys P) (legal_of S)).
  fold (difference_list (required_of S) (keys P)).
  destruct (difference_list (keys P) (legal_of S)) as [|i li] eqn:Ei.
  - apply difference_list_nil in Ei.
    destruct (difference_list (required_of S) (keys P)) as [|m lm] eqn:Em.
    + apply difference_list_nil in Em. by left.
    + right; right. split; [done|]. split; [|done].
      intros Hsub. apply difference_list_nil in Hsub. congruence.
  - right; left. split; [|done].
    intros Hsub. apply difference_list_nil in Hsub. congruence.
Qed.

Lemma dataproc_validate_cases S P :
  let r := DataprocUtils.validate_input_params S P in
  (keys P ⊆ legal_of S ∧ required_of S ⊆ keys P
     ∧ r = {| validation_result := py "success"; comment := py "Validation Passed" |})
  ∨ (¬ keys P ⊆ legal_of S
     ∧ r = {| validation_result := py "failed"; comment := py "Invalid param passed" |})
  ∨ (keys P ⊆ legal_of S ∧ ¬ required_of S ⊆ keys P
     ∧ r = {| validation_result := py "failed"; comment := py "Missing required params" |}).
Proof.
  intros r. subst r. unfold DataprocUtils.validate_input_params.
  fold (required_of S) (optional_of S). fold (legal_of S).
  fold (difference_list (keys P) (legal_of S)).
  destruct (difference_list (keys P) (legal_of S)) as [|i li] eqn:Ei.
  - apply difference_list_nil in Ei.
    case_bool_decide as Hreq; simpl.
    + left. split; [done|]. split; [|done].
      intros x Hx. assert (x ∈ (list_to_set (keys P) : gset pystr)) by set_solver.
      set_solver.
    + right; right. split; [done|]. split; [|done].
      intros Hsub. apply Hreq. set_solver.
  - right; left. split; [|done].
    intros Hsub. apply difference_list_nil in Hsub. congruence.
Qed.

End ValidatorFacts.

Example validate_invalid_d :
  DataflowTemplateTools.validate_input_params ascii_only abc_schema
    [(py "a", py "1"); (py "b", py "2"); (py "d", py "9")]
  = {| validation_result := py "failed";
       comment := py "Invalid param(s) passed: ['d']. Valid params are: ['a', 'b', 'c']" |}.
Proof. vm_compute. reflexivity. Qed.

Example validate_missing_b :
  DataflowTemplateTools.validate_input_params ascii_only abc_schema
    [(py "a", py "1")]
  = {| validation_result := py "failed";
       comment := py "Missing required param(s): ['b']" |}.
Proof. vm_compute. reflexivity. Qed.

Example validate_a_passes :
  DataflowTemplateTools.validate_input_params ascii_only a_schema
    [(py "a", py "1")]
  = {| validation_result := py "success"; comment := py "Validation Passed" |}
  ∧ DataprocUtils.validate_input_params a_schema [(py "a", py "1")]
  = {| validation_result := py "success"; comment := py "Validation Passed" |}.
Proof. split; vm_compute; reflexivity. Qed.

(** C1. Both copies of [validate_input_params] return the success result
    exactly when every supplied name is in [required + optional] and every
    required name is supplied, and the failed result otherwise. *)
Theorem validate_succeeds_iff_conforms (U : Unicode) {V : Type}
    (S : gmap pystr (list pystr)) (P : dict V) :
  (validation_result (DataflowTemplateTools.validate_input_params U S P)
     = py "success" ↔ conforms S P)
  ∧ (validation_result (DataflowTemplateTools.validate_input_params U S P)
     = py "failed" ↔ ¬ conforms S P)
  ∧ (validation_result (DataprocUtils.validate_input_params S P)
     = py "success" ↔ conforms S P)
  ∧ (validation_result (DataprocUtils.validate_input_params S P)
     = py "failed" ↔ ¬ conforms S P).
Proof.
  unfold conforms.
  destruct (dataflow_validate_cases U S P) as [(A & B & ->)|[(A & ->)|(A & B & ->)]];
  destruct (dataproc_validate_cases S P) as [(A' & B' & ->)|[(A' & ->)|(A' & B' & ->)]];
  cbn [validation_result]; try tauto;
  repeat split; try discriminate; try tauto.
Qed.

(** The dataproc copy names neither the offending parameter nor the legal
    ones: with [bucket] and [table] declared and [xkey] supplied on top, its
    comment is the fixed text, in which none of the names occurs, and it is
    the same for another offending name. *)
Lemma dataproc_invalid_comment_is_fixed :
  let r := DataprocUtils.validate_input_params bucket_schema
             [(py "bucket", py "b"); (py "xkey", py "1")] in
  validation_result r = py "failed"
  ∧ comment r = py "Invalid param passed"
  ∧ contains (py "xkey") (comment r) = false
  ∧ contains (py "bucket") (comment r) = false
  ∧ contains (py "table") (comment r) = false
  ∧ r = DataprocUtils.validate_input_params bucket_schema
          [(py "bucket", py "b"); (py "ykey", py "1")].
Proof. vm_compute. repeat split; reflexivity. Qed.

(** C2, as amended. Both copies check in the same order. A supplied name
    outside [required + optional] gives the invalid-parameter failure, also
    when required names are missing; the missing-parameter failure comes
    only when every supplied name is legal. The dataflow copy reports the
    offending names (each once) with the whole legal list, and the missing
    names; the dataproc copy answers with a fixed comment. *)
Theorem validate_checks_invalid_first (U : Unicode) {V : Type}
    (S : gmap pystr (list pystr)) (P : dict V) :
  let df := DataflowTemplateTools.validate_input_params U S P in
  let dp := DataprocUtils.validate_input_params S P in
  (¬ keys P ⊆ legal_of S →
     (∃ invalid,
        df = {| validation_result := py "failed";
                comment := py "Invalid param(s) passed: " ++ repr_list U invalid
                           ++ py ". Valid params are: "
                           ++ repr_list U (legal_of S) |}
        ∧ NoDup invalid
        ∧ ∀ k, k ∈ invalid ↔ k ∈ keys P ∧ k ∉ legal_of S)
     ∧ dp = {| validation_result := py "failed";
               comment := py "Invalid param passed" |})
  ∧ (keys P ⊆ legal_of S → ¬ required_of S ⊆ keys P →
     (∃ missing,
        df = {| validation_result := py "failed";
                comment := py "Missing required param(s): "
                           ++ repr_list U missing |}
        ∧ NoDup missing
        ∧ ∀ k, k ∈ missing ↔ k ∈ required_of S ∧ k ∉ keys P)
     ∧ dp = {| validation_result := py "failed";
               comment := py "Missing required params" |})
  ∧ (startswith (py "Missing required param(s): ") (comment df) = true →
     keys P ⊆ legal_of S)
  ∧ (comment dp = py "Missing required params" → keys P ⊆ legal_of S).
Proof.
  intros df dp. subst df dp.
  destruct (dataflow_validate_cases U S P) as [(A & B & ->)|[(A & ->)|(A & B & ->)]];
  destruct (dataproc_validate_cases S P) as [(A' & B' & ->)|[(A' & ->)|(A' & B' & ->)]];
  try tauto; cbn [comment]; (split; [|split; [|split]]); try tauto; try discriminate.
  - intros _. split; [|done].
    exists (difference_list (keys P) (legal_of S)).
    split; [done|]. split; [apply difference_list_NoDup|].
    intros k. apply difference_list_spec.
  - intros _ _. split; [|done].
    exists (difference_list (required_of S) (keys P)).
    split; [done|]. split; [apply difference_list_NoDup|].
    intros k. apply difference_list_spec.
Qed.

Lemma validate_checks_invalid_first_witness :
  let P := [(py "a", py "1"); (py "d", py "9")] in
  comment (DataflowTemplateTools.validate_input_params ascii_only abc_schema P)
  = py "Invalid param(s) passed: ['d']. Valid params are: ['a', 'b', 'c']"
  ∧ comment (DataprocUtils.validate_input_params abc_schema P)
  = py "Invalid param passed".
Proof.
  intros P.
  destruct (validate_checks_invalid_first ascii_only abc_schema P)
    as [H _].
  destruct H as [(invalid & E & _ & _) E'].
  - apply (bool_decide_unpack _). vm_compute. exact I.
  - rewrite E'. split; [|reflexivity]. vm_compute. reflexivity.
Defined.

(** ** The job-name sanitizer *)

Section SanitizerFacts.
Context (U : Unicode).

Lemma job_char_ascii c : job_char c = true → c < 128.
Proof. char_lia. Qed.

Lemma sub_illegal_job s : Forall (λ c, job_char c = true) (sub_illegal s).
Proof.
  unfold sub_illegal. apply Forall_map, Forall_forall. intros c _. simpl.
  destruct (job_char c) eqn:E; [done|reflexivity].
Qed.

Lemma sub_hyphen_runs_Forall (Q : N → Prop) s :
  Forall Q s → Forall Q (sub_hyphen_runs s).
Proof.
  induction 1 as [|c rest Hc Hrest IH]; cbn [sub_hyphen_runs]; [constructor|].
  destruct (_ && _); [done|by constructor].
Qed.

Lemma lstrip_Forall (Q : N → Prop) ch s : Forall Q s → Forall Q (lstrip ch s).
Proof.
  induction 1 as [|c rest Hc Hrest IH]; simpl; [constructor|].
  destruct (c =? ch); [done|by constructor].
Qed.

Lemma lstrip_head ch s : hd_error (lstrip ch s) ≠ Some ch.
Proof.
  induction s as [|c rest IH]; simpl; [done|].
  destruct (c =? ch) eqn:E; [done|]. simpl. intros [= ->].
  by rewrite N.eqb_refl in E.
Qed.

Lemma lstrip_snoc ch l c :
  lstrip ch (l ++ [c])
  = match lstrip ch l with
    | [] => if c =? ch then [] else [c]
    | r => r ++ [c]
    end.
Proof.
  induction l as [|a l IH]; simpl; [done|].
  destruct (a =? ch); [done|reflexivity].
Qed.

Lemma rstrip_cons ch c t :
  rstrip ch (c :: t)
  = match rstrip ch t with
    | [] => if c =? ch then [] else [c]
    | r => c :: r
    end.
Proof.
  unfold rstrip. simpl. rewrite lstrip_snoc.
  destruct (lstrip ch (rev t)) as [|a r] eqn:E; simpl.
  - by destruct (c =? ch).
  - rewrite rev_app_distr. simpl.
    destruct (rev r ++ [a]) eqn:E'; [by destruct (rev r)|done].
Qed.

Lemma rstrip_nil ch : rstrip ch [] = [].
Proof. reflexivity. Qed.

Lemma rstrip_Forall (Q : N → Prop) ch s : Forall Q s → Forall Q (rstrip ch s).
Proof.
  induction 1 as [|c rest Hc Hrest IH]; [constructor|].
  rewrite rstrip_cons. destruct (rstrip ch rest).
  - destruct (c =? ch); by repeat constructor.
  - by constructor.
Qed.

Lemma rstrip_last ch s d : s ≠ [] → List.last (rstrip ch s) d = ch → rstrip ch s = [].
Proof.
  induction s as [|c rest IH]; [done|]. intros _.
  rewrite rstrip_cons. destruct (rstrip ch rest) as [|a r] eqn:E.
  - destruct (c =? ch) eqn:Ec; [done|]. simpl. intros ->.
    by rewrite N.eqb_refl in Ec.
  - intros Hl. change (List.last (c :: a :: r) d) with (List.last (a :: r) d) in Hl.
    destruct rest as [|b rest']; [done|]. by apply IH in Hl.
Qed.

Lemma rstrip_head ch c t : c ≠ ch → ∃ r, rstrip ch (c :: t) = c :: r.
Proof.
  intros Hc. rewrite rstrip_cons. destruct (rstrip ch t); [|by eexists].
  apply N.eqb_neq in Hc. rewrite Hc. by eexists.
Qed.

(** A stripped name is empty, or starts and ends with something else than
    the stripped character. *)
Lemma strip_ends ch s :
  strip ch s = []
  ∨ ∃ c r, strip ch s = c :: r ∧ c ≠ ch ∧ List.last (c :: r) 0 ≠ ch.
Proof.
  unfold strip. pose proof (lstrip_head ch s) as Hh.
  destruct (lstrip ch s) as [|c t] eqn:E; [by left|]. right.
  assert (c ≠ ch) as Hc by (intros ->; by apply Hh).
  destruct (rstrip_head ch c t Hc) as [r Er]. exists c, r.
  split; [done|]. split; [done|]. rewrite <- Er. intros Hl.
  apply rstrip_last in Hl; [|done]. by rewrite Er in Hl.
Qed.

Lemma cleaned_job name : Forall (λ c, job_char c = true) (cleaned U name).
Proof.
  unfold cleaned, strip.
  apply rstrip_Forall, lstrip_Forall, sub_hyphen_runs_Forall, sub_illegal_job.
Qed.

Lemma cleaned_ends name :
  cleaned U name = []
  ∨ ∃ c r, cleaned U name = c :: r ∧ c ≠ 45 ∧ List.last (c :: r) 0 ≠ 45.
Proof. apply strip_ends. Qed.

End SanitizerFacts.

Lemma forallb_Forall (f : N → bool) l :
  forallb f l = true ↔ Forall (λ x, f x = true) l.
Proof.
  induction l as [|a l IH]; simpl.
  - split; [constructor|done].
  - rewrite andb_true_iff, IH, Forall_cons. done.
Qed.

Section SanitizerShape.
Context (U : Unicode).

Lemma Forall_last (Q : N → Prop) c r d : Forall Q (c :: r) → Q (List.last (c :: r) d).
Proof.
  revert c. induction r as [|a r IH]; intros c H.
  - by inversion H.
  - change (List.last (c :: a :: r) d) with (List.last (a :: r) d).
    apply IH. by inversion H.
Qed.

Lemma last_app_cons (p : pystr) c r d :
  List.last (p ++ c :: r) d = List.last (c :: r) d.
Proof.
  induction p as [|a p IH]; [done|].
  destruct p; simpl in *; [done|exact IH].
Qed.

Lemma isalnum_job c : job_char c = true → c ≠ 45 → isalnum U c = true.
Proof.
  intros Hj Hc. unfold isalnum.
  assert ((c <? 128) = true) as -> by (apply N.ltb_lt, job_char_ascii, Hj).
  char_lia.
Qed.

Lemma isalpha_job c : job_char c = true → isalpha U c = ascii_lower_letter c.
Proof.
  intros Hj. unfold isalpha.
  assert ((c <? 128) = true) as -> by (apply N.ltb_lt, job_char_ascii, Hj).
  unfold ascii_letter. destruct (ascii_lower_letter c) eqn:E; [done|].
  simpl. char_lia.
Qed.

(** On a cleaned, non-empty name the second fix never fires: the name ends
    with a letter or a digit already. *)
Lemma fix_ends_cleaned c r :
  Forall (λ c, job_char c = true) (c :: r) → c ≠ 45 →
  List.last (c :: r) 0 ≠ 45 →
  fix_ends U (c :: r)
  = if ascii_lower_letter c then c :: r else py "job-" ++ c :: r.
Proof.
  intros Hall Hc Hl. unfold fix_ends. cbn [hd].
  rewrite isalpha_job by (by inversion Hall).
  assert (isalnum U (List.last (c :: r) 0) = true) as Hn.
  { apply isalnum_job; [|done]. by apply (Forall_last (λ c, job_char c = true)). }
  destruct (ascii_lower_letter c); cbn [negb].
  - by rewrite Hn.
  - rewrite last_app_cons, Hn. done.
Qed.

Lemma lower_alnum_job c : job_char c = true → c ≠ 45 → lower_alnum c = true.
Proof. intros. char_lia. Qed.

Lemma removelast_Forall (Q : N → Prop) l : Forall Q l → Forall Q (removelast l).
Proof.
  induction 1 as [|a l Ha Hl IH]; [constructor|].
  destruct l; [constructor|]. cbn [removelast]. by constructor.
Qed.

Lemma relaxed_name_re_intro c r :
  ascii_lower_letter c = true → Forall (λ c, job_char c = true) r →
  lower_alnum (List.last (c :: r) 0) = true →
  relaxed_name_re (c :: r) = true.
Proof.
  intros Hc Hr Hl. destruct r as [|a r]; [exact Hc|].
  unfold relaxed_name_re, whole_name_re.
  change (List.last (c :: a :: r) 0) with (List.last (a :: r) 0) in Hl.
  rewrite Hc, Hl, andb_true_r. cbn [andb]. apply forallb_Forall.
  by apply (removelast_Forall (λ c, job_char c = true)).
Qed.

Lemma hex_char_job c : hex_char c = true → job_char c = true ∧ c ≠ 45.
Proof. intros. split; char_lia. Qed.

Lemma fallback_shape uuid :
  uuid4_hex_form uuid = true →
  let out := py "job-" ++ take 8 uuid in
  fallback_form out = true ∧ relaxed_name_re out = true
  ∧ length out = 12%nat
  ∧ Forall (λ c, job_char c = true) out.
Proof.
  unfold uuid4_hex_form. intros [Hlen Hhex]%andb_true_iff.
  apply bool_decide_eq_true in Hlen. apply forallb_Forall in Hhex.
  assert (Forall (λ c, hex_char c = true) (take 8 uuid)) as Ht
    by (by apply Forall_take).
  assert (length (take 8 uuid) = 8%nat) as Hl8 by (rewrite length_take; lia).
  assert (Forall (λ c, job_char c = true) (py "job-" ++ take 8 uuid)) as Hjob.
  { apply Forall_app. split; [by repeat constructor|].
    eapply Forall_impl; [exact Ht|]. intros x Hx. by apply hex_char_job. }
  cbn zeta. split; [|split; [|split]]; [| | |exact Hjob].
  - unfold fallback_form. rewrite !andb_true_iff. split; [split|].
    + reflexivity.
    + apply bool_decide_eq_true. rewrite length_app, Hl8. reflexivity.
    + change (drop 4 (py "job-" ++ take 8 uuid)) with (take 8 uuid).
      by apply forallb_Forall.
  - destruct (take 8 uuid) as [|h t] eqn:E; [done|].
    change (py "job-" ++ h :: t) with (106 :: (py "ob-" ++ h :: t)).
    apply relaxed_name_re_intro; [reflexivity| |].
    + by inversion Hjob.
    + rewrite app_comm_cons, last_app_cons.
      apply (Forall_last (λ c, hex_char c = true) h t 0) in Ht.
      apply hex_char_job in Ht as [? ?]. by apply lower_alnum_job.
  - rewrite length_app, Hl8. reflexivity.
Qed.

(** The name before the final slice, when cleaning leaves something. *)
Lemma fix_ends_shape name c r :
  cleaned U name = c :: r →
  ∃ c' r', fix_ends U (c :: r) = c' :: r'
    ∧ ascii_lower_letter c' = true
    ∧ Forall (λ c, job_char c = true) (c' :: r')
    ∧ lower_alnum (List.last (c' :: r') 0) = true.
Proof.
  intros E. pose proof (cleaned_job U name) as Hall.
  destruct (cleaned_ends U name) as [E0|(c0 & r0 & E1 & Hc & Hl)];
    [congruence|].
  rewrite E in Hall, E1. injection E1 as <- <-.
  rewrite fix_ends_cleaned by done.
  assert (lower_alnum (List.last (c :: r) 0) = true) as Hla.
  { apply lower_alnum_job; [|done].
    by apply (Forall_last (λ c, job_char c = true)). }
  destruct (ascii_lower_letter c) eqn:Ec.
  - by exists c, r.
  - exists 106, (py "ob-" ++ c :: r). split; [reflexivity|].
    split; [reflexivity|]. split.
    + change (106 :: py "ob-" ++ c :: r) with (py "job-" ++ c :: r).
      apply Forall_app. split; [by repeat constructor|done].
    + by rewrite app_comm_cons, last_app_cons.
Qed.

Lemma sanitize_length uuid name :
  (length (_sanitize_job_name U uuid name) ≤ 63)%nat.
Proof.
  unfold _sanitize_job_name. destruct (cleaned U name).
  - rewrite length_app, length_take.
    change (length (py "job-")) with 4%nat. lia.
  - rewrite length_take. lia.
Qed.

End SanitizerShape.

(** A single letter is a sanitized name, and it is neither matched by the
    pattern, which asks for two characters, nor of the fallback form. *)
Lemma sanitized_single_letter :
  let out := _sanitize_job_name ascii_only
               (py "0123456789ab4def8123456789abcdef") (py "a") in
  out = py "a" ∧ name_re out = false ∧ fallback_form out = false.
Proof. vm_compute. repeat split; reflexivity. Qed.

(** C4, as amended. Given a [uuid4] hex string, the sanitized name has at
    most 63 characters, starts with a lowercase letter and keeps to
    [[a-z0-9-]]. When cleaning leaves nothing it is [job-] and eight
    hexadecimal digits. When the name is not cut by the final slice it
    matches [^[a-z]([a-z0-9-]*[a-z0-9])?$], a single letter included. *)
Theorem sanitized_name_shape (U : Unicode) (uuid name : pystr) :
  uuid4_hex_form uuid = true →
  let out := _sanitize_job_name U uuid name in
  (length out ≤ 63)%nat
  ∧ (∃ c rest, out = c :: rest ∧ ascii_lower_letter c = true
       ∧ Forall (λ c, job_char c = true) rest)
  ∧ (cleaned U name = [] → fallback_form out = true)
  ∧ (cleaned U name = []
     ∨ (length (fix_ends U (cleaned U name)) ≤ 63)%nat →
     relaxed_name_re out = true).
Proof.
  intros Hu out. subst out. unfold _sanitize_job_name.
  destruct (cleaned U name) as [|c r] eqn:E.
  - destruct (fallback_shape uuid Hu) as (Hf & Hr & Hl & Hj).
    split; [rewrite Hl; lia|]. split; [|done].
    exists 106, (py "ob-" ++ take 8 uuid). split; [reflexivity|].
    split; [reflexivity|]. by inversion Hj.
  - destruct (fix_ends_shape U name c r E) as (c' & r' & -> & Hc & Hall & Hl).
    split; [rewrite length_take; lia|]. split; [|split; [done|]].
    + exists c', (take 62 r'). split; [reflexivity|]. split; [done|].
      apply Forall_take. by inversion Hall.
    + intros [?|Hlen]; [done|]. rewrite take_ge by exact Hlen.
      apply relaxed_name_re_intro; [done| |done]. by inversion Hall.
Qed.

Lemma sanitized_name_shape_witness :
  let out := _sanitize_job_name ascii_only
               (py "0123456789ab4def8123456789abcdef") (py " My Job!! ") in
  out = py "my-job" ∧ (length out ≤ 63)%nat ∧ relaxed_name_re out = true.
Proof.
  pose proof (sanitized_name_shape ascii_only
                (py "0123456789ab4def8123456789abcdef") (py " My Job!! ")
                eq_refl) as (Hlen & _ & _ & Hre).
  split; [vm_compute; reflexivity|]. split; [exact Hlen|].
  apply Hre. right. vm_compute. lia.
Defined.

Example sanitized_empty_name (U : Unicode) :
  _sanitize_job_name U (py "0123456789ab4def8123456789abcdef") (py "")
  = py "job-01234567".
Proof. reflexivity. Qed.

(** C3. The sanitizer is not idempotent on a name that the final slice cuts
    right after a hyphen: 62 letters, a hyphen and one more letter come out
    as the 62 letters and the hyphen, and sanitizing that again drops the
    hyphen. Whatever the Unicode tables and the random draws. *)
Theorem sanitize_twice_differs (U : Unicode) (uuid uuid' : pystr) :
  let name := replicate 62 97 ++ py "-b" in
  let once := _sanitize_job_name U uuid name in
  let twice := _sanitize_job_name U uuid' once in
  once = replicate 62 97 ++ py "-"
  ∧ twice = replicate 62 97
  ∧ twice ≠ once.
Proof. vm_compute. repeat split; [reflexivity..|discriminate]. Qed.

(** ** The template submission *)

Section SubmitFacts.
Context {V : Type} (U : Unicode) (W : World V).

(** Every command that is run is the one built from the decoded inputs. *)
Lemma submit_executed job ip tp project region staging custom cmd :
  cmd ∈ executed (submit_dataflow_template U W job ip tp project region
                    staging custom) →
  ∃ ui tj d path,
    json_loads_inputs W ip = inr (IObject ui)
    ∧ json_loads_template W tp = inr tj
    ∧ unwrap_list tj = Some (TObject d)
    ∧ resolve_path custom d = Some path
    ∧ cmd = (if is_flex path d
             then flex_cmd job project region path
                    (encode_parameters (value_str W) ui)
             else classic_cmd job project region path
                    (encode_parameters (value_str W) ui) staging)
    ∧ executed (submit_dataflow_template U W job ip tp project region
                  staging custom) = [cmd]
    ∧ returned (submit_dataflow_template U W job ip tp project region
                  staging custom)
      = match subprocess_run W cmd with
        | Completed stdout =>
            {| status := py "success";
               submit_comment := py "Job Submitted Successfully";
               stdout_key := Some stdout |}
        | RunRaised str_err =>
            {| status := py "failed";
               submit_comment := unexpected str_err;
               stdout_key := None |}
        end.
Proof.
  unfold submit_dataflow_template.
  destruct (json_loads_inputs W ip) as [e|ui]; [by intros ?%elem_of_nil|].
  destruct (json_loads_template W tp) as [e|tj]; [by intros ?%elem_of_nil|].
  destruct (unwrap_list tj) as [[d| |]|] eqn:Eu; try by intros ?%elem_of_nil.
  unfold submit_definition.
  destruct (resolve_path custom d) as [[|c path]|] eqn:Ep;
    try by intros ?%elem_of_nil.
  match goal with
  | |- context [match ?ve with Some _ => _ | None => _ end] =>
      destruct ve as [why|]; [by intros ?%elem_of_nil|]
  end.
  destruct ui as [ui|type_name]; [|by intros ?%elem_of_nil].
  set (run_cmd := if is_flex (c :: path) d then _ else _).
  intros Hin.
  assert (cmd = run_cmd) as ->.
  { destruct (subprocess_run W run_cmd); cbn [executed] in Hin;
      by apply list_elem_of_singleton in Hin. }
  exists ui, tj, d, (c :: path). repeat (split; [done|]).
  destruct (subprocess_run W run_cmd); done.
Qed.

Lemma classic_not_flex_prefix job project region path parameters staging :
  startswith flex_prefix
    (classic_cmd job project region path parameters staging) = false.
Proof. reflexivity. Qed.

(** The staging location reaches the result through the classic command
    only. *)
Lemma submit_flex_ignores_staging job ip tp project region staging staging'
    custom cmd :
  cmd ∈ executed (submit_dataflow_template U W job ip tp project region
                    staging custom) →
  startswith flex_prefix cmd = true →
  submit_dataflow_template U W job ip tp project region staging' custom
  = submit_dataflow_template U W job ip tp project region staging custom.
Proof.
  unfold submit_dataflow_template.
  destruct (json_loads_inputs W ip) as [e|ui]; [done|].
  destruct (json_loads_template W tp) as [e|tj]; [done|].
  destruct (unwrap_list tj) as [[d| |]|] eqn:Eu; try done.
  unfold submit_definition.
  destruct (resolve_path custom d) as [[|c path]|] eqn:Ep; try done.
  match goal with
  | |- context [match ?ve with Some _ => _ | None => _ end] =>
      destruct ve as [why|]; [done|]
  end.
  destruct ui as [ui|type_name]; [|done].
  destruct (is_flex (c :: path) d); [done|].
  intros Hin Hpre. exfalso.
  assert (cmd = classic_cmd job project region (c :: path)
                  (encode_parameters (value_str W) ui) staging) as ->.
  { destruct (subprocess_run W _); cbn [executed] in Hin;
      by apply list_elem_of_singleton in Hin. }
  by rewrite classic_not_flex_prefix in Hpre.
Qed.

End SubmitFacts.

(** C5. Every command [submit_dataflow_template] runs is built from the
    decoded inputs and the resolved artifact path. It is the flex-template
    command, on which the staging location has no influence, exactly when
    the path contains [/flex/] or the declared type is [FLEX]; otherwise it
    is the classic command, which carries [--staging-location=] with the
    given location. *)
Theorem submit_command_shape {V : Type} (U : Unicode) (W : World V)
    (job ip tp project region staging custom cmd : pystr) :
  cmd ∈ executed (submit_dataflow_template U W job ip tp project region
                    staging custom) →
  ∃ ui tj d path,
    json_loads_inputs W ip = inr (IObject ui)
    ∧ json_loads_template W tp = inr tj
    ∧ unwrap_list tj = Some (TObject d)
    ∧ resolve_path custom d = Some path
    ∧ (startswith flex_prefix cmd = true
       ↔ contains (py "/flex/") path = true ∨ type_ d = Some (py "FLEX"))
    ∧ (contains (py "/flex/") path = true ∨ type_ d = Some (py "FLEX") →
       cmd = flex_cmd job project region path
               (encode_parameters (value_str W) ui)
       ∧ ∀ staging',
           executed (submit_dataflow_template U W job ip tp project region
                       staging' custom) = [cmd])
    ∧ (¬ (contains (py "/flex/") path = true ∨ type_ d = Some (py "FLEX")) →
       cmd = classic_cmd job project region path
               (encode_parameters (value_str W) ui) staging
       ∧ startswith classic_prefix cmd = true
       ∧ ∃ before after,
           cmd = before ++ py " --staging-location=" ++ staging ++ after).
Proof.
  intros Hin.
  destruct (submit_executed U W _ _ _ _ _ _ _ _ Hin)
    as (ui & tj & d & path & Hi & Ht & Hu & Hp & Hcmd & Hex & _).
  exists ui, tj, d, path. repeat (split; [done|]).
  assert (is_flex path d = true
          ↔ contains (py "/flex/") path = true ∨ type_ d = Some (py "FLEX"))
    as Hflex.
  { unfold is_flex. rewrite orb_true_iff, bool_decide_eq_true. done. }
  destruct (is_flex path d) eqn:Ef.
  - assert (contains (py "/flex/") path = true ∨ type_ d = Some (py "FLEX"))
      as Hc by (by apply Hflex).
    assert (startswith flex_prefix cmd = true) as Hpre by (by subst cmd).
    split; [|split].
    + done.
    + intros _. split; [done|]. intros staging'.
      by rewrite (submit_flex_ignores_staging U W _ _ _ _ _ staging staging'
                    _ cmd Hin Hpre).
    + intros Hn. by destruct Hn.
  - assert (¬ (contains (py "/flex/") path = true ∨ type_ d = Some (py "FLEX")))
      as Hc by (rewrite <- Hflex; discriminate).
    split; [|split].
    + subst cmd. split; [discriminate|]. intros ?. by destruct Hc.
    + intros ?. by destruct Hc.
    + intros _. subst cmd. split; [done|]. split; [reflexivity|].
      exists (py "gcloud dataflow jobs run " ++ job ++ py " --project="
              ++ project ++ py " --region=" ++ region
              ++ py " --gcs-location=" ++ path ++ py " --parameters " ++ dq
              ++ encode_parameters (value_str W) ui ++ dq),
        (py " --additional-user-labels=" ++ default_labels).
      unfold classic_cmd. by rewrite <- !app_assoc.
Qed.

Lemma submit_command_shape_witness :
  kafka_command
  ∈ executed (submit_dataflow_template ascii_only (test_world (py "ok"))
                (py "wc") (a_is (py "x,y")) kafka_json (py "proj")
                (py "us-central1") (py "gs://stage/tmp") (py ""))
  ∧ ∃ path d,
      resolve_path (py "") d = Some path
      ∧ (startswith flex_prefix kafka_command = true
         ↔ contains (py "/flex/") path = true ∨ type_ d = Some (py "FLEX")).
Proof.
  assert (kafka_command
          ∈ executed (submit_dataflow_template ascii_only
                        (test_world (py "ok")) (py "wc") (a_is (py "x,y"))
                        kafka_json (py "proj") (py "us-central1")
                        (py "gs://stage/tmp") (py ""))) as Hin
    by (vm_compute; left).
  split; [exact Hin|].
  destruct (submit_command_shape _ _ _ _ _ _ _ _ _ _ Hin)
    as (ui & tj & d & path & _ & _ & _ & Hp & Hiff & _).
  by exists path, d.
Defined.

Example flex_command_has_no_staging :
  contains (py "--staging-location") kafka_command = false.
Proof. vm_compute. reflexivity. Qed.

Example classic_command_has_staging :
  executed (submit_dataflow_template ascii_only (test_world (py "ok"))
              (py "wc") (a_is (py "x,y")) wordcount_json (py "proj")
              (py "us-central1") (py "gs://stage/tmp") (py ""))
  = [py "gcloud dataflow jobs run wc --project=proj --region=us-central1 --gcs-location=gs://dataflow-templates/latest/Word_Count --parameters "
     ++ q (py "^~^a=x,y")
     ++ py " --staging-location=gs://stage/tmp --additional-user-labels=source=plumber"].
Proof. vm_compute. reflexivity. Qed.

(** *** The encoded parameter string *)

Lemma split_without ch p : ch ∉ p → split ch p = [p].
Proof.
  induction p as [|c p IH]; [done|].
  intros [Hc Hp]%not_elem_of_cons. cbn [split].
  assert ((c =? ch) = false) as -> by (apply N.eqb_neq; congruence).
  by rewrite IH.
Qed.

Lemma split_at_first ch p t :
  ch ∉ p → split ch (p ++ ch :: t) = p :: split ch t.
Proof.
  induction p as [|c p IH]; intros Hp.
  - cbn. by rewrite N.eqb_refl.
  - apply not_elem_of_cons in Hp as [Hc Hp]. cbn [app split].
    assert ((c =? ch) = false) as -> by (apply N.eqb_neq; congruence).
    by rewrite IH.
Qed.

Lemma split_join ch parts :
  parts ≠ [] → Forall (λ p, ch ∉ p) parts →
  split ch (join [ch] parts) = parts.
Proof.
  induction parts as [|p rest IH]; [done|]. intros _ Hall.
  apply Forall_cons in Hall as [Hp Hrest].
  destruct rest as [|p' rest'].
  - by apply split_without.
  - cbn [join]. cbn [app]. rewrite split_at_first by done.
    f_equal. by apply IH.
Qed.

Lemma key_value_pair k v : 61 ∉ k → key_value (k ++ 61 :: v) = (k, v).
Proof.
  induction k as [|c k IH]; intros Hk; [reflexivity|].
  apply not_elem_of_cons in Hk as [Hc Hk]. cbn [app key_value].
  assert ((c =? 61) = false) as -> by (apply N.eqb_neq; congruence).
  by rewrite IH.
Qed.

Lemma caret_fields_declared d body :
  caret_fields (94 :: d :: 94 :: body) = Some (split d body).
Proof. reflexivity. Qed.

(** A validated mapping whose value holds the delimiter: the command is
    built and run all the same, and the platform's reading of the encoded
    string is no longer the mapping. *)
Lemma tilde_value_is_split :
  let run := submit_dataflow_template ascii_only (test_world (py "ok"))
               (py "wc") (a_is (py "x~y")) wordcount_json (py "proj")
               (py "us-central1") (py "gs://stage/tmp") (py "") in
  json_loads_inputs (test_world (py "ok")) (a_is (py "x~y"))
  = inr (IObject [(py "a", py "x~y")])
  ∧ validation_result (validate_input_params ascii_only a_schema
                         [(py "a", py "x~y")]) = py "success"
  ∧ status (returned run) = py "success"
  ∧ executed run
    = [classic_cmd (py "wc") (py "proj") (py "us-central1")
         (py "gs://dataflow-templates/latest/Word_Count") (py "^~^a=x~y")
         (py "gs://stage/tmp")]
  ∧ contains (py "~") (py "x~y") = true
  ∧ decode_parameters (py "^~^a=x~y") = Some [(py "a", py "x"); (py "y", [])].
Proof. vm_compute. repeat split; reflexivity. Qed.

(** C7, as amended. The encoded string is [^~^] followed by the [key=value]
    pairs joined by the fixed delimiter [~]. For a non-empty mapping in
    which no name holds [~] or [=] and no value holds [~], the platform's
    reading of it gives back every name with its value, commas and all;
    the values are not checked for the delimiter. *)
Theorem parameters_round_trip {V : Type} (value_str : V → pystr)
    (user_input_dict : dict V) :
  let encoded := encode_parameters value_str user_input_dict in
  encoded
  = py "^~^"
    ++ join (py "~")
         (map (λ kv, kv.1 ++ py "=" ++ value_str kv.2) user_input_dict)
  ∧ (user_input_dict ≠ [] →
     Forall (λ kv, (126 ∉ kv.1) ∧ (61 ∉ kv.1) ∧ (126 ∉ value_str kv.2))
       user_input_dict →
     decode_parameters encoded
     = Some (map (λ kv, (kv.1, value_str kv.2)) user_input_dict)).
Proof.
  intros encoded. subst encoded. unfold encode_parameters.
  split; [reflexivity|]. intros Hne Hall.
  unfold decode_parameters.
  change (py "^") with [94]. change (py "~") with [126].
  change (py "=") with [61]. cbn [app].
  rewrite caret_fields_declared, split_join.
  - cbn [fmap option_fmap option_map]. f_equal. rewrite map_map.
    apply map_ext_in. intros [k v] Hin.
    apply list_elem_of_In in Hin. rewrite Forall_forall in Hall.
    destruct (Hall _ Hin) as (_ & Hk & _). by apply key_value_pair.
  - by destruct user_input_dict.
  - apply Forall_map. eapply Forall_impl; [exact Hall|].
    intros [k v] (Hk & _ & Hv). cbn [fst snd] in *.
    rewrite not_elem_of_app, not_elem_of_cons. split; [done|].
    split; [discriminate|done].
Qed.

Lemma parameters_round_trip_witness :
  decode_parameters
    (encode_parameters (λ v, v) [(py "query", py "a,b"); (py "n", py "2")])
  = Some [(py "query", py "a,b"); (py "n", py "2")].
Proof.
  apply (parameters_round_trip (λ v, v)
           [(py "query", py "a,b"); (py "n", py "2")]).
  - discriminate.
  - repeat constructor; cbn; intros Hin;
      repeat (apply elem_of_cons in Hin as [Hin|Hin]; [discriminate|]);
      by apply elem_of_nil in Hin.
Defined.

(** *** A definition wrapped in a list *)

(** One level of wrapping is removed, not two: a list whose first element
    is itself a list is refused, while that first element supplied alone is
    unwrapped and submitted. *)
Lemma nested_list_is_refused :
  let W := test_world (py "ok") in
  let submit := λ tp,
    submit_dataflow_template ascii_only W (py "wc") (a_is (py "x,y")) tp
      (py "proj") (py "us-central1") (py "gs://stage/tmp") (py "") in
  json_loads_template W (py "[[" ++ wordcount_json ++ py "]]")
  = inr (TArray [TArray [TObject wordcount]])
  ∧ json_loads_template W (py "[" ++ wordcount_json ++ py "]")
    = inr (TArray [TObject wordcount])
  ∧ submit (py "[[" ++ wordcount_json ++ py "]]")
    = failed (py "Job could not be submitted because the processed template definition is not a valid dictionary (JSON object).")
  ∧ status (returned (submit (py "[" ++ wordcount_json ++ py "]")))
    = py "success"
  ∧ length (executed (submit (py "[" ++ wordcount_json ++ py "]"))) = 1%nat
  ∧ submit (py "[[" ++ wordcount_json ++ py "]]")
    ≠ submit (py "[" ++ wordcount_json ++ py "]").
Proof. vm_compute. repeat split; [reflexivity..|discriminate]. Qed.

Section ListWrapping.
Context {V : Type} (U : Unicode) (W : World V).
Context (job ip project region staging custom : pystr).

Local Abbreviation submit tp :=
  (submit_dataflow_template U W job ip tp project region staging custom).

Lemma submit_by_unwrapped tp tp' tj tj' :
  json_loads_template W tp = inr tj →
  json_loads_template W tp' = inr tj' →
  unwrap_list tj = unwrap_list tj' →
  submit tp = submit tp'.
Proof.
  intros Ht Ht' Hu. unfold submit_dataflow_template.
  rewrite Ht, Ht', Hu. reflexivity.
Qed.

Lemma submit_refused tp tj :
  json_loads_template W tp = inr tj →
  (unwrap_list tj = None ∨ ∃ t, unwrap_list tj = Some t ∧ ∀ d, t ≠ TObject d) →
  executed (submit tp) = [] ∧ status (returned (submit tp)) = py "failed".
Proof.
  intros Ht Hu. unfold submit_dataflow_template. rewrite Ht.
  destruct (json_loads_inputs W ip) as [e|ui]; [done|].
  destruct Hu as [->|(t & -> & Hno)]; [done|].
  destruct t as [d|l|]; [by destruct (Hno d)|done|done].
Qed.

(** C10, as amended. When [template_params] decodes to a non-empty list
    whose first element is not itself a list, the call returns what it
    returns for that first element supplied alone, and runs the same
    commands; in every case the elements after the first are without
    effect. An empty list, and an unwrapped value that is not an object,
    give a failed result and no command is run. *)
Theorem list_wrapped_definition (tp : pystr) :
  (∀ first rest tp1,
     json_loads_template W tp = inr (TArray (first :: rest)) →
     json_loads_template W tp1 = inr first →
     (∀ l, first ≠ TArray l) →
     submit tp = submit tp1)
  ∧ (∀ first rest rest' tp',
       json_loads_template W tp = inr (TArray (first :: rest)) →
       json_loads_template W tp' = inr (TArray (first :: rest')) →
       submit tp = submit tp')
  ∧ (json_loads_template W tp = inr (TArray []) →
     executed (submit tp) = []
     ∧ status (returned (submit tp)) = py "failed")
  ∧ (∀ tj t,
       json_loads_template W tp = inr tj →
       unwrap_list tj = Some t → (∀ d, t ≠ TObject d) →
       executed (submit tp) = []
       ∧ status (returned (submit tp)) = py "failed").
Proof.
  split; [|split; [|split]].
  - intros first rest tp1 Ht Ht1 Hfirst.
    apply (submit_by_unwrapped _ _ _ _ Ht Ht1).
    destruct first as [d|l|]; [done|by destruct (Hfirst l)|done].
  - intros first rest rest' tp' Ht Ht'.
    by apply (submit_by_unwrapped _ _ _ _ Ht Ht').
  - intros Ht. apply (submit_refused _ _ Ht). by left.
  - intros tj t Ht Hu Hno. apply (submit_refused _ _ Ht). right. by exists t.
Qed.

End ListWrapping.

Lemma list_wrapped_definition_witness :
  let W := test_world (py "ok") in
  let submit := λ tp,
    submit_dataflow_template ascii_only W (py "wc") (a_is (py "x,y")) tp
      (py "proj") (py "us-central1") (py "gs://stage/tmp") (py "") in
  submit (py "[" ++ wordcount_json ++ py "]") = submit wordcount_json
  ∧ executed (submit (py "[]")) = [].
Proof.
  intros W submit.
  destruct (list_wrapped_definition ascii_only W (py "wc") (a_is (py "x,y"))
              (py "proj") (py "us-central1") (py "gs://stage/tmp") (py "")
              (py "[" ++ wordcount_json ++ py "]")) as (Hfirst & _).
  destruct (list_wrapped_definition ascii_only W (py "wc") (a_is (py "x,y"))
              (py "proj") (py "us-central1") (py "gs://stage/tmp") (py "")
              (py "[]")) as (_ & _ & Hempty & _).
  split.
  - apply (Hfirst (TObject wordcount) []); [reflexivity..|discriminate].
  - apply Hempty. reflexivity.
Defined.

(** *** A run that exits with status 0 *)

(** The submission does not look for an identifier: a command that exits
    with status 0 and prints nothing is reported as a success. *)
Lemma zero_exit_without_id_succeeds :
  let W := test_world (py "") in
  let run := submit_dataflow_template ascii_only W (py "wc")
               (a_is (py "x,y")) wordcount_json (py "proj")
               (py "us-central1") (py "gs://stage/tmp") (py "") in
  length (executed run) = 1%nat
  ∧ Forall (λ cmd, subprocess_run W cmd = Completed (py "")) (executed run)
  ∧ search_job_id ascii_only (py "") = None
  ∧ returned run
    = {| status := py "success";
         submit_comment := py "Job Submitted Successfully";
         stdout_key := Some (py "") |}.
Proof.
  vm_compute. split; [reflexivity|]. split; [|split; reflexivity].
  repeat constructor.
Qed.

(** ** The custom pipeline builder *)

Example search_finds_the_id :
  search_job_id ascii_only printed_id
  = Some (py "2024-05-06_07_08_09-1234567890123456789").
Proof. vm_compute. reflexivity. Qed.

Section BuilderFacts.
Context (U : Unicode) (W : Host) (E : entropy).




Lemma split_cons ch s : ∃ w ws, split ch s = w :: ws.
Proof.
  induction s as [|c s (w & ws & IH)]; cbn [split]; [by eexists _, _|].
  destruct (c =? ch); [by eexists _, _|]. rewrite IH. by eexists _, _.
Qed.

Lemma archive_target_some bucket name uuid :
  ∃ target, archive_target bucket name uuid = Some target.
Proof.
  unfold archive_target.
  destruct (split_cons 47 (replace (py "gs://") [] bucket)) as (w & ws & ->).
  by eexists.
Qed.

Lemma join_snoc sep (l : list pystr) x :
  l ≠ [] → join sep (l ++ [x]) = join sep l ++ sep ++ x.
Proof.
  induction l as [|a l IH]; [done|]. intros _.
  destruct l as [|b l]; [reflexivity|].
  change (join sep ((a :: b :: l) ++ [x]))
    with (a ++ sep ++ join sep ((b :: l) ++ [x])).
  rewrite IH by done. cbn [join]. by rewrite <- !app_assoc.
Qed.

(** The report of a launched job, by what the archival came to. *)
Lemma report_success_archived project bucket name code uuid output id target :
  archive_target bucket name uuid = Some target →
  match upload_from_string W project target.1 target.2 code with
  | None =>
      ∃ before,
        report_success W project bucket name code uuid output id
        = Final (py "success")
            (before ++ nl ++ nl ++ py "The pipeline script was saved to "
             ++ py "gs://" ++ target.1 ++ py "/" ++ target.2)
            id (Some (py "gs://" ++ target.1 ++ py "/" ++ target.2))
  | Some str_e =>
      ∃ before,
        report_success W project bucket name code uuid output id
        = Final (py "success_with_warning")
            (before ++ nl ++ nl
             ++ py "WARNING: Failed to save the script to GCS. Error: "
             ++ str_e)
            id None
  end.
Proof.
  intros Ht. unfold report_success, archive. rewrite Ht.
  destruct target as [bucket_name gcs_path_str]. cbn [fst snd].
  destruct (upload_from_string W project bucket_name gcs_path_str code).
  - eexists. rewrite join_snoc by (cbn [app]; discriminate). reflexivity.
  - eexists. change (py "gs://") with [103; 115; 58; 47; 47]. cbn [app].
    match goal with
    | |- context [join nl (?a :: ?b :: ?m ++ [?x])] =>
        change (join nl (a :: b :: m ++ [x]))
          with (join nl ((a :: b :: m) ++ [x]))
    end.
    rewrite join_snoc by discriminate. reflexivity.
Qed.

Context (fs : files).
Context (project_id region gcs_bucket_path job_name pipeline_code : pystr).
Context (pipeline_args : dict pystr) (pipeline_type : pystr).

Local Abbreviation name := (_sanitize_job_name U (uuid_job E) job_name).
Local Abbreviation full_args :=
  (full_args_of project_id region gcs_bucket_path name pipeline_args).
Local Abbreviation call :=
  (generate_and_run_beam_pipeline U W E fs project_id region gcs_bucket_path
     job_name pipeline_code pipeline_args pipeline_type).

(** Past the guards, the call is the [try] block with its handlers and its
    [finally]. *)
Lemma generate_reached :
  reaches_write W fs project_id region gcs_bucket_path →
  let '(fs', sent, launched) :=
    launch U W (workdir_made W fs) (temp_path E) pipeline_code pipeline_type
      full_args in
  call
  = {| fs_after := (finally U W (temp_path E) fs').1;
       signals := sent;
       raised_in_finally := (finally U W (temp_path E) fs').2;
       result :=
         inr match launched with
             | inl (CalledProcessError _ _ output) =>
                 Error (py "Failed to execute pipeline script." ++ nl
                        ++ py "--- ERROR ---" ++ nl ++ output)
             | inl (Exception str_e) =>
                 Error (py "Unexpected error: " ++ str_e)
             | inr (output, None) =>
                 Error (py "Job launched, but could not find Job ID in output. Full output:"
                        ++ nl ++ output)
             | inr (output, Some job_id) =>
                 report_success W project_id gcs_bucket_path name
                   pipeline_code (uuid_script E) output job_id
             end |}.
Proof.
  intros (Hp & Hr & Hb & Hgs & Hmk).
  unfold generate_and_run_beam_pipeline.
  cbn [forallb]. rewrite !bool_decide_eq_true_2 by done.
  cbn [andb negb]. rewrite Hgs. cbn [negb]. unfold workdir_made.
  destruct (makedirs W base_path fs) as [fs0 raised]. cbn [snd] in Hmk.
  subst raised. cbn [fst]. unfold try_block.
  destruct (launch U W fs0 (temp_path E) pipeline_code pipeline_type full_args)
    as [[fs' sent] [[rc cmd output|str_e]|[output [id|]]]];
    by destruct (finally U W (temp_path E) fs').
Qed.

End BuilderFacts.



(** C9. The transient file is not removed on every exit path: a script
    that puts a directory where its source file was, then prints an
    identifier and exits with status 0, makes the removal of the [finally]
    clause raise. The dictionary the [return] statement handed over had
    status [success]; the caller gets the exception, and the path still
    exists after the call. *)
Lemma transient_path_left_behind :
  let call :=
    generate_and_run_beam_pipeline ascii_only replacing_host test_entropy ∅
      (py "proj") (py "us-central1") (py "gs://bucket/base") (py "WC")
      (py "import apache_beam") [] (py "batch") in
  reaches_write replacing_host ∅ (py "proj") (py "us-central1")
    (py "gs://bucket/base")
  ∧ (∃ rep path,
       result call
       = inr (Final (py "success") rep
                (py "2024-05-06_07_08_09-1234567890123456789") path))
  ∧ delivered call
    = inl (py "[Errno 21] Is a directory: 'plumber/agent/agents/dataflow_agent/temp_pipeline_6f1c2d3e-4a5b-4c6d-8e9f-0a1b2c3d4e5f.py'")
  ∧ fs_after call !! temp_path test_entropy = Some Directory.
Proof.
  intros call. split; [|split; [|split]].
  - repeat split; discriminate.
  - vm_compute. by eexists _, _.
  - vm_compute. reflexivity.
  - vm_compute. reflexivity.
Qed.

Section Reporting.
Context (U : Unicode) (W : Host) (E : entropy) (fs : files).
Context (project_id region gcs_bucket_path job_name pipeline_code : pystr).
Context (pipeline_args : dict pystr) (pipeline_type : pystr).

Local Abbreviation name := (_sanitize_job_name U (uuid_job E) job_name).
Local Abbreviation call :=
  (generate_and_run_beam_pipeline U W E fs project_id region gcs_bucket_path
     job_name pipeline_code pipeline_args pipeline_type).
Local Abbreviation run :=
  (launched U W E fs project_id region gcs_bucket_path job_name
     pipeline_code pipeline_args pipeline_type).

Lemma read_lines_split lines output0 output id :
  read_lines U lines output0 = (output, Some id) →
  ∃ before line,
    output = output0 ++ before ++ line ∧ search_job_id U line = Some id.
Proof.
  revert output0. induction lines as [|line more IH]; intros output0;
    cbn [read_lines]; [done|].
  destruct (search_job_id U line) as [id'|] eqn:Es.
  - intros [= <- <-]. by exists [], line.
  - intros (before & l & -> & Hs)%IH. exists (line ++ before), l.
    by rewrite <- !app_assoc.
Qed.

(** An identifier in hand was matched by the pattern in the last stretch
    of the captured output: all of it in batch mode, the last line read in
    streaming mode. *)
Lemma launched_id_matched output id :
  run = inr (output, Some id) →
  ∃ before text, output = before ++ text ∧ search_job_id U text = Some id.
Proof.
  unfold launched, launch.
  destruct (write_fault W _ _ _) as [[e [t|]]|]; try done.
  case_bool_decide.
  - destruct (exec_streaming W _ _) as [fs1 [e|p]]; [done|].
    destruct (read_lines U (s_lines p) []) as [out [i|]] eqn:Er; [|done].
    cbn [snd]. intros [= <- <-].
    apply read_lines_split in Er as (before & line & -> & Hs).
    by exists before, line.
  - destruct (exec_batch W _ _) as [fs1 [e|p]]; [done|].
    case_bool_decide; [done|]. cbn [snd]. intros [= <- Hs].
    by exists [], (b_stdout p ++ b_stderr p).
Qed.

(** The returned dictionary, by what the launch and the archival came to. *)
Lemma generate_result :
  reaches_write W fs project_id region gcs_bucket_path →
  ∃ r target,
    result call = inr r
    ∧ archive_target gcs_bucket_path name (uuid_script E) = Some target
    ∧ match run with
      | inr (output, Some id) =>
          match upload_from_string W project_id target.1 target.2
                  pipeline_code with
          | Some str_e =>
              ∃ before,
                r = Final (py "success_with_warning")
                      (before ++ nl ++ nl
                       ++ py "WARNING: Failed to save the script to GCS. Error: "
                       ++ str_e)
                      id None
          | None =>
              ∃ before,
                r = Final (py "success")
                      (before ++ nl ++ nl
                       ++ py "The pipeline script was saved to "
                       ++ py "gs://" ++ target.1 ++ py "/" ++ target.2)
                      id (Some (py "gs://" ++ target.1 ++ py "/" ++ target.2))
          end
      | inr (output, None) =>
          r = Error (py "Job launched, but could not find Job ID in output. Full output:"
                     ++ nl ++ output)
      | inl (CalledProcessError _ _ output) =>
          r = Error (py "Failed to execute pipeline script." ++ nl
                     ++ py "--- ERROR ---" ++ nl ++ output)
      | inl (Exception str_e) => r = Error (py "Unexpected error: " ++ str_e)
      end.
Proof.
  intros Hreach.
  pose proof (generate_reached U W E fs project_id region gcs_bucket_path
                job_name pipeline_code pipeline_args pipeline_type Hreach)
    as Hcall.
  destruct (archive_target_some gcs_bucket_path name (uuid_script E))
    as [target Ht].
  unfold launched.
  destruct (launch U W (workdir_made W fs) (temp_path E) pipeline_code
              pipeline_type _) as [[fs' sent] l].
  rewrite Hcall. cbn [result snd].
  destruct l as [[rc cmd output|str_e]|[output [id|]]];
    eexists _, target; (split; [reflexivity|]); (split; [exact Ht|]);
    try reflexivity.
  pose proof (report_success_archived W project_id gcs_bucket_path name
                pipeline_code (uuid_script E) output id target Ht) as Hrep.
  destruct (upload_from_string W project_id target.1 target.2 pipeline_code);
    destruct Hrep as [before Hrep]; by exists before.
Qed.

End Reporting.

(** C8. Past the guards the builder comes to a [return] statement with a
    dictionary, and its status is decided as follows. When the script was launched and an identifier was
    matched in its output, a failed archival gives [success_with_warning],
    with the identifier, no archive path and the archival error at the end
    of the report; a successful archival gives [success], with the
    identifier, the archive path and the path at the end of the report. In
    every other case (the write or the launch raised, the script failed, no
    identifier was found) the status is [error]. *)
Theorem archival_failure_only_warns (U : Unicode) (W : Host) (E : entropy)
    (fs : files)
    (project_id region gcs_bucket_path job_name pipeline_code : pystr)
    (pipeline_args : dict pystr) (pipeline_type : pystr) :
  reaches_write W fs project_id region gcs_bucket_path →
  ∃ r target,
    result (generate_and_run_beam_pipeline U W E fs project_id region
              gcs_bucket_path job_name pipeline_code pipeline_args
              pipeline_type) = inr r
    ∧ archive_target gcs_bucket_path
        (_sanitize_job_name U (uuid_job E) job_name) (uuid_script E)
      = Some target
    ∧ match launched U W E fs project_id region gcs_bucket_path job_name
              pipeline_code pipeline_args pipeline_type with
      | inr (output, Some id) =>
          (∃ before text,
             output = before ++ text ∧ search_job_id U text = Some id)
          ∧ match upload_from_string W project_id target.1 target.2
                    pipeline_code with
            | Some str_e =>
                ∃ before,
                  r = Final (py "success_with_warning")
                        (before ++ nl ++ nl
                         ++ py "WARNING: Failed to save the script to GCS. Error: "
                         ++ str_e)
                        id None
            | None =>
                ∃ before,
                  r = Final (py "success")
                        (before ++ nl ++ nl
                         ++ py "The pipeline script was saved to "
                         ++ py "gs://" ++ target.1 ++ py "/" ++ target.2)
                        id
                        (Some (py "gs://" ++ target.1 ++ py "/" ++ target.2))
            end
      | _ => status_of r = py "error" ∧ job_id_of r = None
      end.
Proof.
  intros Hreach.
  destruct (generate_result U W E fs project_id region gcs_bucket_path
              job_name pipeline_code pipeline_args pipeline_type Hreach)
    as (r & target & Hr & Ht & Hcases).
  exists r, target. split; [exact Hr|]. split; [exact Ht|].
  pose proof (launched_id_matched U W E fs project_id region gcs_bucket_path
                job_name pipeline_code pipeline_args pipeline_type) as Hid.
  destruct (launched U W E fs project_id region gcs_bucket_path job_name
              pipeline_code pipeline_args pipeline_type)
    as [[rc cmd output|str_e]|[output [id|]]]; try (by subst r).
  split; [by apply Hid|exact Hcases].
Qed.

Lemma archival_failure_only_warns_witness :
  ∃ rep,
    result (generate_and_run_beam_pipeline ascii_only
              (test_host printed_id (Some (py "403 Forbidden"))) test_entropy
              ∅ (py "proj") (py "us-central1") (py "gs://bucket/base")
              (py "WC") (py "import apache_beam") [] (py "batch"))
    = inr (Final (py "success_with_warning") rep
             (py "2024-05-06_07_08_09-1234567890123456789") None)
    ∧ endswith (py "Error: 403 Forbidden") rep = true.
Proof.
  destruct (archival_failure_only_warns ascii_only
              (test_host printed_id (Some (py "403 Forbidden"))) test_entropy
              ∅ (py "proj") (py "us-central1") (py "gs://bucket/base")
              (py "WC") (py "import apache_beam") [] (py "batch"))
    as (r & target & Hr & _ & H).
  - repeat split; discriminate.
  - assert (launched ascii_only
              (test_host printed_id (Some (py "403 Forbidden"))) test_entropy
              ∅ (py "proj") (py "us-central1") (py "gs://bucket/base")
              (py "WC") (py "import apache_beam") [] (py "batch")
            = inr (printed_id,
                   Some (py "2024-05-06_07_08_09-1234567890123456789")))
      as El by (vm_compute; reflexivity).
    rewrite El in H. destruct H as [_ [before ->]].
    eexists. split; [exact Hr|].
    unfold endswith. rewrite !rev_app_distr. reflexivity.
Defined.

Example archival_success_is_reported :
  result (generate_and_run_beam_pipeline ascii_only
            (test_host printed_id None) test_entropy ∅ (py "proj")
            (py "us-central1") (py "gs://bucket/base") (py "WC")
            (py "import apache_beam") [(py "input", py "gs://in/x")]
            (py "streaming"))
  = inr (Final (py "success")
           (py "Successfully launched Dataflow job 'wc'." ++ nl
            ++ py "Job Details:" ++ nl
            ++ py "  id: 2024-05-06_07_08_09-1234567890123456789" ++ nl
            ++ py "  name: wc" ++ nl ++ nl
            ++ py "The pipeline script was saved to gs://bucket/base/generated_pipelines/wc-89abcdef.py")
           (py "2024-05-06_07_08_09-1234567890123456789")
           (Some (py "gs://bucket/base/generated_pipelines/wc-89abcdef.py"))).
Proof. vm_compute. reflexivity. Qed.

Section ZeroExit.
Context (U : Unicode) (W : Host) (E : entropy) (fs : files).
Context (project_id region gcs_bucket_path job_name pipeline_code : pystr).
Context (pipeline_args : dict pystr) (pipeline_type : pystr).

Local Abbreviation call :=
  (generate_and_run_beam_pipeline U W E fs project_id region gcs_bucket_path
     job_name pipeline_code pipeline_args pipeline_type).
Local Abbreviation run :=
  (launched U W E fs project_id region gcs_bucket_path job_name
     pipeline_code pipeline_args pipeline_type).

Lemma batch_zero_exit_launched fs1 p :
  write_fault W (temp_path E) pipeline_code (workdir_made W fs) = None →
  pipeline_type ≠ py "streaming" →
  exec_batch W
    (command_line W (temp_path E)
       (full_args_of project_id region gcs_bucket_path
          (_sanitize_job_name U (uuid_job E) job_name) pipeline_args))
    (<[temp_path E := File pipeline_code]> (workdir_made W fs))
  = (fs1, inr p) →
  b_returncode p = 0%Z →
  run = inr (b_stdout p ++ b_stderr p,
             search_job_id U (b_stdout p ++ b_stderr p)).
Proof.
  intros Hw Ht Hx Hrc. unfold launched, launch. rewrite Hw.
  rewrite bool_decide_eq_false_2 by exact Ht. rewrite Hx.
  rewrite bool_decide_eq_false_2 by (intros Hn; by apply Hn).
  reflexivity.
Qed.

(** Before the guards are passed, the answer is an error or an exception. *)
Lemma not_reached_no_success r :
  ¬ reaches_write W fs project_id region gcs_bucket_path →
  result call = inr r → status_of r = py "error".
Proof.
  intros Hn. unfold generate_and_run_beam_pipeline.
  destruct (forallb _ _) eqn:Eall; cbn [negb]; [|by intros [= <-]].
  destruct (startswith (py "gs://") gcs_bucket_path) eqn:Egs; cbn [negb];
    [|by intros [= <-]].
  destruct (makedirs W base_path fs) as [fs0 [str_e|]] eqn:Emk; [done|].
  destruct Hn. cbn [forallb] in Eall.
  rewrite !andb_true_iff, !bool_decide_eq_true in Eall.
  unfold reaches_write. rewrite Emk. tauto.
Qed.

Lemma success_needs_id r :
  result call = inr r → status_of r ≠ py "error" →
  ∃ output id,
    run = inr (output, Some id) ∧ job_id_of r = Some id.
Proof.
  intros Hr Hst.
  destruct (decide (project_id ≠ [] ∧ region ≠ [] ∧ gcs_bucket_path ≠ []
                    ∧ startswith (py "gs://") gcs_bucket_path = true
                    ∧ (makedirs W base_path fs).2 = None)) as [Hreach|Hn].
  - destruct (generate_result U W E fs project_id region gcs_bucket_path
                job_name pipeline_code pipeline_args pipeline_type Hreach)
      as (r' & target & Hr' & _ & Hcases).
    rewrite Hr in Hr'. injection Hr' as <-.
    destruct run as [[rc cmd output|str_e]|[output [id|]]];
      try (subst r; by destruct Hst).
    exists output, id. split; [done|].
    destruct (upload_from_string W _ _ _ _);
      destruct Hcases as [before ->]; reflexivity.
  - by destruct Hst; apply not_reached_no_success.
Qed.

End ZeroExit.

(** C6, as amended. In the builder's batch mode a script that exits with
    status 0 has its whole output searched for the identifier pattern: when
    none is found the status is [error], with the full output in the
    message; when one is found the result carries it. In either mode a
    status other than [error] comes with an identifier matched in the
    captured output. The template submission does not search: a command
    that exits with status 0 is reported as a success, with its output,
    identifier or not. *)
Theorem zero_exit_reporting :
  (∀ (U : Unicode) (W : Host) (E : entropy) (fs fs1 : files)
     (project_id region gcs_bucket_path job_name pipeline_code : pystr)
     (pipeline_args : dict pystr) (pipeline_type : pystr)
     (p : batch_process),
     reaches_write W fs project_id region gcs_bucket_path →
     write_fault W (temp_path E) pipeline_code (workdir_made W fs) = None →
     pipeline_type ≠ py "streaming" →
     exec_batch W
       (command_line W (temp_path E)
          (full_args_of project_id region gcs_bucket_path
             (_sanitize_job_name U (uuid_job E) job_name) pipeline_args))
       (<[temp_path E := File pipeline_code]> (workdir_made W fs))
     = (fs1, inr p) →
     b_returncode p = 0%Z →
     let output := b_stdout p ++ b_stderr p in
     let r :=
       result (generate_and_run_beam_pipeline U W E fs project_id region
                 gcs_bucket_path job_name pipeline_code pipeline_args
                 pipeline_type) in
     match search_job_id U output with
     | None =>
         r = inr (Error (py "Job launched, but could not find Job ID in output. Full output:"
                         ++ nl ++ output))
     | Some id =>
         ∃ st rep path,
           r = inr (Final st rep id path)
           ∧ (st = py "success" ∨ st = py "success_with_warning")
     end)
  ∧ (∀ (U : Unicode) (W : Host) (E : entropy) (fs : files)
       (project_id region gcs_bucket_path job_name pipeline_code : pystr)
       (pipeline_args : dict pystr) (pipeline_type : pystr) (r : report),
       result (generate_and_run_beam_pipeline U W E fs project_id region
                 gcs_bucket_path job_name pipeline_code pipeline_args
                 pipeline_type) = inr r →
       status_of r ≠ py "error" →
       ∃ output id before text,
         launched U W E fs project_id region gcs_bucket_path job_name
           pipeline_code pipeline_args pipeline_type
         = inr (output, Some id)
         ∧ job_id_of r = Some id
         ∧ output = before ++ text
         ∧ search_job_id U text = Some id)
  ∧ (∀ (V : Type) (U : Unicode) (W : World V)
       (job ip tp project region staging custom cmd out : pystr),
       cmd ∈ executed (submit_dataflow_template U W job ip tp project
                         region staging custom) →
       subprocess_run W cmd = Completed out →
       returned (submit_dataflow_template U W job ip tp project region
                   staging custom)
       = {| status := py "success";
            submit_comment := py "Job Submitted Successfully";
            stdout_key := Some out |}).
Proof.
  split; [|split].
  - intros U W E fs fs1 project_id region gcs_bucket_path job_name
      pipeline_code pipeline_args pipeline_type p Hreach Hw Ht Hx Hrc output r.
    subst r.
    pose proof (batch_zero_exit_launched U W E fs project_id region
                  gcs_bucket_path job_name pipeline_code pipeline_args
                  pipeline_type fs1 p Hw Ht Hx Hrc) as Hl.
    destruct (generate_result U W E fs project_id region gcs_bucket_path
                job_name pipeline_code pipeline_args pipeline_type Hreach)
      as (r & target & -> & _ & Hcases).
    rewrite Hl in Hcases. fold output in Hcases.
    destruct (search_job_id U output) as [id|]; [|by subst r].
    destruct (upload_from_string W _ _ _ _);
      destruct Hcases as [before ->]; eexists _, _, _;
      (split; [reflexivity|]); [by right|by left].
  - intros U W E fs project_id region gcs_bucket_path job_name
      pipeline_code pipeline_args pipeline_type r Hr Hst.
    destruct (success_needs_id U W E fs project_id region gcs_bucket_path
                job_name pipeline_code pipeline_args pipeline_type r Hr Hst)
      as (output & id & Hl & Hid).
    destruct (launched_id_matched U W E fs project_id region gcs_bucket_path
                job_name pipeline_code pipeline_args pipeline_type output id
                Hl) as (before & text & Ho & Hs).
    by exists output, id, before, text.
  - intros V U W job ip tp project region staging custom cmd out Hin Hrun.
    destruct (submit_executed U W _ _ _ _ _ _ _ _ Hin)
      as (_ & _ & _ & _ & _ & _ & _ & _ & _ & _ & ->).
    by rewrite Hrun.
Qed.

Lemma zero_exit_reporting_witness :
  result (generate_and_run_beam_pipeline ascii_only
            (test_host (py "Pipeline finished.") None) test_entropy ∅
            (py "proj") (py "us-central1") (py "gs://bucket/base") (py "WC")
            (py "import apache_beam") [] (py "batch"))
  = inr (Error (py "Job launched, but could not find Job ID in output. Full output:"
                ++ nl ++ py "Pipeline finished.")).
Proof.
  destruct zero_exit_reporting as (Hbatch & _ & _).
  apply (Hbatch ascii_only (test_host (py "Pipeline finished.") None)
           test_entropy ∅
           (<[temp_path test_entropy := File (py "import apache_beam")]>
              (workdir_made (test_host (py "Pipeline finished.") None) ∅))
           (py "proj") (py "us-central1") (py "gs://bucket/base") (py "WC")
           (py "import apache_beam") [] (py "batch")
           {| b_returncode := 0; b_stdout := py "Pipeline finished.";
              b_stderr := [] |});
    try reflexivity; try discriminate.
  repeat split; discriminate.
Defined.

(** ** The sanitizer on its own outputs *)

Section SanitizerFixpoints.
Context (U : Unicode).

Lemma concat_imap_singletons (f : nat → N → pystr) (s : pystr) :
  (∀ i c, s !! i = Some c → f i c = [c]) → concat (imap f s) = s.
Proof.
  revert f. induction s as [|c s IH]; intros f Hf; [done|].
  cbn [imap concat]. rewrite (Hf 0%nat c eq_refl). cbn [app]. f_equal.
  apply IH. intros i c' Hi. apply (Hf (S i) c' Hi).
Qed.

Lemma lower_job s : Forall (λ c, job_char c = true) s → lower U s = s.
Proof.
  intros Hall. unfold lower. apply concat_imap_singletons.
  intros i c Hi. rewrite Forall_forall in Hall.
  assert (job_char c = true) as Hc
    by (apply Hall; by apply list_elem_of_lookup_2 in Hi).
  unfold lower_char.
  assert ((c <? 128) = true) as -> by (apply N.ltb_lt; char_lia).
  assert (ascii_upper_letter c = false) as -> by char_lia.
  reflexivity.
Qed.

Lemma sub_illegal_job_id s :
  Forall (λ c, job_char c = true) s → sub_illegal s = s.
Proof.
  induction 1 as [|c s Hc Hs IH]; [done|].
  unfold sub_illegal in *. cbn [map]. by rewrite Hc, IH.
Qed.

Lemma sub_hyphen_runs_id s : no_hyphen_runs s = true → sub_hyphen_runs s = s.
Proof.
  induction s as [|c s IH]; [done|]. cbn [no_hyphen_runs sub_hyphen_runs].
  intros [Hc Hs]%andb_true_iff. apply negb_true_iff in Hc. rewrite Hc.
  by rewrite IH.
Qed.

Lemma sub_hyphen_runs_head s :
  startswith [45] (sub_hyphen_runs s) = startswith [45] s.
Proof.
  induction s as [|c s IH]; [done|]. cbn [sub_hyphen_runs].
  destruct ((c =? 45) && startswith [45] s) eqn:Ec; [|done].
  apply andb_true_iff in Ec as [Hc Hs]. rewrite IH, Hs.
  apply N.eqb_eq in Hc as ->. reflexivity.
Qed.

Lemma sub_hyphen_runs_no_runs s : no_hyphen_runs (sub_hyphen_runs s) = true.
Proof.
  induction s as [|c s IH]; [done|]. cbn [sub_hyphen_runs].
  destruct ((c =? 45) && startswith [45] s) eqn:Ec; [done|].
  cbn [no_hyphen_runs]. by rewrite sub_hyphen_runs_head, Ec, IH.
Qed.

Lemma lstrip_no_runs ch s :
  no_hyphen_runs s = true → no_hyphen_runs (lstrip ch s) = true.
Proof.
  induction s as [|c s IH]; [done|]. cbn [lstrip].
  destruct (c =? ch); [|done]. cbn [no_hyphen_runs].
  intros [_ Hs]%andb_true_iff. by apply IH.
Qed.

Lemma rstrip_keeps_head ch s a r :
  rstrip ch s = a :: r → ∃ s', s = a :: s'.
Proof.
  destruct s as [|b s']; [done|]. rewrite rstrip_cons.
  destruct (rstrip ch s'); [destruct (b =? ch); [done|]|];
    intros [= <- _]; by eexists.
Qed.

Lemma rstrip_no_runs s :
  no_hyphen_runs s = true → no_hyphen_runs (rstrip 45 s) = true.
Proof.
  induction s as [|c s IH]; [done|]. cbn [no_hyphen_runs].
  intros [Hc Hs]%andb_true_iff. specialize (IH Hs).
  rewrite rstrip_cons. destruct (rstrip 45 s) as [|a r] eqn:Er.
  - destruct (c =? 45) eqn:Ec; [done|].
    cbn [no_hyphen_runs startswith]. by rewrite andb_false_r.
  - destruct (rstrip_keeps_head _ _ _ _ Er) as [s' ->].
    change (no_hyphen_runs (c :: a :: r))
      with (negb ((c =? 45) && startswith [45] (a :: r))
            && no_hyphen_runs (a :: r)).
    rewrite IH, andb_true_r. exact Hc.
Qed.

Lemma lstrip_id ch c r : c ≠ ch → lstrip ch (c :: r) = c :: r.
Proof. intros Hc%N.eqb_neq. cbn [lstrip]. by rewrite Hc. Qed.

Lemma rstrip_id ch c r :
  List.last (c :: r) 0 ≠ ch → rstrip ch (c :: r) = c :: r.
Proof.
  revert c. induction r as [|a r IH]; intros c Hl.
  - cbn in Hl. apply N.eqb_neq in Hl. rewrite rstrip_cons, rstrip_nil.
    by rewrite Hl.
  - change (List.last (c :: a :: r) 0) with (List.last (a :: r) 0) in Hl.
    rewrite rstrip_cons, IH by done. reflexivity.
Qed.

(** The sanitizer leaves a settled name of at most 63 characters as it
    is. *)
Lemma sanitize_settled uuid s :
  settled s → (length s ≤ 63)%nat → _sanitize_job_name U uuid s = s.
Proof.
  intros (c & r & -> & Hc & Hr & Hl & Hruns) Hlen.
  assert (Forall (λ c, job_char c = true) (c :: r)) as Hall.
  { constructor; [char_lia|done]. }
  assert (c ≠ 45) as Hc45 by char_lia.
  assert (List.last (c :: r) 0 ≠ 45) as Hl45 by char_lia.
  assert (cleaned U (c :: r) = c :: r) as Hclean.
  { unfold cleaned, strip.
    rewrite lower_job, sub_illegal_job_id, sub_hyphen_runs_id by done.
    rewrite lstrip_id by done. by apply rstrip_id. }
  unfold _sanitize_job_name. rewrite Hclean.
  rewrite fix_ends_cleaned, Hc by done. by apply take_ge.
Qed.

Lemma job_prefix_no_runs c r :
  c ≠ 45 → no_hyphen_runs (c :: r) = true →
  no_hyphen_runs (py "job-" ++ c :: r) = true.
Proof.
  intros Hc%N.eqb_neq Hr. change (py "job-") with [106; 111; 98; 45].
  cbn [app]. cbn [no_hyphen_runs] in *. cbn [startswith].
  rewrite N.eqb_sym in Hc. rewrite Hc. exact Hr.
Qed.

Lemma hex_no_runs s :
  Forall (λ c, hex_char c = true) s → no_hyphen_runs s = true.
Proof.
  induction 1 as [|c s Hc Hs IH]; [done|]. cbn [no_hyphen_runs].
  rewrite IH, andb_true_r.
  assert ((c =? 45) = false) as -> by char_lia. reflexivity.
Qed.

(** What the sanitizer returns is settled, unless the final slice cut the
    name. *)
Lemma sanitize_gives_settled uuid name :
  uuid4_hex_form uuid = true →
  cleaned U name = []
  ∨ (length (fix_ends U (cleaned U name)) ≤ 63)%nat →
  settled (_sanitize_job_name U uuid name).
Proof.
  intros Hu Huncut. unfold _sanitize_job_name.
  pose proof (cleaned_job U name) as Hall.
  assert (no_hyphen_runs (cleaned U name) = true) as Hruns.
  { unfold cleaned, strip.
    apply rstrip_no_runs, lstrip_no_runs, sub_hyphen_runs_no_runs. }
  destruct (cleaned_ends U name) as [E0|(c & r & E1 & Hc & Hl)].
  - rewrite E0. destruct (fallback_shape uuid Hu) as (_ & _ & _ & Hjob).
    unfold uuid4_hex_form in Hu. apply andb_true_iff in Hu as [Hlen Hhex].
    apply bool_decide_eq_true in Hlen. apply forallb_Forall in Hhex.
    assert (Forall (λ c, hex_char c = true) (take 8 uuid)) as Ht
      by (by apply Forall_take).
    assert (length (take 8 uuid) = 8%nat) as Hl8
      by (rewrite length_take; lia).
    destruct (take 8 uuid) as [|h t] eqn:E8; [done|].
    exists 106, (py "ob-" ++ h :: t). split; [reflexivity|].
    split; [reflexivity|]. split; [by inversion Hjob|]. split.
    + rewrite app_comm_cons, last_app_cons.
      apply (Forall_last (λ c, hex_char c = true) h t 0) in Ht. char_lia.
    + change (106 :: py "ob-" ++ h :: t) with (py "job-" ++ h :: t).
      apply job_prefix_no_runs; [|by apply hex_no_runs].
      inversion Ht; subst. char_lia.
  - rewrite E1 in *. destruct Huncut as [?|Hlen]; [done|].
    rewrite take_ge by exact Hlen.
    rewrite fix_ends_cleaned by done.
    assert (lower_alnum (List.last (c :: r) 0) = true) as Hla.
    { apply lower_alnum_job; [|done].
      by apply (Forall_last (λ c, job_char c = true)). }
    destruct (ascii_lower_letter c) eqn:Ec.
    + exists c, r. by inversion Hall.
    + exists 106, (py "ob-" ++ c :: r). split; [reflexivity|].
      split; [reflexivity|]. split.
      * apply Forall_app. split; [by repeat constructor|done].
      * split; [by rewrite app_comm_cons, last_app_cons|].
        change (106 :: py "ob-" ++ c :: r) with (py "job-" ++ c :: r).
        by apply job_prefix_no_runs.
Qed.

End SanitizerFixpoints.

(** X1. The sanitizer is idempotent on every name that the final slice does
    not cut: given [uuid4] hex draws, sanitizing such a name's output again,
    with any other draw, gives that output back. *)
Theorem sanitize_idempotent_when_uncut (U : Unicode)
    (uuid uuid' name : pystr) :
  uuid4_hex_form uuid = true →
  cleaned U name = []
  ∨ (length (fix_ends U (cleaned U name)) ≤ 63)%nat →
  _sanitize_job_name U uuid' (_sanitize_job_name U uuid name)
  = _sanitize_job_name U uuid name.
Proof.
  intros Hu Huncut. apply sanitize_settled.
  - by apply sanitize_gives_settled.
  - apply sanitize_length.
Qed.

(** On ASCII text the Unicode tables are not consulted. *)
Theorem sanitize_ascii_any_tables (U U' : Unicode) (uuid name : pystr) :
  Forall (λ c, c < 128) name →
  _sanitize_job_name U uuid name = _sanitize_job_name U' uuid name.
Proof.
  intros Hascii.
  assert (lower U name = lower U' name) as Hlow.
  { unfold lower. f_equal. apply imap_ext. intros i c Hi.
    rewrite Forall_forall in Hascii.
    assert (c < 128) as Hc
      by (apply Hascii; by apply list_elem_of_lookup_2 in Hi).
    unfold lower_char. apply N.ltb_lt in Hc. by rewrite Hc. }
  assert (cleaned U name = cleaned U' name) as Hclean
    by (unfold cleaned; by rewrite Hlow).
  unfold _sanitize_job_name. rewrite <- Hclean.
  pose proof (cleaned_job U name) as Hall.
  destruct (cleaned_ends U name) as [->|(c & r & E1 & Hc & Hl)]; [done|].
  rewrite E1 in *. by rewrite !fix_ends_cleaned.
Qed.

Lemma sanitize_idempotent_when_uncut_witness :
  _sanitize_job_name ascii_only (py "89abcdef0123456789abcdef01234567")
    (_sanitize_job_name ascii_only (py "0123456789ab4def8123456789abcdef")
       (py " My Job!! "))
  = py "my-job".
Proof.
  rewrite (sanitize_idempotent_when_uncut ascii_only
             (py "0123456789ab4def8123456789abcdef")
             (py "89abcdef0123456789abcdef01234567") (py " My Job!! ")
             eq_refl).
  - vm_compute. reflexivity.
  - right. vm_compute. lia.
Defined.

(** ** Further properties of the sanitizer *)

Lemma valid_job_name_settled s : valid_job_name s = true → settled s.
Proof.
  unfold valid_job_name.
  intros [[Hre Hruns]%andb_true_iff _]%andb_true_iff.
  destruct s as [|c [|a r]]; [done| |].
  - cbn in Hre. exists c, []. repeat split; [done|constructor| |done].
    cbn [List.last]. char_lia.
  - exists c, (a :: r). unfold relaxed_name_re, whole_name_re in Hre.
    apply andb_true_iff in Hre as [[Hc Hmid]%andb_true_iff Hlast].
    apply forallb_Forall in Hmid.
    repeat split; [done| |done|done].
    rewrite (app_removelast_last (l := a :: r) 0) by done.
    apply Forall_app. split; [done|]. constructor; [char_lia|constructor].
Qed.

Lemma no_hyphen_runs_take n s :
  no_hyphen_runs s = true → no_hyphen_runs (take n s) = true.
Proof.
  revert n. induction s as [|c s IH]; intros [|n]; [done..|].
  cbn [take no_hyphen_runs]. intros [Hc Hs]%andb_true_iff.
  rewrite IH, andb_true_r by done.
  destruct (c =? 45); [|done]. cbn [andb] in *.
  destruct s as [|a s]; [by destruct n|]. destruct n; [done|].
  exact Hc.
Qed.

(** X2. A name that is already of the target form (a lowercase letter,
    then letters, digits and single hyphens, ending in a letter or digit, at
    most 63 characters) is returned as it is, whatever the random draw. *)
Theorem valid_name_is_kept (U : Unicode) (uuid s : pystr) :
  valid_job_name s = true → _sanitize_job_name U uuid s = s.
Proof.
  intros Hv. apply sanitize_settled; [by apply valid_job_name_settled|].
  unfold valid_job_name in Hv. apply andb_true_iff in Hv as [_ Hlen].
  by apply bool_decide_eq_true in Hlen.
Qed.

Lemma valid_name_is_kept_witness :
  _sanitize_job_name ascii_only (py "0123456789ab4def8123456789abcdef")
    (py "wordcount-2024-run7")
  = py "wordcount-2024-run7".
Proof.
  apply (valid_name_is_kept ascii_only (py "0123456789ab4def8123456789abcdef")
           (py "wordcount-2024-run7")).
  vm_compute. reflexivity.
Defined.

(** X3. Whatever the name, and also when the final slice cuts it, the
    sanitized name never holds two hyphens in a row. *)
Theorem sanitized_has_no_hyphen_runs (U : Unicode) (uuid name : pystr) :
  uuid4_hex_form uuid = true →
  no_hyphen_runs (_sanitize_job_name U uuid name) = true.
Proof.
  intros Hu. unfold _sanitize_job_name.
  pose proof (cleaned_job U name) as Hall.
  assert (no_hyphen_runs (cleaned U name) = true) as Hruns.
  { unfold cleaned, strip.
    apply rstrip_no_runs, lstrip_no_runs, sub_hyphen_runs_no_runs. }
  destruct (cleaned_ends U name) as [E0|(c & r & E1 & Hc & Hl)].
  - rewrite E0. unfold uuid4_hex_form in Hu.
    apply andb_true_iff in Hu as [Hlen Hhex].
    apply bool_decide_eq_true in Hlen. apply forallb_Forall in Hhex.
    assert (Forall (λ c, hex_char c = true) (take 8 uuid)) as Ht
      by (by apply Forall_take).
    destruct (take 8 uuid) as [|h t] eqn:E8; [done|].
    apply job_prefix_no_runs; [|by apply hex_no_runs].
    inversion Ht; subst. char_lia.
  - rewrite E1 in *. apply no_hyphen_runs_take.
    rewrite fix_ends_cleaned by done.
    destruct (ascii_lower_letter c); [done|].
    by apply job_prefix_no_runs.
Qed.

Lemma sanitized_has_no_hyphen_runs_witness :
  no_hyphen_runs
    (_sanitize_job_name ascii_only (py "0123456789ab4def8123456789abcdef")
       (py "a -- b__c")) = true.
Proof.
  apply (sanitized_has_no_hyphen_runs ascii_only
           (py "0123456789ab4def8123456789abcdef") (py "a -- b__c")).
  vm_compute. reflexivity.
Defined.

(** ** Further properties of the template submission *)

Section SubmitGuards.
Context {V : Type} (U : Unicode) (W : World V).

Lemma submit_definition_cases job (ui : inputs_json V) d project region
    staging custom :
  let r := submit_definition U W job ui d project region staging custom in
  (executed r = [] ∧ status (returned r) = py "failed"
   ∧ stdout_key (returned r) = None)
  ∨ ∃ path inputs,
      ui = IObject inputs
      ∧ resolve_path custom d = Some path ∧ path ≠ []
      ∧ (custom = [] →
         ∃ S, params d = Some S ∧ S ≠ ∅
              ∧ validation_result (validate_input_params U S inputs)
                = py "success")
      ∧ executed r
        = [if is_flex path d
           then flex_cmd job project region path
                  (encode_parameters (value_str W) inputs)
           else classic_cmd job project region path
                  (encode_parameters (value_str W) inputs) staging].
Proof.
  intros r. subst r. unfold submit_definition.
  destruct (resolve_path custom d) as [[|c path]|] eqn:Ep;
    [left; done| |left; done].
  destruct custom as [|c0 custom].
  - destruct (bool_decide (default ∅ (params d) = ∅)) eqn:Ee; [left; done|].
    apply bool_decide_eq_false in Ee.
    destruct (bool_decide
                (validation_result
                   (validate_decoded U (default ∅ (params d)) ui)
                 ≠ py "success")) eqn:Ev; [left; done|].
    apply bool_decide_eq_false in Ev. apply dec_stable in Ev.
    destruct ui as [inputs|type_name]; [|left; done].
    right. exists (c :: path), inputs. split; [done|]. split; [done|].
    split; [done|]. split.
    + intros _. destruct (params d) as [S|]; [|done]. by exists S.
    + by destruct (subprocess_run W _).
  - destruct ui as [inputs|type_name]; [|left; done].
    right. exists (c :: path), inputs. split; [done|]. split; [done|].
    split; [done|]. split; [done|]. by destruct (subprocess_run W _).
Qed.

(** With a custom path, inputs that are no object get as far as
    [user_input_dict.items()]. *)
Lemma submit_definition_not_object job type_name d project region staging
    custom :
  custom ≠ [] →
  submit_definition U W job (INotObject type_name) d project region staging
    custom
  = failed (unexpected (no_attribute type_name (py "items"))).
Proof. intros Hc. by destruct custom. Qed.

End SubmitGuards.

(** X4. Without a custom template path, a command is handed to the shell
    only for inputs that conform to the template's own parameter schema:
    the inputs are an object, the definition has a non-empty [params]
    object, every supplied name is in its required or optional list, and
    every required name is supplied. *)
Theorem submit_runs_only_validated {V : Type} (U : Unicode) (W : World V)
    (job ip tp project region staging cmd : pystr) :
  cmd ∈ executed (submit_dataflow_template U W job ip tp project region
                    staging (py "")) →
  ∃ ui tj d S,
    json_loads_inputs W ip = inr (IObject ui)
    ∧ json_loads_template W tp = inr tj
    ∧ unwrap_list tj = Some (TObject d)
    ∧ params d = Some S ∧ S ≠ ∅
    ∧ conforms S ui.
Proof.
  unfold submit_dataflow_template.
  destruct (json_loads_inputs W ip) as [e|ui]; [by intros ?%elem_of_nil|].
  destruct (json_loads_template W tp) as [e|tj]; [by intros ?%elem_of_nil|].
  destruct (unwrap_list tj) as [[d|l|]|] eqn:Eu;
    [|by intros ?%elem_of_nil..].
  intros Hin.
  destruct (submit_definition_cases U W job ui d project region staging
              (py "")) as [(He & _)|(path & inputs & -> & _ & _ & Hval & _)].
  - rewrite He in Hin. by apply elem_of_nil in Hin.
  - destruct (Hval eq_refl) as (S & HS & Hne & Hok).
    exists inputs, tj, d, S. repeat split; try done.
    + destruct (dataflow_validate_cases U S inputs)
        as [(H1 & H2 & _)|[(_ & Hr)|(_ & _ & Hr)]];
        [done|rewrite Hr in Hok; done..].
    + destruct (dataflow_validate_cases U S inputs)
        as [(H1 & H2 & _)|[(_ & Hr)|(_ & _ & Hr)]];
        [done|rewrite Hr in Hok; done..].
Qed.

Lemma submit_runs_only_validated_witness :
  ∃ S, params wordcount = Some S
       ∧ conforms S [(py "a", py "x,y")].
Proof.
  destruct (submit_runs_only_validated ascii_only (test_world (py "ok"))
              (py "wc") (a_is (py "x,y")) wordcount_json (py "proj")
              (py "us-central1") (py "gs://stage/tmp")
              (classic_cmd (py "wc") (py "proj") (py "us-central1")
                 (py "gs://dataflow-templates/latest/Word_Count")
                 (py "^~^a=x,y") (py "gs://stage/tmp")))
    as (ui & tj & d & S & Hui & Htj & Hd & HS & _ & Hc).
  - vm_compute. left.
  - vm_compute in Hui, Htj. injection Hui as <-. injection Htj as <-.
    injection Hd as <-. by exists S.
Defined.

(** X5. With a custom template path the parameters are not validated and
    the definition's own path is not used. Once both JSON texts decode and
    the definition (unwrapped) is an object: inputs that are an object lead
    to exactly one command, for the custom path, whatever the definition's
    [params] and [template_gcs_path] hold and whatever names the inputs
    carry; inputs that decode to anything else (a list, [null], a number)
    lead to no command, the call failing on [user_input_dict.items()]. *)
Theorem custom_path_skips_validation {V : Type} (U : Unicode) (W : World V)
    (job ip tp project region staging custom : pystr) (ui : inputs_json V)
    (tj : template_json) (d : template_dict) :
  custom ≠ [] →
  json_loads_inputs W ip = inr ui →
  json_loads_template W tp = inr tj →
  unwrap_list tj = Some (TObject d) →
  let r := submit_dataflow_template U W job ip tp project region staging
             custom in
  match ui with
  | IObject inputs =>
      executed r
      = [if is_flex custom d
         then flex_cmd job project region custom
                (encode_parameters (value_str W) inputs)
         else classic_cmd job project region custom
                (encode_parameters (value_str W) inputs) staging]
  | INotObject type_name =>
      r = {| executed := [];
             returned :=
               {| status := py "failed";
                  submit_comment :=
                    py "An unexpected error occurred: '" ++ type_name
                    ++ py "' object has no attribute 'items'";
                  stdout_key := None |} |}
  end.
Proof.
  intros Hc Hui Htj Hd r. subst r. unfold submit_dataflow_template.
  rewrite Hui, Htj, Hd. destruct ui as [inputs|type_name].
  - destruct (submit_definition_cases U W job (IObject inputs) d project
                region staging custom)
      as [(He & _)|(path & inputs' & [= <-] & Hp & _ & _ & He)].
    + exfalso. revert He. unfold submit_definition, resolve_path.
      destruct custom as [|c custom]; [done|].
      by destruct (subprocess_run W _).
    + rewrite He. clear He. unfold resolve_path in Hp.
      destruct custom as [|c custom]; [done|]. injection Hp as Hp.
      by rewrite <- Hp.
  - rewrite submit_definition_not_object by done.
    reflexivity.
Qed.

Lemma custom_path_skips_validation_witness :
  let submit := λ ip,
    submit_dataflow_template ascii_only (test_world (py "ok")) (py "wc") ip
      kafka_json (py "proj") (py "us-central1") (py "gs://stage/tmp")
      (py "gs://mine/t") in
  executed (submit (a_is (py "x,y")))
  = [flex_cmd (py "wc") (py "proj") (py "us-central1") (py "gs://mine/t")
       (py "^~^a=x,y")]
  ∧ submit (py "[]")
    = {| executed := [];
         returned :=
           {| status := py "failed";
              submit_comment :=
                py "An unexpected error occurred: 'list' object has no attribute 'items'";
              stdout_key := None |} |}.
Proof.
  intros submit. split.
  - apply (custom_path_skips_validation ascii_only (test_world (py "ok"))
             (py "wc") (a_is (py "x,y")) kafka_json (py "proj")
             (py "us-central1") (py "gs://stage/tmp") (py "gs://mine/t")
             (IObject [(py "a", py "x,y")]) (TObject kafka) kafka);
      [discriminate|reflexivity..].
  - apply (custom_path_skips_validation ascii_only (test_world (py "ok"))
             (py "wc") (py "[]") kafka_json (py "proj")
             (py "us-central1") (py "gs://stage/tmp") (py "gs://mine/t")
             (INotObject (py "list")) (TObject kafka) kafka);
      [discriminate|reflexivity..].
Defined.

(** X6. A call hands at most one command to the shell. Its status is
    [success] exactly when one command was run and [subprocess.run] came
    back with its completed process (which [check=True] allows for exit
    status 0 only, and [text=True] only once the output is decoded), and
    then the result carries that command's standard output; in every other
    case, no command run or a run that raised, the status is [failed] and
    the result has no [stdout] key. *)
Theorem submit_success_iff_ran {V : Type} (U : Unicode) (W : World V)
    (job ip tp project region staging custom : pystr) :
  let r := submit_dataflow_template U W job ip tp project region staging
             custom in
  (length (executed r) ≤ 1)%nat
  ∧ (status (returned r) = py "success"
     ↔ ∃ cmd out, executed r = [cmd]
                  ∧ subprocess_run W cmd = Completed out
                  ∧ stdout_key (returned r) = Some out)
  ∧ (status (returned r) ≠ py "success"
     ↔ status (returned r) = py "failed" ∧ stdout_key (returned r) = None).
Proof.
  intros r.
  assert ((executed r = [] ∧ status (returned r) = py "failed"
           ∧ stdout_key (returned r) = None)
          ∨ ∃ cmd, executed r = [cmd]
              ∧ returned r
                = match subprocess_run W cmd with
                  | Completed stdout =>
                      {| status := py "success";
                         submit_comment := py "Job Submitted Successfully";
                         stdout_key := Some stdout |}
                  | RunRaised str_err =>
                      {| status := py "failed";
                         submit_comment := unexpected str_err;
                         stdout_key := None |}
                  end) as Hcases.
  { destruct (executed r) as [|cmd l] eqn:Ee.
    - left. split; [done|]. subst r. revert Ee.
      unfold submit_dataflow_template.
      destruct (json_loads_inputs W ip) as [e|ui]; [done|].
      destruct (json_loads_template W tp) as [e|tj]; [done|].
      destruct (unwrap_list tj) as [[d|l|]|]; [|done..].
      destruct (submit_definition_cases U W job ui d project region staging
                  custom) as [(_ & Hs)|(path & inputs & _ & _ & _ & _ & He)];
        [done|].
      by rewrite He.
    - right. exists cmd.
      destruct (submit_executed U W job ip tp project region staging custom
                  cmd) as (ui & tj & d & path & _ & _ & _ & _ & _ & He & Hr).
      { fold r. rewrite Ee. left. }
      fold r in He, Hr. rewrite Ee in He. by split. }
  destruct Hcases as [(He & Hs & Ho)|(cmd & He & Hr)].
  - rewrite He, Hs, Ho. split; [cbn; lia|]. split.
    + split; [done|]. by intros (? & ? & ? & _).
    + split; [done|]. by intros _.
  - rewrite He, Hr. split; [cbn; lia|].
    destruct (subprocess_run W cmd) as [out|e] eqn:Erun; cbn.
    + split; [split; [intros _; by exists cmd, out|done]|].
      split; [done|]. by intros [? _].
    + split; [split; [done|]|done].
      intros (cmd' & out & [= <-] & Hrun & _). congruence.
Qed.

(** ** Further properties of the pipeline builder *)

Section BuilderEffects.
Context (U : Unicode) (W : Host) (E : entropy).
Context (fs : files).
Context (project_id region gcs_bucket_path job_name pipeline_code : pystr).
Context (pipeline_args : dict pystr) (pipeline_type : pystr).

Local Abbreviation name := (_sanitize_job_name U (uuid_job E) job_name).
Local Abbreviation full_args :=
  (full_args_of project_id region gcs_bucket_path name pipeline_args).
Local Abbreviation call :=
  (generate_and_run_beam_pipeline U W E fs project_id region gcs_bucket_path
     job_name pipeline_code pipeline_args pipeline_type).

(** [os.makedirs] only ever adds directories, at the path and its
    ancestors. *)
Lemma os_makedirs_frame (rparts : list pystr) (fs0 : files) (p : pystr) :
  (os_makedirs W rparts fs0).1 !! p = fs0 !! p
  ∨ (fs0 !! p = None
     ∧ (os_makedirs W rparts fs0).1 !! p = Some Directory
     ∧ ∃ k, (k < length rparts)%nat
            ∧ p = join (py "/") (rev (drop k rparts))).
Proof.
  revert fs0. induction rparts as [|tail rhead IH]; intros fs0; [by left|].
  cbn [os_makedirs].
  set (inner := if bool_decide (rhead ≠ [])
                   && bool_decide (fs0 !! join (py "/") (rev rhead) = None)
                then os_makedirs W rhead fs0 else (fs0, None)).
  assert (inner.1 !! p = fs0 !! p
          ∨ (fs0 !! p = None ∧ inner.1 !! p = Some Directory
             ∧ ∃ k, (k < length (tail :: rhead))%nat
                    ∧ p = join (py "/") (rev (drop k (tail :: rhead)))))
    as Hinner.
  { subst inner. destruct (_ && _); [|by left].
    destruct (IH fs0) as [?|(? & ? & k & Hk & ->)]; [by left|right].
    split; [done|]. split; [done|]. exists (S k). split; [cbn; lia|done]. }
  destruct inner as [fs1 [str_e|]]; cbn [fst] in *; [exact Hinner|].
  unfold os_mkdir.
  destruct (fs1 !! join (py "/") (rev (tail :: rhead))) as [n|] eqn:En.
  { rewrite En. by destruct n. }
  destruct (mkdir_fault W _ fs1) as [str_e|]; [by rewrite En|].
  cbn [fst].
  destruct (decide (p = join (py "/") (rev (tail :: rhead)))) as [->|Hp].
  - right. rewrite lookup_insert_eq.
    destruct Hinner as [Heq|(_ & Hd & _)]; [|congruence].
    split; [congruence|]. split; [done|]. exists 0%nat. split; [cbn; lia|done].
  - by rewrite lookup_insert_ne.
Qed.

Lemma os_makedirs_made (rparts : list pystr) (fs0 : files) :
  rparts ≠ [] →
  (os_makedirs W rparts fs0).2 = None →
  (os_makedirs W rparts fs0).1 !! join (py "/") (rev rparts)
  = Some Directory.
Proof.
  destruct rparts as [|tail rhead]; [done|]. intros _. cbn [os_makedirs].
  destruct (if _ && _ then _ else _) as [fs1 [str_e|]]; [done|].
  unfold os_mkdir.
  destruct (fs1 !! join (py "/") (rev (tail :: rhead))) as [n|] eqn:En.
  { rewrite En. by destruct n. }
  destruct (mkdir_fault W _ fs1) as [str_e|]; [by rewrite En|].
  intros _. apply lookup_insert_eq.
Qed.

Lemma workdir_parts :
  rev (split 47 base_path)
  = [py "dataflow_agent"; py "agents"; py "agent"; py "plumber"].
Proof. reflexivity. Qed.

Lemma workdir_made_frame (p : pystr) :
  workdir_made W fs !! p = fs !! p
  ∨ (p ∈ workdirs ∧ fs !! p = None
     ∧ workdir_made W fs !! p = Some Directory).
Proof.
  unfold workdir_made, makedirs. rewrite workdir_parts.
  destruct (os_makedirs_frame
              [py "dataflow_agent"; py "agents"; py "agent"; py "plumber"]
              fs p) as [?|(Hn & Hd & k & Hk & ->)]; [by left|right].
  split; [|done]. clear Hn Hd.
  do 4 (destruct k as [|k];
        [apply (bool_decide_unpack _); vm_compute; exact I|]).
  cbn in Hk. lia.
Qed.

Lemma workdir_made_there :
  (makedirs W base_path fs).2 = None →
  workdir_made W fs !! base_path = Some Directory.
Proof.
  unfold workdir_made, makedirs. rewrite workdir_parts. intros Hmk.
  by apply os_makedirs_made in Hmk.
Qed.

Lemma temp_path_eq :
  temp_path E
  = base_path ++ py "/temp_pipeline_" ++ uuid_temp E ++ py ".py".
Proof. reflexivity. Qed.

Lemma temp_path_not_base : base_path ≠ temp_path E.
Proof.
  rewrite temp_path_eq. intros H. apply (f_equal length) in H.
  rewrite !length_app in H.
  assert (0 < length (py "/temp_pipeline_"))%nat by (vm_compute; lia). lia.
Qed.

(** A call that does not get to the transient file sends no signal and
    leaves everything as it was, up to the directories [os.makedirs] made
    before it raised. *)
Lemma generate_stopped_early :
  reaches_write W fs project_id region gcs_bucket_path
  ∨ (signals call = []
     ∧ (fs_after call = fs ∨ fs_after call = workdir_made W fs)).
Proof.
  unfold generate_and_run_beam_pipeline, reaches_write, workdir_made.
  destruct project_id as [|c1 p]; [right; split; [done|by left]|].
  destruct region as [|c2 r]; [right; split; [done|by left]|].
  destruct gcs_bucket_path as [|c3 b]; [right; split; [done|by left]|].
  cbn [forallb negb andb].
  rewrite !bool_decide_eq_true_2 by done. cbn [negb andb].
  destruct (startswith (py "gs://") (c3 :: b)) eqn:Es;
    [|right; split; [done|by left]].
  cbn [negb].
  destruct (makedirs W base_path fs) as [fs0 [str_e|]] eqn:Em;
    [right; split; [done|by right]|]. by left.
Qed.

Lemma finally_other (t p : pystr) (fs0 : files) :
  p ≠ t → (finally U W t fs0).1 !! p = fs0 !! p.
Proof.
  intros Hp. unfold finally, os_remove. case_bool_decide; [|done].
  destruct (fs0 !! t) as [[text|]|]; [|done..].
  destruct (remove_fault W t fs0); [done|]. by apply lookup_delete_ne.
Qed.

Lemma launch_frame (fs0 : files) (t : pystr) (args : dict pystr)
    (p : pystr) :
  (∀ cmd fs1, (exec_batch W cmd fs1).1 = fs1) →
  (∀ cmd fs1, (exec_streaming W cmd fs1).1 = fs1) →
  p ≠ t →
  (launch U W fs0 t pipeline_code pipeline_type args).1.1 !! p = fs0 !! p.
Proof.
  intros Hb Hs Hp. unfold launch.
  destruct (write_fault W t pipeline_code fs0) as [[e [text|]]|]; cbn [fst].
  - by apply lookup_insert_ne.
  - done.
  - case_bool_decide.
    + specialize (Hs (command_line W t args)
                     (<[t:=File pipeline_code]> fs0)).
      destruct (exec_streaming W _ _) as [fs1 [e|pr]]; cbn [fst] in *.
      * subst fs1. by apply lookup_insert_ne.
      * destruct (read_lines U (s_lines pr) []) as [out [id|]];
          cbn [fst]; subst fs1; by apply lookup_insert_ne.
    + specialize (Hb (command_line W t args)
                     (<[t:=File pipeline_code]> fs0)).
      destruct (exec_batch W _ _) as [fs1 [e|pr]]; cbn [fst] in *.
      * subst fs1. by apply lookup_insert_ne.
      * case_bool_decide; cbn [fst]; subst fs1; by apply lookup_insert_ne.
Qed.

(** The signals go to the process that the launch started, and follow what
    its termination step met. *)
Lemma launch_signals (fs0 : files) (t : pystr) (args : dict pystr) :
  let sent := (launch U W fs0 t pipeline_code pipeline_type args).1.2 in
  (pipeline_type ≠ py "streaming" → sent = [])
  ∧ (sent = [] ∨ sent = [SIGTERM] ∨ sent = [SIGTERM; SIGKILL])
  ∧ (sent ≠ [] →
     write_fault W t pipeline_code fs0 = None
     ∧ ∃ fs1 pr,
         exec_streaming W (command_line W t args)
           (<[t:=File pipeline_code]> fs0)
         = (fs1, inr pr)
         ∧ s_returncode_after_read pr = None
         ∧ (s_terminate pr = Exited ∧ sent = [SIGTERM]
            ∨ s_terminate pr = TimedOut ∧ sent = [SIGTERM; SIGKILL])).
Proof.
  intros sent. subst sent. unfold launch.
  destruct (write_fault W t pipeline_code fs0) as [[e left_with]|];
    cbn [snd fst].
  { split; [done|]. split; [by left|]. done. }
  case_bool_decide as Ht.
  - destruct (exec_streaming W _ _) as [fs1 [e|pr]] eqn:Ex; cbn [snd fst].
    { split; [done|]. split; [by left|]. done. }
    assert ((let '(output, job_id_match) := read_lines U (s_lines pr) [] in
             match job_id_match with
             | Some job_id =>
                 (fs1, stop_process pr,
                  inr (output, Some job_id) : raised + pystr * option pystr)
             | None =>
                 (fs1, stop_process pr,
                  inl (CalledProcessError (or_1 (s_returncode pr))
                         (command_line W t args) (output ++ s_rest pr)))
             end).1.2 = stop_process pr) as ->.
    { by destruct (read_lines U (s_lines pr) []) as [out [id|]]. }
    split; [done|]. unfold stop_process.
    destruct (s_returncode_after_read pr) eqn:Erc.
    { split; [by left|]. done. }
    destruct (s_terminate pr) eqn:Et.
    + split; [right; by left|]. intros _. split; [done|].
      exists fs1, pr. split; [done|]. split; [done|]. by left.
    + split; [right; by right|]. intros _. split; [done|].
      exists fs1, pr. split; [done|]. split; [done|]. by right.
    + split; [by left|]. done.
  - destruct (exec_batch W _ _) as [fs1 [e|pr]]; cbn [snd fst].
    { split; [done|]. split; [by left|]. done. }
    case_bool_decide; cbn [snd fst];
      (split; [done|]; split; [by left|]; done).
Qed.

Lemma generate_effects :
  reaches_write W fs project_id region gcs_bucket_path →
  fs_after call
  = (finally U W (temp_path E)
       (launch U W (workdir_made W fs) (temp_path E) pipeline_code
          pipeline_type full_args).1.1).1
  ∧ signals call
    = (launch U W (workdir_made W fs) (temp_path E) pipeline_code
         pipeline_type full_args).1.2.
Proof.
  intros Hreach.
  pose proof (generate_reached U W E fs project_id region gcs_bucket_path
                job_name pipeline_code pipeline_args pipeline_type Hreach)
    as Hcall.
  destruct (launch U W (workdir_made W fs) (temp_path E) pipeline_code
              pipeline_type _) as [[fs' sent] l].
  by rewrite Hcall.
Qed.

(** Every path other than the transient one holds after the call what it
    held before, or is a directory that [os.makedirs] added. *)
Lemma generate_frame (p : pystr) :
  (∀ cmd fs0, (exec_batch W cmd fs0).1 = fs0) →
  (∀ cmd fs0, (exec_streaming W cmd fs0).1 = fs0) →
  p ≠ temp_path E →
  fs_after call !! p = fs !! p
  ∨ (p ∈ workdirs ∧ fs !! p = None ∧ fs_after call !! p = Some Directory).
Proof.
  intros Hb Hs Hp.
  destruct generate_stopped_early as [Hreach|[_ [->| ->]]];
    [|by left|apply workdir_made_frame].
  destruct (generate_effects Hreach) as [-> _].
  rewrite finally_other, launch_frame by done. apply workdir_made_frame.
Qed.

Lemma generate_workdir :
  (∀ cmd fs0, (exec_batch W cmd fs0).1 = fs0) →
  (∀ cmd fs0, (exec_streaming W cmd fs0).1 = fs0) →
  reaches_write W fs project_id region gcs_bucket_path →
  fs_after call !! base_path = Some Directory.
Proof.
  intros Hb Hs Hreach. destruct (generate_effects Hreach) as [-> _].
  rewrite finally_other by apply temp_path_not_base.
  rewrite launch_frame by (done || apply temp_path_not_base).
  apply workdir_made_there. by destruct Hreach as (_ & _ & _ & _ & ?).
Qed.

Lemma generate_signals :
  let sent := signals call in
  (pipeline_type ≠ py "streaming" → sent = [])
  ∧ (sent = [] ∨ sent = [SIGTERM] ∨ sent = [SIGTERM; SIGKILL])
  ∧ (sent ≠ [] →
     write_fault W (temp_path E) pipeline_code (workdir_made W fs) = None
     ∧ ∃ fs1 pr,
         exec_streaming W (command_line W (temp_path E) full_args)
           (<[temp_path E := File pipeline_code]> (workdir_made W fs))
         = (fs1, inr pr)
         ∧ s_returncode_after_read pr = None
         ∧ (s_terminate pr = Exited ∧ sent = [SIGTERM]
            ∨ s_terminate pr = TimedOut ∧ sent = [SIGTERM; SIGKILL])).
Proof.
  intros sent. subst sent.
  destruct generate_stopped_early as [Hreach|[-> _]].
  - destruct (generate_effects Hreach) as [_ ->]. apply launch_signals.
  - split; [done|]. split; [by left|]. done.
Qed.

End BuilderEffects.

(** X7. What the builder itself does to the file system, when the launched
    script leaves the files alone: every path other than the transient one
    holds after the call what it held before, or is one of the four
    directories of the working directory's path, which did not exist and
    was made. The working directory is not removed: once [os.makedirs] has
    gone through, it is there after the call. Both entry points (the first
    one for a pipeline type it accepts), every path through them. *)
Theorem builder_leaves_other_files (U : Unicode) (W : Host) (E : entropy)
    (fs : files)
    (project_id region gcs_bucket_path job_name pipeline_code : pystr)
    (pipeline_args : dict pystr) (pipeline_type : pystr) :
  (∀ cmd fs0, (exec_batch W cmd fs0).1 = fs0) →
  (∀ cmd fs0, (exec_streaming W cmd fs0).1 = fs0) →
  let generated :=
    fs_after (generate_and_run_beam_pipeline U W E fs project_id region
                gcs_bucket_path job_name pipeline_code pipeline_args
                pipeline_type) in
  let created :=
    fs_after (create_pipeline_from_scratch U W E fs project_id region
                gcs_bucket_path job_name pipeline_code pipeline_args
                pipeline_type) in
  (∀ after p,
     after = generated ∨ after = created →
     p ≠ temp_path E →
     after !! p = fs !! p
     ∨ (p ∈ workdirs ∧ fs !! p = None ∧ after !! p = Some Directory))
  ∧ (reaches_write W fs project_id region gcs_bucket_path →
     generated !! base_path = Some Directory
     ∧ (pipeline_type = py "batch" ∨ pipeline_type = py "streaming" →
        created !! base_path = Some Directory)).
Proof.
  intros Hb Hs generated created. subst generated created. split.
  - intros after p [->| ->] Hp; [by apply generate_frame|].
    unfold create_pipeline_from_scratch.
    destruct (negb _); [by left|]. by apply generate_frame.
  - intros Hreach. split; [by apply generate_workdir|]. intros Htype.
    unfold create_pipeline_from_scratch.
    rewrite bool_decide_eq_true_2; [by apply generate_workdir|].
    destruct Htype as [->| ->]; [left|right; left].
Qed.

Lemma builder_leaves_other_files_witness :
  let fs : files := {[ py "notes.txt" := File (py "keep") ]} in
  let call :=
    generate_and_run_beam_pipeline ascii_only (test_host printed_id None)
      test_entropy fs (py "proj") (py "us-central1") (py "gs://bucket/base")
      (py "WC") (py "import apache_beam") [] (py "streaming") in
  fs_after call !! py "notes.txt" = Some (File (py "keep"))
  ∧ fs_after call !! py "plumber/agent/agents/dataflow_agent"
    = Some Directory.
Proof.
  intros fs call.
  destruct (builder_leaves_other_files ascii_only
              (test_host printed_id None) test_entropy fs (py "proj")
              (py "us-central1") (py "gs://bucket/base") (py "WC")
              (py "import apache_beam") [] (py "streaming"))
    as [Hkept Hdir]; [done|done|].
  split.
  - destruct (Hkept (fs_after call) (py "notes.txt")) as [->|(_ & Hn & _)];
      [by left|vm_compute; discriminate|reflexivity|].
    vm_compute in Hn. discriminate Hn.
  - destruct Hdir as [Hgen _]; [repeat split; discriminate|]. exact Hgen.
Defined.

(** X8. The signals a call sends: none at all unless the mode is
    [streaming]; in any mode nothing, a termination request, or a
    termination request followed by a kill. When a signal is sent, it goes
    to the process this very call started (the transient script, written in
    the working directory, run with the call's own options) and that
    process was still running when the read loop was left; it gets the
    kill exactly when it did not exit within the timeout after the
    termination request. Both entry points; the first one runs the script
    with the option [streaming] set. *)
Theorem builder_signal_discipline (U : Unicode) (W : Host) (E : entropy)
    (fs : files)
    (project_id region gcs_bucket_path job_name pipeline_code : pystr)
    (pipeline_args : dict pystr) (pipeline_type : pystr) :
  let owed := λ (args : dict pystr) (sent : list signal),
    (pipeline_type ≠ py "streaming" → sent = [])
    ∧ (sent = [] ∨ sent = [SIGTERM] ∨ sent = [SIGTERM; SIGKILL])
    ∧ (sent ≠ [] →
       write_fault W (temp_path E) pipeline_code (workdir_made W fs) = None
       ∧ ∃ fs1 pr,
           exec_streaming W
             (command_line W (temp_path E)
                (full_args_of project_id region gcs_bucket_path
                   (_sanitize_job_name U (uuid_job E) job_name) args))
             (<[temp_path E := File pipeline_code]> (workdir_made W fs))
           = (fs1, inr pr)
           ∧ s_returncode_after_read pr = None
           ∧ (s_terminate pr = Exited ∧ sent = [SIGTERM]
              ∨ s_terminate pr = TimedOut ∧ sent = [SIGTERM; SIGKILL])) in
  owed (dict_set (py "streaming") (py "true") pipeline_args)
    (signals (create_pipeline_from_scratch U W E fs project_id region
                gcs_bucket_path job_name pipeline_code pipeline_args
                pipeline_type))
  ∧ owed pipeline_args
      (signals (generate_and_run_beam_pipeline U W E fs project_id region
                  gcs_bucket_path job_name pipeline_code pipeline_args
                  pipeline_type)).
Proof.
  intros owed. subst owed. cbv beta. split; [|apply generate_signals].
  unfold create_pipeline_from_scratch. destruct (negb _).
  { cbn [signals]. split; [done|]. split; [by left|]. done. }
  case_bool_decide as Ht; [apply generate_signals|].
  destruct (generate_signals U W E fs project_id region gcs_bucket_path
              job_name pipeline_code pipeline_args pipeline_type)
    as (Hnone & _ & _).
  rewrite (Hnone Ht). split; [done|]. split; [by left|]. done.
Qed.

Lemma builder_signal_discipline_witness :
  let call :=
    create_pipeline_from_scratch ascii_only stubborn_host test_entropy ∅
      (py "proj") (py "us-central1") (py "gs://bucket/base") (py "WC")
      (py "import apache_beam") [] (py "streaming") in
  signals call = [SIGTERM; SIGKILL]
  ∧ ∃ fs1 pr,
      exec_streaming stubborn_host
        (command_line stubborn_host (temp_path test_entropy)
           (full_args_of (py "proj") (py "us-central1")
              (py "gs://bucket/base") (py "wc")
              [(py "streaming", py "true")]))
        (<[temp_path test_entropy := File (py "import apache_beam")]>
           (workdir_made stubborn_host ∅))
      = (fs1, inr pr)
      ∧ s_terminate pr = TimedOut.
Proof.
  intros call.
  destruct (builder_signal_discipline ascii_only stubborn_host test_entropy
              ∅ (py "proj") (py "us-central1") (py "gs://bucket/base")
              (py "WC") (py "import apache_beam") [] (py "streaming"))
    as [(_ & _ & Hsent) _].
  assert (signals call = [SIGTERM; SIGKILL]) as Hcall
    by (vm_compute; reflexivity).
  split; [exact Hcall|].
  destruct Hsent as (_ & fs1 & pr & Hx & _ & [[_ Hs]|[Ht _]]).
  - fold call. rewrite Hcall. discriminate.
  - fold call in Hs. rewrite Hcall in Hs. discriminate Hs.
  - exists fs1, pr. split; [exact Hx|exact Ht].
Defined.

(** ** The builder's option dictionary *)

Lemma assoc_dict_set (k v k' : pystr) (d : dict pystr) :
  assoc k' (dict_set k v d) = if decide (k' = k) then Some v else assoc k' d.
Proof.
  induction d as [|[k0 v0] d IH]; cbn [dict_set assoc].
  - case_bool_decide; destruct (decide (k' = k)); congruence.
  - case_bool_decide as H0; cbn [assoc].
    + subst k0. case_bool_decide; destruct (decide (k' = k)); congruence.
    + case_bool_decide as H1; [|exact IH].
      subst k0. destruct (decide (k' = k)); congruence.
Qed.

Lemma assoc_None {A : Type} (k : pystr) (d : list (pystr * A)) :
  assoc k d = None ↔ k ∉ d.*1.
Proof.
  induction d as [|[k0 v0] d IH]; cbn [assoc fmap list_fmap fst].
  - split; [intros _; apply not_elem_of_nil|done].
  - rewrite not_elem_of_cons. case_bool_decide as H0.
    + split; [done|]. intros [? _]. congruence.
    + rewrite IH. split; [intros ?; split; congruence|by intros [_ ?]].
Qed.

Lemma keys_dict_set (k v : pystr) (d : dict pystr) :
  keys (dict_set k v d)
  = if decide (k ∈ keys d) then keys d else keys d ++ [k].
Proof.
  unfold keys. induction d as [|[k0 v0] d IH];
    cbn [dict_set fmap list_fmap fst].
  - destruct (decide (k ∈ [])) as [?%elem_of_nil|]; done.
  - case_bool_decide as H0; cbn [fmap list_fmap fst].
    + subst k0. destruct (decide (k ∈ k :: d.*1)) as [|Hn]; [done|].
      exfalso. apply Hn. left.
    + change (list_fmap _ _ fst (dict_set k v d)) with ((dict_set k v d).*1).
      rewrite IH. destruct (decide (k ∈ d.*1)) as [Hin|Hout].
      * destruct (decide (k ∈ k0 :: d.*1)) as [|Hn]; [done|].
        exfalso. apply Hn. by right.
      * destruct (decide (k ∈ k0 :: d.*1))
          as [[?|?]%elem_of_cons|]; [congruence|done|done].
Qed.

Lemma dict_set_NoDup (k v : pystr) (d : dict pystr) :
  NoDup (keys d) → NoDup (keys (dict_set k v d)).
Proof.
  intros Hd. rewrite keys_dict_set. destruct (decide (k ∈ keys d)); [done|].
  apply NoDup_app. split; [done|]. split; [|apply NoDup_singleton].
  intros x Hx ->%list_elem_of_singleton. done.
Qed.

Lemma dict_update_NoDup (d more : dict pystr) :
  NoDup (keys d) → NoDup (keys (dict_update d more)).
Proof.
  unfold dict_update. revert d.
  induction more as [|[k v] more IH]; intros d Hd; [done|].
  cbn [foldl]. apply IH. by apply dict_set_NoDup.
Qed.

Lemma assoc_dict_update (d more : dict pystr) (k : pystr) :
  NoDup (keys more) →
  assoc k (dict_update d more)
  = match assoc k more with Some v => Some v | None => assoc k d end.
Proof.
  unfold dict_update. revert d.
  induction more as [|[k0 v0] more IH]; intros d Hm; [done|].
  cbn [foldl fst snd]. unfold keys in Hm. cbn [fmap list_fmap fst] in Hm.
  apply NoDup_cons in Hm as [Hk0 Hm]. rewrite IH by done. cbn [assoc]. case_bool_decide as H0.
  - subst k0. apply assoc_None in Hk0. rewrite Hk0.
    rewrite assoc_dict_set. by destruct (decide (k = k)).
  - destruct (assoc k more); [done|]. rewrite assoc_dict_set.
    destruct (decide (k = k0)); congruence.
Qed.

(** X9. The options of the launched script: what the caller passes in
    [pipeline_args] wins over the builder's own value of the same name (job
    name, project, region, locations, runner, labels), every other built-in
    option keeps the builder's value, and no option name occurs twice. *)
Theorem caller_options_override (project_id region gcs_bucket_path
    sanitized_job_name : pystr) (pipeline_args : dict pystr) :
  NoDup (keys pipeline_args) →
  let full :=
    full_args_of project_id region gcs_bucket_path sanitized_job_name
      pipeline_args in
  NoDup (keys full)
  ∧ (∀ k v, assoc k pipeline_args = Some v → assoc k full = Some v)
  ∧ (∀ k, assoc k pipeline_args = None →
          assoc k full
          = assoc k (full_args_of project_id region gcs_bucket_path
                       sanitized_job_name []))
  ∧ (assoc (py "job_name") pipeline_args = None →
     assoc (py "job_name") full = Some sanitized_job_name).
Proof.
  intros Hnd full. subst full. unfold full_args_of. split; [|split; [|split]].
  - apply dict_update_NoDup. cbn.
    repeat (apply NoDup_cons; split;
            [rewrite ?elem_of_cons, elem_of_nil; intros H;
             repeat destruct H as [H|H]; done|]).
    apply NoDup_nil_2.
  - intros k v Hk. by rewrite assoc_dict_update, Hk.
  - intros k Hk. by rewrite assoc_dict_update, Hk.
  - intros Hk. by rewrite assoc_dict_update, Hk.
Qed.

Lemma caller_options_override_witness :
  let full :=
    full_args_of (py "proj") (py "us-central1") (py "gs://bucket") (py "wc")
      [(py "region", py "europe-west1"); (py "input", py "gs://in/x")] in
  assoc (py "region") full = Some (py "europe-west1")
  ∧ assoc (py "job_name") full = Some (py "wc").
Proof.
  intros full.
  destruct (caller_options_override (py "proj") (py "us-central1")
              (py "gs://bucket") (py "wc")
              [(py "region", py "europe-west1"); (py "input", py "gs://in/x")])
    as (_ & Hover & _ & Hjob).
  - apply (bool_decide_unpack _). vm_compute. exact I.
  - split; [by apply Hover|by apply Hjob].
Defined.

(** ** The entry point [create_pipeline_from_scratch] *)

Lemma assoc_Some_split (k v : pystr) (d : dict pystr) :
  assoc k d = Some v → ∃ d1 d2, d = d1 ++ (k, v) :: d2.
Proof.
  induction d as [|[k0 v0] d IH]; [done|]. cbn [assoc].
  case_bool_decide as H0.
  - intros [= ->]. subst k0. by exists [], d.
  - intros (d1 & d2 & ->)%IH. by exists ((k0, v0) :: d1), d2.
Qed.

Lemma command_line_option (W : Host) (t k v : pystr) (args : dict pystr) :
  assoc k args = Some v →
  ∃ before after,
    command_line W t args = before ++ [py "--" ++ k; v] ++ after.
Proof.
  intros (d1 & d2 & ->)%assoc_Some_split. unfold command_line.
  rewrite map_app, concat_app. cbn [map concat fst snd].
  eexists ([sys_executable W; t] ++ concat (map _ d1)), _.
  by rewrite <- !app_assoc.
Qed.

(** X10. In streaming mode the entry point turns the option [streaming] on
    before it builds the job, whatever the caller passed under that name and
    leaving the caller's other options as they are: the command line of the
    launched script carries [--streaming true]. In batch mode the options
    go through unchanged. *)
Theorem streaming_flag_is_forced (U : Unicode) (W : Host) (E : entropy)
    (fs : files)
    (project_id region gcs_bucket_path job_name pipeline_code : pystr)
    (pipeline_args : dict pystr) :
  NoDup (keys pipeline_args) →
  (∃ args,
     create_pipeline_from_scratch U W E fs project_id region gcs_bucket_path
       job_name pipeline_code pipeline_args (py "streaming")
     = generate_and_run_beam_pipeline U W E fs project_id region
         gcs_bucket_path job_name pipeline_code args (py "streaming")
     ∧ assoc (py "streaming") args = Some (py "true")
     ∧ (∀ k, k ≠ py "streaming" → assoc k args = assoc k pipeline_args)
     ∧ ∃ before after,
         command_line W (temp_path E)
           (full_args_of project_id region gcs_bucket_path
              (_sanitize_job_name U (uuid_job E) job_name) args)
         = before ++ [py "--streaming"; py "true"] ++ after)
  ∧ create_pipeline_from_scratch U W E fs project_id region gcs_bucket_path
      job_name pipeline_code pipeline_args (py "batch")
    = generate_and_run_beam_pipeline U W E fs project_id region
        gcs_bucket_path job_name pipeline_code pipeline_args (py "batch").
Proof.
  intros Hnd. split; [|reflexivity].
  exists (dict_set (py "streaming") (py "true") pipeline_args).
  split; [reflexivity|].
  assert (assoc (py "streaming")
            (dict_set (py "streaming") (py "true") pipeline_args)
          = Some (py "true")) as Hs.
  { rewrite assoc_dict_set. by destruct (decide _). }
  split; [exact Hs|]. split.
  - intros k Hk. rewrite assoc_dict_set. by destruct (decide _).
  - apply (command_line_option W (temp_path E) (py "streaming") (py "true")).
    unfold full_args_of.
    rewrite assoc_dict_update, Hs by (by apply dict_set_NoDup). reflexivity.
Qed.

Lemma streaming_flag_is_forced_witness :
  ∃ args,
    create_pipeline_from_scratch ascii_only (test_host printed_id None)
      test_entropy ∅ (py "proj") (py "us-central1") (py "gs://bucket")
      (py "wc") (py "import apache_beam") [(py "streaming", py "false")]
      (py "streaming")
    = generate_and_run_beam_pipeline ascii_only (test_host printed_id None)
        test_entropy ∅ (py "proj") (py "us-central1") (py "gs://bucket")
        (py "wc") (py "import apache_beam") args (py "streaming")
    ∧ assoc (py "streaming") args = Some (py "true").
Proof.
  destruct (streaming_flag_is_forced ascii_only (test_host printed_id None)
              test_entropy ∅ (py "proj") (py "us-central1") (py "gs://bucket")
              (py "wc") (py "import apache_beam")
              [(py "streaming", py "false")])
    as [(args & Heq & Hs & _) _].
  - apply (bool_decide_unpack _). vm_compute. exact I.
  - by exists args.
Defined.

(** ** The search for the job identifier *)

Section SearchFacts.
Context (U : Unicode).

Lemma match_items_spec items s m rest :
  match_items U items s = Some (m, rest)
  ↔ s = m ++ rest ∧ Forall2 (λ it c, item_ok U it c = true) items m.
Proof.
  revert s m rest. induction items as [|it items IH]; intros s m rest.
  - cbn [match_items]. split; [intros [= <- <-]; by split|].
    intros [-> ->%Forall2_nil_inv_l]. done.
  - destruct s as [|c s]; cbn [match_items].
    + split; [done|]. intros [Hs (c & m' & _ & _ & ->)%Forall2_cons_inv_l].
      done.
    + split.
      * destruct (item_ok U it c) eqn:Eit; [|done].
        destruct (match_items U items s) as [[m' rest']|] eqn:Em; [|done].
        intros [= <- <-]. apply IH in Em as [-> Hall].
        split; [done|]. by constructor.
      * intros [Hs (c' & m'' & Hc & Hm & ->)%Forall2_cons_inv_l].
        injection Hs as <- ->. rewrite Hc.
        assert (match_items U items (m'' ++ rest) = Some (m'', rest)) as ->
          by (by apply IH).
        done.
Qed.

Lemma leading_digits_spec s :
  ∃ post,
    s = leading_digits U s ++ post
    ∧ Forall (λ c, re_digit U c = true) (leading_digits U s)
    ∧ (∀ c post', post = c :: post' → re_digit U c = false).
Proof.
  induction s as [|c s (post & Hs & Hall & Hnext)]; cbn [leading_digits].
  - by exists [].
  - destruct (re_digit U c) eqn:Ec.
    + exists post. split; [cbn [app]; by f_equal|]. split; [|done].
      by constructor.
    + exists (c :: s). split; [done|]. split; [constructor|].
      by intros ? ? [= <- <-].
Qed.

Lemma leading_digits_app ds post :
  Forall (λ c, re_digit U c = true) ds →
  leading_digits U (ds ++ post) = ds ++ leading_digits U post.
Proof.
  induction 1 as [|c ds Hc Hds IH]; [done|].
  cbn [app leading_digits]. by rewrite Hc, IH.
Qed.

Lemma job_id_head_length m :
  Forall2 (λ it c, item_ok U it c = true) job_id_head m → length m = 20%nat.
Proof. intros H%Forall2_length. by rewrite <- H. Qed.

Lemma match_job_id_sound s id :
  match_job_id U s = Some id →
  job_id_form U id
  ∧ ∃ post, s = id ++ post
            ∧ (∀ c post', post = c :: post' → re_digit U c = false).
Proof.
  unfold match_job_id.
  destruct (match_items U job_id_head s) as [[m rest]|] eqn:Em; [|done].
  apply match_items_spec in Em as [-> Hm].
  pose proof (job_id_head_length m Hm) as Hlen.
  destruct (leading_digits_spec rest) as (post & Hrest & Hall & Hnext).
  destruct (leading_digits U rest) as [|d ds] eqn:Ed; [done|].
  intros [= <-]. split.
  - unfold job_id_form.
    rewrite take_app_length' by done. rewrite drop_app_length' by done.
    done.
  - exists post. split; [|done]. rewrite <- app_assoc. by f_equal.
Qed.

Lemma match_job_id_complete id post :
  job_id_form U id → is_Some (match_job_id U (id ++ post)).
Proof.
  intros (Hm & Hne & Hds). unfold match_job_id.
  assert (match_items U job_id_head (id ++ post)
          = Some (take 20 id, drop 20 id ++ post)) as ->.
  { apply match_items_spec. split; [|done].
    by rewrite app_assoc, take_drop. }
  rewrite leading_digits_app by done.
  destruct (drop 20 id) as [|d ds]; [done|]. by eexists.
Qed.

Lemma search_job_id_matched s id :
  search_job_id U s = Some id →
  ∃ pre text, s = pre ++ text ∧ match_job_id U text = Some id.
Proof.
  induction s as [|c s IH]; cbn [search_job_id].
  - destruct (match_job_id U []) eqn:Em; [|done].
    intros [= ->]. by exists [], [].
  - destruct (match_job_id U (c :: s)) eqn:Em.
    + intros [= ->]. by exists [], (c :: s).
    + intros (pre & text & -> & Hm)%IH. by exists (c :: pre), text.
Qed.

End SearchFacts.

(** X12. The search for the job identifier is exact. When it returns an
    identifier, that text stands in the searched text, has the form of an
    identifier (four digits, two, two, then three pairs and a run of digits,
    with the separators of the pattern), takes the whole run of closing
    digits, and no identifier starts further left; when it returns nothing,
    no part of the text has that form. *)
Theorem job_id_search_is_exact (U : Unicode) (s : pystr) :
  match search_job_id U s with
  | Some id =>
      job_id_form U id
      ∧ ∃ pre post,
          s = pre ++ id ++ post
          ∧ (∀ c post', post = c :: post' → re_digit U c = false)
          ∧ ∀ pre' id' post',
              s = pre' ++ id' ++ post' → job_id_form U id' →
              (length pre ≤ length pre')%nat
  | None =>
      ∀ pre id post, s = pre ++ id ++ post → ¬ job_id_form U id
  end.
Proof.
  assert (¬ job_id_form U []) as Hempty.
  { intros (_ & Hne & _). done. }
  induction s as [|c s IH].
  - cbn. intros pre id post Hs Hid.
    symmetry in Hs. apply app_eq_nil in Hs as [_ [-> _]%app_eq_nil].
    done.
  - cbn [search_job_id].
    destruct (match_job_id U (c :: s)) as [id|] eqn:Em.
    + apply (match_job_id_sound U) in Em as (Hid & post & Hs & Hnext).
      split; [done|]. exists [], post. split; [done|]. split; [done|].
      intros. cbn. lia.
    + assert (∀ pre id post,
                c :: s = pre ++ id ++ post → job_id_form U id →
                ∃ pre', pre = c :: pre' ∧ s = pre' ++ id ++ post) as Hskip.
      { intros [|c' pre'] id post Hs Hid.
        - cbn [app] in Hs. rewrite Hs in Em.
          destruct (match_job_id_complete U id post Hid) as [? Hsome].
          congruence.
        - injection Hs as <- Hs. by exists pre'. }
      destruct (search_job_id U s) as [id|].
      * destruct IH as (Hid & pre & post & Hs & Hnext & Hleft).
        split; [done|]. exists (c :: pre), post.
        split; [cbn [app]; by f_equal|]. split; [done|].
        intros pre' id' post' Hs' Hid'.
        destruct (Hskip pre' id' post' Hs' Hid') as (pre'' & -> & Hs'').
        cbn [length]. specialize (Hleft pre'' id' post' Hs'' Hid'). lia.
      * intros pre id post Hs Hid.
        destruct (Hskip pre id post Hs Hid) as (pre' & -> & Hs').
        by apply (IH pre' id post).
Qed.

(** ** What a launch takes *)

Lemma reaches_write_stable (W : Host) (fs : files)
    (project_id region gcs_bucket_path : pystr) :
  ¬ ¬ reaches_write W fs project_id region gcs_bucket_path →
  reaches_write W fs project_id region gcs_bucket_path.
Proof.
  unfold reaches_write. intros Hnn.
  destruct project_id as [|c1 p]; [exfalso; apply Hnn; by intros [? _]|].
  destruct region as [|c2 r]; [exfalso; apply Hnn; by intros (_ & ? & _)|].
  destruct gcs_bucket_path as [|c3 b];
    [exfalso; apply Hnn; by intros (_ & _ & ? & _)|].
  destruct (startswith (py "gs://") (c3 :: b)) eqn:Es;
    [|exfalso; apply Hnn; by intros (_ & _ & _ & ? & _)].
  destruct ((makedirs W base_path fs).2) eqn:Em;
    [exfalso; apply Hnn; by intros (_ & _ & _ & _ & ?)|].
  done.
Qed.

(** X11. The entry point reports a status other than [error] only for a
    well-formed request that led to a job: the pipeline type is [batch] or
    [streaming], project, region and bucket path are given, the bucket path
    starts with [gs://], and the result carries the job identifier found in
    the script's output, which has the form of an identifier. *)
Theorem launch_needs_valid_request (U : Unicode) (W : Host) (E : entropy)
    (fs : files)
    (project_id region gcs_bucket_path job_name pipeline_code : pystr)
    (pipeline_args : dict pystr) (pipeline_type : pystr) (r : report) :
  result (create_pipeline_from_scratch U W E fs project_id region
            gcs_bucket_path job_name pipeline_code pipeline_args
            pipeline_type) = inr r →
  status_of r ≠ py "error" →
  (pipeline_type = py "batch" ∨ pipeline_type = py "streaming")
  ∧ project_id ≠ [] ∧ region ≠ []
  ∧ startswith (py "gs://") gcs_bucket_path = true
  ∧ (status_of r = py "success" ∨ status_of r = py "success_with_warning")
  ∧ ∃ id, job_id_of r = Some id ∧ job_id_form U id.
Proof.
  unfold create_pipeline_from_scratch. case_bool_decide as Ht; cbn [negb].
  2: { intros [= <-]. done. }
  set (args := if bool_decide (pipeline_type = py "streaming")
               then dict_set (py "streaming") (py "true") pipeline_args
               else pipeline_args).
  intros Hr Hs.
  assert (reaches_write W fs project_id region gcs_bucket_path) as Hreach.
  { apply reaches_write_stable. intros Hn. apply Hs.
    by apply (not_reached_no_success U W E fs project_id region
                gcs_bucket_path job_name pipeline_code args pipeline_type r). }
  split.
  { apply elem_of_cons in Ht as [?|Ht]; [by left|].
    apply elem_of_cons in Ht as [?|?%elem_of_nil]; [by right|done]. }
  destruct Hreach as (Hp & Hrg & _ & Hgs & _).
  split; [done|]. split; [done|]. split; [done|].
  destruct (success_needs_id U W E fs project_id region gcs_bucket_path
              job_name pipeline_code args pipeline_type r Hr Hs)
    as (output & id & Hrun & Hid).
  split.
  2: { exists id. split; [done|].
       destruct (launched_id_matched U W E fs project_id region
                   gcs_bucket_path job_name pipeline_code args pipeline_type
                   output id Hrun) as (before & text & _ & Hfound).
       apply search_job_id_matched in Hfound as (pre & t & _ & Hm).
       by apply match_job_id_sound in Hm as [? _]. }
  destruct (generate_result U W E fs project_id region gcs_bucket_path
              job_name pipeline_code args pipeline_type)
    as (r' & target & Hr' & _ & Hm).
  { apply reaches_write_stable. intros Hn. apply Hs.
    by apply (not_reached_no_success U W E fs project_id region
                gcs_bucket_path job_name pipeline_code args pipeline_type r). }
  rewrite Hr in Hr'. injection Hr' as <-.
  rewrite Hrun in Hm.
  destruct (upload_from_string W project_id target.1 target.2 pipeline_code);
    destruct Hm as [before ->]; [by right|by left].
Qed.

Lemma launch_needs_valid_request_witness :
  job_id_form ascii_only (py "2024-05-06_07_08_09-1234567890123456789").
Proof.
  destruct (launch_needs_valid_request ascii_only
              (test_host printed_id (Some (py "403 Forbidden"))) test_entropy
              ∅ (py "proj") (py "us-central1") (py "gs://bucket/base")
              (py "WC") (py "import apache_beam") [] (py "batch")
              (Final (py "success_with_warning")
                 (py "Successfully launched Dataflow job 'wc'." ++ nl
                  ++ py "Job Details:" ++ nl
                  ++ py "  id: 2024-05-06_07_08_09-1234567890123456789" ++ nl
                  ++ py "  name: wc" ++ nl ++ nl
                  ++ py "WARNING: Failed to save the script to GCS. Error: 403 Forbidden")
                 (py "2024-05-06_07_08_09-1234567890123456789") None))
    as (_ & _ & _ & _ & _ & id & Hid & Hform).
  - vm_compute. reflexivity.
  - vm_compute. discriminate.
  - cbn [job_id_of] in Hid.
    replace (py "2024-05-06_07_08_09-1234567890123456789") with id
      by congruence.
    exact Hform.
Defined.

(** ** The streaming watcher *)

Lemma read_lines_first (U : Unicode) (before after : list pystr)
    (line output0 id : pystr) :
  Forall (λ l, search_job_id U l = None) before →
  search_job_id U line = Some id →
  read_lines U (before ++ line :: after) output0
  = (output0 ++ concat before ++ line, Some id).
Proof.
  intros Hb Hl. revert output0.
  induction Hb as [|l before Hnone _ IH]; intros output0.
  - cbn [app read_lines concat]. by rewrite Hl.
  - cbn [app read_lines concat]. rewrite Hnone, IH.
    by rewrite <- !app_assoc.
Qed.

(** X13. In streaming mode the watcher stops at the first output line that
    holds a job identifier: the call reports that identifier with status
    [success] or [success_with_warning], the captured output ends with that
    line, and what the script prints afterwards, whether it was still
    running and how it exits play no part in the result. The process gets
    the signals of the termination step. *)
Theorem streaming_stops_at_first_id (U : Unicode) (W : Host) (E : entropy)
    (fs fs1 : files)
    (project_id region gcs_bucket_path job_name pipeline_code : pystr)
    (pipeline_args : dict pystr) (pr : stream_process)
    (before after : list pystr) (line id : pystr) :
  reaches_write W fs project_id region gcs_bucket_path →
  write_fault W (temp_path E) pipeline_code (workdir_made W fs) = None →
  exec_streaming W
    (command_line W (temp_path E)
       (full_args_of project_id region gcs_bucket_path
          (_sanitize_job_name U (uuid_job E) job_name) pipeline_args))
    (<[temp_path E := File pipeline_code]> (workdir_made W fs))
  = (fs1, inr pr) →
  s_lines pr = before ++ line :: after →
  Forall (λ l, search_job_id U l = None) before →
  search_job_id U line = Some id →
  let call :=
    generate_and_run_beam_pipeline U W E fs project_id region
      gcs_bucket_path job_name pipeline_code pipeline_args (py "streaming") in
  launched U W E fs project_id region gcs_bucket_path job_name pipeline_code
    pipeline_args (py "streaming") = inr (concat before ++ line, Some id)
  ∧ signals call = stop_process pr
  ∧ ∃ st rep path,
      result call = inr (Final st rep id path)
      ∧ (st = py "success" ∨ st = py "success_with_warning").
Proof.
  intros Hreach Hw Hx Hlines Hb Hl call. subst call.
  assert (launch U W (workdir_made W fs) (temp_path E) pipeline_code
            (py "streaming")
            (full_args_of project_id region gcs_bucket_path
               (_sanitize_job_name U (uuid_job E) job_name) pipeline_args)
          = (fs1, stop_process pr, inr (concat before ++ line, Some id)))
    as Hlaunch.
  { unfold launch. rewrite Hw. rewrite bool_decide_eq_true_2 by done.
    rewrite Hx, Hlines, (read_lines_first U before after line [] id Hb Hl).
    reflexivity. }
  assert (launched U W E fs project_id region gcs_bucket_path job_name
            pipeline_code pipeline_args (py "streaming")
          = inr (concat before ++ line, Some id)) as Hrun.
  { unfold launched. by rewrite Hlaunch. }
  split; [exact Hrun|]. split.
  - destruct (generate_effects U W E fs project_id region gcs_bucket_path
                job_name pipeline_code pipeline_args (py "streaming") Hreach)
      as [_ ->]. by rewrite Hlaunch.
  - destruct (generate_result U W E fs project_id region gcs_bucket_path
                job_name pipeline_code pipeline_args (py "streaming") Hreach)
      as (r & target & Hr & _ & Hm).
    rewrite Hrun in Hm.
    destruct (upload_from_string W project_id target.1 target.2
                pipeline_code);
      destruct Hm as [rep ->]; eexists _, _, _; (split; [exact Hr|]);
      [by right|by left].
Qed.

Lemma streaming_stops_at_first_id_witness :
  let W : Host :=
    {| sys_executable := py "/usr/bin/python3";
       mkdir_fault := λ _ _, None;
       write_fault := λ _ _ _, None;
       remove_fault := λ _ _, None;
       exec_batch := λ _ fs, (fs, inl (py "not used"));
       exec_streaming := λ _ fs,
         (fs, inr {| s_lines := [py "starting" ++ nl; printed_id;
                                 py "running" ++ nl];
                     s_returncode_after_read := None;
                     s_terminate := TimedOut; s_rest := py "more";
                     s_returncode := (-9)%Z |});
       upload_from_string := λ _ _ _ _, None |} in
  let call :=
    generate_and_run_beam_pipeline ascii_only W test_entropy ∅ (py "proj")
      (py "us-central1") (py "gs://bucket/base") (py "WC")
      (py "import apache_beam") [] (py "streaming") in
  signals call = [SIGTERM; SIGKILL]
  ∧ ∃ st rep path,
      result call
      = inr (Final st rep (py "2024-05-06_07_08_09-1234567890123456789") path).
Proof.
  intros W call.
  destruct (streaming_stops_at_first_id ascii_only W test_entropy ∅
              (<[temp_path test_entropy := File (py "import apache_beam")]>
                 (workdir_made W ∅))
              (py "proj") (py "us-central1") (py "gs://bucket/base") (py "WC")
              (py "import apache_beam") []
              {| s_lines := [py "starting" ++ nl; printed_id;
                             py "running" ++ nl];
                 s_returncode_after_read := None;
                 s_terminate := TimedOut; s_rest := py "more";
                 s_returncode := (-9)%Z |}
              [py "starting" ++ nl] [py "running" ++ nl] printed_id
              (py "2024-05-06_07_08_09-1234567890123456789"))
    as (_ & Hsig & st & rep & path & Hr & _).
  - repeat split; discriminate.
  - reflexivity.
  - reflexivity.
  - reflexivity.
  - repeat constructor.
  - vm_compute. reflexivity.
  - split; [exact Hsig|]. by exists st, rep, path.
Defined.

(** ** Where the script is archived *)

Lemma startswith_app (p t : pystr) : startswith p (p ++ t) = true.
Proof. induction p as [|a p IH]; [done|]. cbn. by rewrite N.eqb_refl. Qed.

Lemma replace_from_skip (old new : pystr) (k : nat) (s : pystr) :
  replace_from old new k s = replace_from old new 0 (drop k s).
Proof.
  revert k. induction s as [|c s IH]; intros [|k]; [done|by destruct k|done|].
  cbn [replace_from drop]. apply IH.
Qed.

Lemma replace_prefix (old new t : pystr) :
  old ≠ [] → replace old new (old ++ t) = new ++ replace old new t.
Proof.
  intros Hold. destruct old as [|a old]; [done|]. unfold replace.
  change ((a :: old) ++ t) with (a :: (old ++ t)). cbn [replace_from].
  change (a :: (old ++ t)) with ((a :: old) ++ t).
  rewrite startswith_app. f_equal. rewrite replace_from_skip.
  replace (length (a :: old) - 1)%nat with (length old) by (cbn; lia).
  by rewrite drop_app_length.
Qed.

Lemma replace_absent (old new s : pystr) :
  old ≠ [] → contains old s = false → replace old new s = s.
Proof.
  intros Hold. unfold replace. induction s as [|c s IH]; [done|].
  cbn [contains]. intros [Hs Hc]%orb_false_iff.
  cbn [replace_from]. rewrite Hs. f_equal. by apply IH.
Qed.

Lemma endswith_slash_snoc (s : pystr) (c : N) :
  c ≠ 47 → endswith (py "/") (s ++ [c]) = false.
Proof.
  intros Hc. unfold endswith. rewrite rev_app_distr.
  change (rev (py "/")) with [47]. cbn [rev app startswith].
  apply N.eqb_neq in Hc. rewrite N.eqb_sym in Hc. by rewrite Hc.
Qed.

Lemma join_segments_end (l : list pystr) :
  l ≠ [] → Forall (λ seg, seg ≠ [] ∧ 47 ∉ seg) l →
  ∃ s c, join (py "/") l = s ++ [c] ∧ c ≠ 47.
Proof.
  intros Hl Hall.
  destruct (exists_last Hl) as (l' & x & ->).
  apply Forall_app in Hall as [_ Hx]. apply Forall_singleton in Hx as [Hx Hs].
  destruct (exists_last Hx) as (x' & c & ->).
  assert (c ≠ 47) as Hc.
  { intros ->. apply Hs. apply elem_of_app. right. left. }
  destruct l' as [|y l'].
  - by exists x', c.
  - change (((y :: l') ++ [x' ++ [c]])) with ((y :: l') ++ [x' ++ [c]]).
    rewrite join_snoc by done.
    exists (join (py "/") (y :: l') ++ py "/" ++ x'), c.
    split; [by rewrite <- !app_assoc|done].
Qed.

Lemma os_path_join_archive (l : list pystr) (file : pystr) :
  Forall (λ seg, seg ≠ [] ∧ 47 ∉ seg) l →
  startswith (py "/") file = false →
  os_path_join (join (py "/") l) [py "generated_pipelines"; file]
  = join (py "/") (l ++ [py "generated_pipelines"; file]).
Proof.
  intros Hall Hfile. unfold os_path_join. cbn [foldl].
  change (startswith (py "/") (py "generated_pipelines")) with false.
  cbn match. rewrite Hfile.
  assert ((if bool_decide (join (py "/") l = [])
              || endswith (py "/") (join (py "/") l)
           then join (py "/") l ++ py "generated_pipelines"
           else join (py "/") l ++ py "/" ++ py "generated_pipelines")
          = join (py "/") (l ++ [py "generated_pipelines"])) as ->.
  { destruct l as [|y l]; [reflexivity|].
    destruct (join_segments_end (y :: l)) as (s & c & Hj & Hc); [done|done|].
    rewrite join_snoc by done. rewrite Hj.
    rewrite bool_decide_eq_false_2 by (by destruct s).
    by rewrite endswith_slash_snoc. }
  assert (∃ s, join (py "/") (l ++ [py "generated_pipelines"]) = s ++ [115])
    as [s Hs].
  { destruct l as [|y l]; [by exists (py "generated_pipeline")|].
    rewrite join_snoc by done.
    exists (join (py "/") (y :: l) ++ py "/" ++ py "generated_pipeline").
    by rewrite <- !app_assoc. }
  assert (join (py "/") (l ++ [py "generated_pipelines"]) ≠ []) as Hne
    by (rewrite Hs; by destruct s).
  assert (endswith (py "/") (join (py "/") (l ++ [py "generated_pipelines"]))
          = false) as Hend
    by (rewrite Hs; by apply endswith_slash_snoc).
  rewrite bool_decide_eq_false_2, Hend by done. cbn [orb].
  replace (l ++ [py "generated_pipelines"; file])
    with ((l ++ [py "generated_pipelines"]) ++ [file])
    by (by rewrite <- app_assoc).
  rewrite (join_snoc (py "/") (l ++ [py "generated_pipelines"]) file)
    by (by destruct l).
  reflexivity.
Qed.

(** X14. Where the script is archived. For a bucket path [gs://] followed
    by a bucket name and any number of path segments (empty ones included,
    as a doubled or trailing slash gives), the object is written to that
    bucket under the non-empty segments, then [generated_pipelines], then
    the sanitized job name, a hyphen, eight characters of the draw and
    [.py]; and the reported path is [gs://], the bucket, a slash and that
    object name. *)
Theorem archived_script_path (W : Host)
    (project_id bucket name pipeline_code uuid4_hex : pystr)
    (segments : list pystr) :
  47 ∉ bucket →
  Forall (λ seg, 47 ∉ seg) segments →
  contains (py "gs://") (join (py "/") (bucket :: segments)) = false →
  startswith (py "/") name = false →
  let gcs_bucket_path := py "gs://" ++ join (py "/") (bucket :: segments) in
  let object :=
    join (py "/")
      (filter (λ seg, seg ≠ []) segments
       ++ [py "generated_pipelines";
           name ++ py "-" ++ take 8 uuid4_hex ++ py ".py"]) in
  archive_target gcs_bucket_path name uuid4_hex = Some (bucket, object)
  ∧ archive W project_id gcs_bucket_path name pipeline_code uuid4_hex
    = match upload_from_string W project_id bucket object pipeline_code with
      | Some str_e => (None, Some str_e)
      | None => (Some (py "gs://" ++ bucket ++ py "/" ++ object), None)
      end.
Proof.
  intros Hb Hsegs Hgs Hname gcs_bucket_path object.
  assert (archive_target gcs_bucket_path name uuid4_hex
          = Some (bucket, object)) as Ht.
  { unfold archive_target, gcs_bucket_path.
    rewrite replace_prefix by done. rewrite replace_absent by done.
    cbn [app].
    change (py "/") with [47] at 1.
    rewrite split_join by (done || by constructor).
    f_equal. f_equal. unfold object. apply os_path_join_archive.
    - apply Forall_forall. intros seg [Hne Hin]%list_elem_of_filter.
      split; [done|]. rewrite Forall_forall in Hsegs. by apply Hsegs.
    - destruct name as [|c name]; [done|]. exact Hname. }
  split; [exact Ht|]. unfold archive. by rewrite Ht.
Qed.

Lemma archived_script_path_witness :
  archive (test_host printed_id None) (py "proj")
    (py "gs://bucket//base/") (py "wc") (py "import apache_beam")
    (py "89abcdef0123456789abcdef01234567")
  = (Some (py "gs://bucket/base/generated_pipelines/wc-89abcdef.py"), None).
Proof.
  destruct (archived_script_path (test_host printed_id None) (py "proj")
              (py "bucket") (py "wc") (py "import apache_beam")
              (py "89abcdef0123456789abcdef01234567")
              [py ""; py "base"; py ""]) as [_ Ha].
  - apply (bool_decide_unpack _). vm_compute. exact I.
  - apply (bool_decide_unpack _). vm_compute. exact I.
  - vm_compute. reflexivity.
  - reflexivity.
  - exact Ha.
Defined.

(** ** Lines and whitespace *)

Lemma splitlines_from_no_break (after_cr : bool) (s : pystr) :
  Forall (Forall (λ c, linebreak c = false)) (splitlines_from after_cr s).
Proof.
  revert after_cr. induction s as [|c s IH]; intros after_cr; [constructor|].
  cbn [splitlines_from].
  destruct (after_cr && (c =? 10)); [apply IH|].
  destruct (linebreak c) eqn:Ec; [constructor; [constructor|apply IH]|].
  specialize (IH false).
  destruct (splitlines_from false s) as [|line lines].
  - by repeat constructor.
  - apply Forall_cons in IH as [Hl Hls]. constructor; [by constructor|done].
Qed.

Lemma splitlines_terminated (lines : list pystr) (t : pystr) :
  Forall (Forall (λ c, linebreak c = false)) lines →
  splitlines (concat (map (λ l, l ++ nl) lines) ++ t)
  = lines ++ splitlines t.
Proof.
  unfold splitlines. induction 1 as [|l lines Hl _ IH]; [done|].
  cbn [map concat]. rewrite <- !app_assoc.
  induction Hl as [|c l Hc _ IHl].
  - cbn [app]. change (nl ++ ?x) with (10 :: x). cbn [splitlines_from].
    cbn [andb]. change (linebreak 10) with true. cbn match.
    change (10 =? 13) with false. by rewrite IH.
  - cbn [app splitlines_from]. cbn [andb]. rewrite Hc, IHl. reflexivity.
Qed.

Lemma splitlines_one (l : pystr) :
  l ≠ [] → Forall (λ c, linebreak c = false) l → splitlines l = [l].
Proof.
  unfold splitlines. intros Hne Hl. induction Hl as [|c l Hc Hl IH]; [done|].
  cbn [splitlines_from]. cbn [andb]. rewrite Hc.
  destruct l as [|d l]; [done|]. by rewrite IH.
Qed.

Lemma join_terminated (lines : list pystr) (x : pystr) :
  join nl (lines ++ [x]) = concat (map (λ l, l ++ nl) lines) ++ x.
Proof.
  induction lines as [|l lines IH]; [done|].
  cbn [map concat]. rewrite <- app_assoc, <- IH.
  cbn [app]. destruct (lines ++ [x]) eqn:E; [by destruct lines|].
  cbn [join]. by rewrite <- app_assoc.
Qed.

Section WhitespaceFacts.
Context (ws : N → bool).

Lemma lstrip_ws_id (s : pystr) :
  isspace ws (hd 0 s) = false → lstrip_ws ws s = s.
Proof. destruct s as [|c s]; [done|]. cbn. by intros ->. Qed.

Lemma rstrip_ws_snoc_space (s : pystr) (c : N) :
  isspace ws c = true → rstrip_ws ws (s ++ [c]) = rstrip_ws ws s.
Proof.
  intros Hc. unfold rstrip_ws. rewrite rev_app_distr. cbn [rev app lstrip_ws].
  by rewrite Hc.
Qed.

Lemma rstrip_ws_id (s : pystr) :
  isspace ws (List.last s 0) = false → rstrip_ws ws s = s.
Proof.
  destruct s as [|c s] using rev_ind; [done|]. rewrite last_last.
  intros Hc. unfold rstrip_ws. rewrite rev_app_distr. cbn [rev app lstrip_ws].
  rewrite Hc. change (c :: rev s) with (rev [c] ++ rev s).
  by rewrite <- rev_app_distr, rev_involutive.
Qed.

End WhitespaceFacts.

(** ** The file searches *)

Section FindFacts.
Context (ws : N → bool).

Lemma hd_printed_lines (l : pystr) (lines : list pystr) (t : pystr) :
  l ≠ [] → hd 0 (printed_lines (l :: lines) ++ t) = hd 0 l.
Proof. intros Hl. by destruct l. Qed.

Lemma strip_printed_lines (paths : list pystr) :
  Forall (plain_path ws) paths →
  splitlines (strip_ws ws (printed_lines paths)) = paths.
Proof.
  intros Hall. destruct paths as [|f0 rest0] using rev_ind; [done|].
  clear IHrest0. rename f0 into x, rest0 into l.
  assert (Forall (Forall (λ c, linebreak c = false)) l) as Hl.
  { apply Forall_app in Hall as [Hall _].
    eapply Forall_impl; [exact Hall|]. by intros f (_ & ? & _). }
  apply Forall_app in Hall as [Hfirst Hx].
  apply Forall_singleton in Hx as (Hxne & Hxl & Hxh & Hxe).
  assert (printed_lines (l ++ [x]) = join nl (l ++ [x]) ++ nl) as ->.
  { unfold printed_lines. rewrite join_terminated, map_app, concat_app.
    cbn [map concat]. by rewrite app_nil_r, <- app_assoc. }
  unfold strip_ws.
  rewrite lstrip_ws_id.
  2: { destruct l as [|y l].
       - cbn [app join]. by destruct x.
       - apply Forall_cons in Hfirst as [(Hy & _ & Hyh & _) _].
         rewrite join_terminated. rewrite <- app_assoc.
         change (concat (map (λ l0, l0 ++ nl) (y :: l)))
           with (printed_lines (y :: l)).
         by rewrite hd_printed_lines. }
  change nl with [10]. rewrite rstrip_ws_snoc_space by done.
  rewrite join_terminated.
  rewrite rstrip_ws_id.
  2: { destruct (exists_last Hxne) as (x' & c & ->).
       rewrite app_assoc, last_last. by rewrite last_last in Hxe. }
  rewrite splitlines_terminated by done. by rewrite splitlines_one.
Qed.

End FindFacts.

(** X15. [find_files] runs one command, [find <dir> -iname "<regex>" -not
    -iname "*Config*"], and returns what it printed line by line: when the
    command exits with status 0 after printing each path on a line of its
    own, the result is exactly those paths; when it exits with another
    status or cannot be run, the result is the empty list. No entry of a
    result holds a line break. *)
Theorem find_files_returns_lines {S : Type} (M : Machines.Machine S)
    (dir regex : pystr) (s : S) :
  let cmd :=
    py "find " ++ dir ++ py " -iname " ++ dq ++ regex ++ dq
    ++ py " -not -iname " ++ dq ++ py "*Config*" ++ dq in
  let '(s1, did, files) := DataprocTemplates.find_files M dir regex s in
  did = [Machines.Shell cmd]
  ∧ s1 = (Machines.run M cmd false s).1
  ∧ Forall (Forall (λ c, linebreak c = false)) files
  ∧ match (Machines.run M cmd false s).2 with
    | inl _ => files = []
    | inr p =>
        (Machines.returncode p ≠ 0%Z → files = [])
        ∧ ∀ paths,
            Machines.returncode p = 0%Z →
            Machines.stdout p = printed_lines paths →
            Forall (Forall (λ c, linebreak c = false)) paths →
            files = paths
    end.
Proof.
  intros cmd. unfold DataprocTemplates.find_files, Machines.stdout_of_checked.
  fold cmd. destruct (Machines.run M cmd false s) as [s1 [e|p]]; cbn [fst snd].
  { repeat split; constructor. }
  split; [done|]. split; [done|].
  destruct (Machines.returncode p =? 0)%Z eqn:Erc.
  - apply Z.eqb_eq in Erc. split; [apply splitlines_from_no_break|].
    split; [done|]. intros paths _ Hout Hpaths. rewrite Hout.
    unfold printed_lines.
    rewrite <- (app_nil_r (concat _)).
    by rewrite splitlines_terminated, app_nil_r.
  - apply Z.eqb_neq in Erc. split; [constructor|]. split; [done|].
    intros paths ?. done.
Qed.

Lemma find_files_returns_lines_witness :
  (DataprocTemplates.find_files build_machine
     (py "./git/DataflowTemplates/v2/kafka") (py "*To*.java") tt).2
  = [py "./git/DataflowTemplates/v2/kafka/src/KafkaToBQ.java";
     py "./git/DataflowTemplates/v2/kafka/src/Options.java"].
Proof.
  pose proof (find_files_returns_lines build_machine
                (py "./git/DataflowTemplates/v2/kafka") (py "*To*.java") tt)
    as H.
  cbv zeta in H.
  destruct (DataprocTemplates.find_files _ _ _ _) as [[s1 did] files].
  destruct H as (_ & _ & _ & H). cbn in H. destruct H as [_ H].
  apply H; [reflexivity|reflexivity|].
  apply (bool_decide_unpack _). vm_compute. exact I.
Defined.

(** X16. [find_all_java_files_in_dir] returns the empty list without
    running anything when the directory does not exist; otherwise it runs
    one command, [find "<directory>" -name "*.java"], and when that exits
    with status 0 after printing each path on a line of its own, the result
    is exactly those paths; on any failure of the command it is the empty
    list. *)
Theorem java_files_are_found {S : Type} (M : Machines.Machine S)
    (ws : N → bool) (directory : pystr) (s : S) :
  let cmd :=
    py "find " ++ dq ++ directory ++ dq ++ py " -name " ++ dq
    ++ py "*.java" ++ dq in
  let '(s1, did, files) :=
    DataflowUtils.find_all_java_files_in_dir M ws directory s in
  if Machines.os_path_isdir M directory s
  then
    did = [Machines.Shell cmd]
    ∧ s1 = (Machines.run M cmd false s).1
    ∧ match (Machines.run M cmd false s).2 with
      | inl _ => files = []
      | inr p =>
          (Machines.returncode p ≠ 0%Z → files = [])
          ∧ ∀ paths,
              Machines.returncode p = 0%Z →
              Machines.stdout p = printed_lines paths →
              Forall (plain_path ws) paths →
              files = paths
      end
  else did = [] ∧ s1 = s ∧ files = [].
Proof.
  intros cmd. unfold DataflowUtils.find_all_java_files_in_dir,
    Machines.stdout_of_checked. fold cmd.
  destruct (Machines.os_path_isdir M directory s); cbn [negb]; [|done].
  destruct (Machines.run M cmd false s) as [s1 [e|p]]; cbn [fst snd]; [done|].
  split; [done|]. split; [done|].
  destruct (Machines.returncode p =? 0)%Z eqn:Erc.
  - apply Z.eqb_eq in Erc. split; [done|].
    intros paths _ Hout Hpaths. rewrite Hout.
    by apply strip_printed_lines.
  - apply Z.eqb_neq in Erc. split; [done|]. intros paths ?. done.
Qed.

Lemma java_files_are_found_witness :
  (DataflowUtils.find_all_java_files_in_dir build_machine (λ _, false)
     (py "./git/DataflowTemplates/v2/kafka") tt).2
  = [py "./git/DataflowTemplates/v2/kafka/src/KafkaToBQ.java";
     py "./git/DataflowTemplates/v2/kafka/src/Options.java"].
Proof.
  pose proof (java_files_are_found build_machine (λ _, false)
                (py "./git/DataflowTemplates/v2/kafka") tt) as H.
  cbv zeta in H.
  destruct (DataflowUtils.find_all_java_files_in_dir _ _ _ _)
    as [[s1 did] files].
  cbn in H. destruct H as (_ & _ & _ & H).
  apply H; [reflexivity|reflexivity|].
  repeat constructor; try discriminate;
    apply (bool_decide_unpack _); vm_compute; exact I.
Defined.

(** ** Code fences *)

Lemma replace_fence_cons (c : N) (rest : pystr) :
  replace (py "```") [] (c :: rest)
  = if startswith (py "```") (c :: rest)
    then replace (py "```") [] (drop 2 rest)
    else c :: replace (py "```") [] rest.
Proof.
  unfold replace. cbn [replace_from].
  destruct (startswith (py "```") (c :: rest)); [|done].
  by rewrite replace_from_skip.
Qed.

Lemma startswith_cons (a : N) (p : pystr) (c : N) (s : pystr) :
  startswith (a :: p) (c :: s) = (a =? c) && startswith p s.
Proof. reflexivity. Qed.

Lemma replace_fence_one (s : pystr) :
  startswith [96] (replace (py "```") [] s) = true →
  startswith [96] s = true.
Proof.
  destruct s as [|c rest]; [done|]. rewrite replace_fence_cons.
  destruct (startswith (py "```") (c :: rest)) eqn:E; [|done].
  intros _. change (py "```") with [96; 96; 96] in E.
  rewrite startswith_cons in E. apply andb_true_iff in E as [E _].
  rewrite startswith_cons, E. reflexivity.
Qed.

Lemma replace_fence_two (s : pystr) :
  startswith [96; 96] (replace (py "```") [] s) = true →
  startswith [96; 96] s = true.
Proof.
  destruct s as [|c rest]; [done|]. rewrite replace_fence_cons.
  destruct (startswith (py "```") (c :: rest)) eqn:E.
  - intros _. change (py "```") with [96; 96; 96] in E.
    rewrite startswith_cons in E. apply andb_true_iff in E as [E1 E2].
    rewrite startswith_cons, E1. destruct rest as [|d rest]; [done|].
    rewrite startswith_cons in E2. apply andb_true_iff in E2 as [E2 _].
    rewrite startswith_cons, E2. reflexivity.
  - rewrite !startswith_cons. intros [Hc Hr]%andb_true_iff. rewrite Hc.
    by apply replace_fence_one.
Qed.

Lemma replace_fence_gone (s : pystr) :
  contains (py "```") (replace (py "```") [] s) = false.
Proof.
  assert (∀ n s, (length s ≤ n)%nat →
                 contains (py "```") (replace (py "```") [] s) = false)
    as Hind; [|by apply (Hind (length s))].
  clear s. induction n as [|n IH]; intros s Hlen.
  { destruct s; [done|cbn in Hlen; lia]. }
  destruct s as [|c rest]; [done|]. cbn [length] in Hlen.
  rewrite replace_fence_cons.
  destruct (startswith (py "```") (c :: rest)) eqn:E.
  - apply IH. rewrite length_drop. lia.
  - cbn [contains]. rewrite IH by lia. rewrite orb_false_r.
    change (py "```") with [96; 96; 96] in *.
    rewrite startswith_cons in *.
    destruct (96 =? c); [|done]. cbn [andb] in *.
    destruct (startswith [96; 96] (replace [96; 96; 96] [] rest)) eqn:E2;
      [|done].
    apply replace_fence_two in E2. congruence.
Qed.

Section FenceFacts.
Context (ws : N → bool).

Lemma startswith_app_l (p t post : pystr) :
  startswith p t = true → startswith p (t ++ post) = true.
Proof.
  revert t. induction p as [|a p IH]; intros [|c t]; [done..|].
  cbn [app]. rewrite !startswith_cons.
  intros [-> Hp]%andb_true_iff. by rewrite IH.
Qed.

Lemma contains_app_l (sub t post : pystr) :
  contains sub t = true → contains sub (t ++ post) = true.
Proof.
  induction t as [|c t IH].
  - cbn [contains]. rewrite orb_false_r. destruct sub; [|done].
    intros _. by destruct post.
  - cbn [contains app]. intros [Hs|Hc]%orb_true_iff.
    + change (c :: t ++ post) with ((c :: t) ++ post).
      by rewrite startswith_app_l.
    + rewrite IH by done. apply orb_true_r.
Qed.

Lemma contains_app_r (sub pre t : pystr) :
  contains sub t = true → contains sub (pre ++ t) = true.
Proof.
  intros Ht. induction pre as [|c pre IH]; [done|].
  cbn [app contains]. rewrite IH. apply orb_true_r.
Qed.

Lemma lstrip_ws_suffix (s : pystr) : ∃ pre, s = pre ++ lstrip_ws ws s.
Proof.
  induction s as [|c s [pre IH]]; [by exists []|]. cbn [lstrip_ws].
  destruct (isspace ws c); [|by exists []].
  exists (c :: pre). cbn [app]. by f_equal.
Qed.

Lemma rstrip_ws_prefix (s : pystr) : ∃ post, s = rstrip_ws ws s ++ post.
Proof.
  unfold rstrip_ws. destruct (lstrip_ws_suffix (rev s)) as [pre Hpre].
  exists (rev pre). rewrite <- rev_app_distr, <- Hpre.
  by rewrite rev_involutive.
Qed.

Lemma strip_ws_absent (sub s : pystr) :
  contains sub s = false → contains sub (strip_ws ws s) = false.
Proof.
  intros Hs. destruct (contains sub (strip_ws ws s)) eqn:E; [|done].
  unfold strip_ws in E.
  destruct (rstrip_ws_prefix (lstrip_ws ws s)) as [post Hpost].
  destruct (lstrip_ws_suffix s) as [pre Hpre].
  apply (contains_app_l _ _ post) in E. rewrite <- Hpost in E.
  apply (contains_app_r _ pre) in E. rewrite <- Hpre in E. congruence.
Qed.

Lemma lstrip_ws_head (s : pystr) (c : N) (r : pystr) :
  lstrip_ws ws s = c :: r → isspace ws c = false.
Proof.
  induction s as [|d s IH]; [done|]. cbn [lstrip_ws].
  destruct (isspace ws d) eqn:Ed; [done|]. by intros [= <- _].
Qed.

Lemma rstrip_ws_keeps_head (s : pystr) (c : N) (r : pystr) :
  rstrip_ws ws s = c :: r → ∃ s', s = c :: s'.
Proof.
  destruct (rstrip_ws_prefix s) as [post Hpost]. intros E.
  rewrite E in Hpost. by exists (r ++ post).
Qed.

Lemma strip_ws_ends (s : pystr) :
  strip_ws ws s = []
  ∨ (isspace ws (hd 0 (strip_ws ws s)) = false
     ∧ isspace ws (List.last (strip_ws ws s) 0) = false).
Proof.
  unfold strip_ws. destruct (rstrip_ws ws (lstrip_ws ws s)) as [|c r] eqn:E;
    [by left|].
  right. split.
  - destruct (rstrip_ws_keeps_head _ _ _ E) as [s' Hs'].
    by apply lstrip_ws_head in Hs'.
  - unfold rstrip_ws in E.
    assert (rev (c :: r) = lstrip_ws ws (rev (lstrip_ws ws s))) as Hrev
      by (by rewrite <- E, rev_involutive).
    destruct (exists_last (l := c :: r)) as (r' & d & Hr'); [done|].
    rewrite Hr' in *. rewrite last_last. rewrite rev_app_distr in Hrev.
    cbn [rev app] in Hrev. symmetry in Hrev.
    by apply lstrip_ws_head in Hrev.
Qed.

End FenceFacts.

(** ** The template copy *)



(** X18. Where the modified template is written. For a template directory
    inside the repository copy ([./<TEMPLATE_REPO_PATH>] followed by a
    sub-path in which that prefix does not occur again), the target is the
    same sub-path and file name under the run's temporary copy. For a
    template directory in which the repository prefix does not occur, the
    relocation changes nothing: the target is the template's own path. *)
Theorem template_copy_target (run_id template_file_name template_dir
    sub : pystr) :
  let repo := py "./" ++ DataprocTemplates.TEMPLATE_REPO_PATH in
  (template_dir = repo ++ sub →
   contains repo (sub ++ py "/" ++ template_file_name) = false →
   DataprocTemplates.temp_template_path_of run_id template_file_name
     template_dir
   = DataprocTemplates.temp_template_repo_path_of run_id ++ sub ++ py "/"
     ++ template_file_name)
  ∧ (contains repo (template_dir ++ py "/" ++ template_file_name) = false →
     DataprocTemplates.temp_template_path_of run_id template_file_name
       template_dir
     = template_dir ++ py "/" ++ template_file_name).
Proof.
  intros repo. unfold DataprocTemplates.temp_template_path_of. fold repo.
  split.
  - intros -> Habsent. rewrite <- app_assoc.
    rewrite replace_prefix by done. by rewrite replace_absent.
  - intros Habsent. by rewrite replace_absent.
Qed.

Lemma template_copy_target_witness :
  DataprocTemplates.temp_template_path_of (py "run1") (py "gcs_to_bq.py")
    (py "./" ++ DataprocTemplates.TEMPLATE_REPO_PATH ++ py "/python/gcs")
  = py "./src/agents/plumber/agents/dataproc_template_agent/temp/run1/dataproc_template/python/gcs/gcs_to_bq.py".
Proof.
  destruct (template_copy_target (py "run1") (py "gcs_to_bq.py")
              (py "./" ++ DataprocTemplates.TEMPLATE_REPO_PATH
               ++ py "/python/gcs") (py "/python/gcs")) as [H _].
  rewrite H by (vm_compute; reflexivity). reflexivity.
Defined.

(** ** The search for the staged template's path *)

Section StagedFacts.
Context (ws : N → bool).

Lemma startswith_split (p s : pystr) :
  startswith p s = true → s = p ++ drop (length p) s.
Proof.
  revert s. induction p as [|a p IH]; intros [|c s]; [done..|].
  rewrite startswith_cons. intros [->%N.eqb_eq Hp]%andb_true_iff.
  cbn [app length drop]. f_equal. by apply IH.
Qed.

Lemma lstrip_ws_split (s : pystr) :
  ∃ sp, s = sp ++ lstrip_ws ws s ∧ Forall (λ c, isspace ws c = true) sp.
Proof.
  induction s as [|c s (sp & Hs & Hsp)]; [by exists []|]. cbn [lstrip_ws].
  destruct (isspace ws c) eqn:Ec; [|by exists []].
  exists (c :: sp). split; [cbn [app]; by f_equal|by constructor].
Qed.

Lemma lstrip_ws_spaces (sp t : pystr) :
  Forall (λ c, isspace ws c = true) sp →
  lstrip_ws ws (sp ++ t) = lstrip_ws ws t.
Proof.
  induction 1 as [|c sp Hc _ IH]; [done|]. cbn [app lstrip_ws].
  by rewrite Hc.
Qed.

Lemma nonspace_run_split (s : pystr) :
  ∃ post,
    s = nonspace_run ws s ++ post
    ∧ Forall (λ c, isspace ws c = false) (nonspace_run ws s)
    ∧ (∀ c post', post = c :: post' → isspace ws c = true).
Proof.
  induction s as [|c s (post & Hs & Hall & Hnext)]; cbn [nonspace_run].
  - by exists [].
  - destruct (isspace ws c) eqn:Ec.
    + exists (c :: s). split; [done|]. split; [constructor|].
      by intros ? ? [= <- <-].
    + exists post. split; [cbn [app]; by f_equal|]. split; [|done].
      by constructor.
Qed.

Lemma match_staged_sound (announcement s path : pystr) :
  match_staged ws announcement s = Some path →
  ∃ sp rest post,
    s = announcement ++ sp ++ path ++ post
    ∧ sp ≠ [] ∧ Forall (λ c, isspace ws c = true) sp
    ∧ path = py "gs://" ++ rest
    ∧ rest ≠ [] ∧ Forall (λ c, isspace ws c = false) rest
    ∧ (∀ c post', post = c :: post' → isspace ws c = true).
Proof.
  unfold match_staged.
  destruct (startswith announcement s) eqn:Ea; [|done].
  apply startswith_split in Ea.
  destruct (drop (length announcement) s) as [|c rest0] eqn:Ed; [done|].
  destruct (isspace ws c) eqn:Ec; [|done].
  destruct (lstrip_ws_split rest0) as (sp & Hrest0 & Hsp).
  destruct (startswith (py "gs://") (lstrip_ws ws rest0)) eqn:Eg; [|done].
  apply startswith_split in Eg.
  change (length (py "gs://")) with 5%nat in Eg.
  destruct (nonspace_run_split (drop 5 (lstrip_ws ws rest0)))
    as (post & Hrun & Hall & Hnext).
  destruct (nonspace_run ws (drop 5 (lstrip_ws ws rest0))) as [|d rest]
    eqn:Er; [done|].
  intros [= <-]. exists (c :: sp), (d :: rest), post.
  split.
  { assert (lstrip_ws ws rest0 = py "gs://" ++ (d :: rest) ++ post) as HL
      by (rewrite Eg at 1; by rewrite Hrun).
    rewrite Ea at 1. rewrite Hrest0 at 1. rewrite HL.
    rewrite <- ?app_assoc. reflexivity. }
  split; [done|]. split; [by constructor|]. done.
Qed.

Lemma match_staged_complete (announcement sp rest post : pystr) :
  sp ≠ [] → Forall (λ c, isspace ws c = true) sp →
  rest ≠ [] → Forall (λ c, isspace ws c = false) rest →
  is_Some (match_staged ws announcement
             (announcement ++ sp ++ py "gs://" ++ rest ++ post)).
Proof.
  intros Hsp Hspaces Hrest Hns. unfold match_staged.
  rewrite startswith_app, drop_app_length.
  destruct sp as [|c sp]; [done|]. apply Forall_cons in Hspaces as [Hc Hspaces].
  cbn [app]. rewrite Hc. rewrite lstrip_ws_spaces by done.
  change (py "gs://" ++ rest ++ post) with (103 :: py "s://" ++ rest ++ post).
  cbn [lstrip_ws]. change (isspace ws 103) with false. cbn match.
  change (103 :: py "s://" ++ rest ++ post)
    with (py "gs://" ++ rest ++ post).
  rewrite startswith_app.
  change (drop 5 (py "gs://" ++ rest ++ post)) with (rest ++ post).
  destruct rest as [|d rest]; [done|]. apply Forall_cons in Hns as [Hd _].
  cbn [app nonspace_run]. rewrite Hd. by eexists.
Qed.

End StagedFacts.

(** X19. The search for the staged template's path is exact, for either
    announcement. A returned path follows the announcement and at least
    one whitespace character in the build output, is [gs://] with at least
    one more character, holds no whitespace, and runs up to the next
    whitespace or the end; when nothing is returned, the output holds no
    announcement followed by whitespace and a [gs://] path. *)
Theorem staged_path_search_is_exact (ws : N → bool)
    (announcement s : pystr) :
  match search_staged ws announcement s with
  | Some path =>
      ∃ pre sp rest post,
        s = pre ++ announcement ++ sp ++ path ++ post
        ∧ sp ≠ [] ∧ Forall (λ c, isspace ws c = true) sp
        ∧ path = py "gs://" ++ rest
        ∧ rest ≠ [] ∧ Forall (λ c, isspace ws c = false) rest
        ∧ (∀ c post', post = c :: post' → isspace ws c = true)
  | None =>
      ∀ pre sp rest post,
        s = pre ++ announcement ++ sp ++ py "gs://" ++ rest ++ post →
        sp ≠ [] → Forall (λ c, isspace ws c = true) sp →
        rest ≠ [] → Forall (λ c, isspace ws c = false) rest → False
  end.
Proof.
  induction s as [|c s IH]; cbn [search_staged].
  - destruct (match_staged ws announcement []) as [path|] eqn:Em.
    + apply match_staged_sound in Em
        as (sp & rest & post & Hs & Hsp & Hspaces & Hp & Hrest & Hns & Hn).
      by exists [], sp, rest, post.
    + intros pre sp rest post Hs Hsp Hspaces Hrest Hns.
      destruct pre; [|done]. cbn [app] in Hs. rewrite Hs in Em.
      destruct (match_staged_complete ws announcement sp rest post Hsp
                       Hspaces Hrest Hns) as [? Hx]; congruence.
  - destruct (match_staged ws announcement (c :: s)) as [path|] eqn:Em.
    + apply match_staged_sound in Em
        as (sp & rest & post & Hs & Hsp & Hspaces & Hp & Hrest & Hns & Hn).
      by exists [], sp, rest, post.
    + destruct (search_staged ws announcement s) as [path|].
      * destruct IH
          as (pre & sp & rest & post & Hs & Hsp & Hspaces & Hp & Hrest & Hns
              & Hn).
        exists (c :: pre), sp, rest, post. split; [cbn [app]; by f_equal|].
        done.
      * intros [|c' pre] sp rest post Hs Hsp Hspaces Hrest Hns.
        -- cbn [app] in Hs. rewrite Hs in Em.
           destruct (match_staged_complete ws announcement sp rest post Hsp
                       Hspaces Hrest Hns) as [? Hx]; congruence.
        -- injection Hs as -> Hs. by apply (IH pre sp rest post).
Qed.

(** ** The template repositories *)

(** X20. Both repository helpers do exactly one git operation, a pull when
    the local path exists and a clone otherwise, and their result is
    consistent: the status holds the word [error] exactly when there is no
    [repo_path]; otherwise the status is the success text and [repo_path]
    is the fixed local path, which for the Dataproc helper is the directory
    the template copy is later taken from. *)
Theorem repo_refresh_is_consistent {S : Type} (M : Machines.Machine S)
    (GIT_PATH URL : pystr) (s : S) :
  let path := py "./" ++ GIT_PATH ++ py "/DataflowTemplates" in
  let '(s1, did, st) :=
    TemplateBuild.get_dataflow_template_repo M GIT_PATH URL s in
  let path' :=
    py "./" ++ DataprocTemplates.GIT_PATH ++ py "/dataproc_template" in
  let '(s2, did', st') := DataprocTemplates.get_dataproc_template_repo M s in
  did = [if Machines.os_path_exists M path s
         then Machines.GitPull path else Machines.GitClone URL path]
  ∧ (contains (py "error") (Machines.status st) = true
     ↔ Machines.repo_path st = None)
  ∧ ((∃ str_err, Machines.status st = py "error - " ++ str_err
                 ∧ Machines.repo_path st = None)
     ∨ (Machines.status st = py "success"
        ∧ Machines.repo_path st = Some path))
  ∧ did' = [if Machines.os_path_exists M path' s
            then Machines.GitPull path'
            else Machines.GitClone DataprocTemplates.DATAPROC_TEMPLATE_GIT_URL
                   path']
  ∧ (contains (py "error") (Machines.status st') = true
     ↔ Machines.repo_path st' = None)
  ∧ ((∃ str_err, Machines.status st' = py "error - " ++ str_err
                 ∧ Machines.repo_path st' = None)
     ∨ (startswith (py "success - repo ") (Machines.status st') = true
        ∧ Machines.repo_path st' = Some path'))
  ∧ path' = py "./" ++ DataprocTemplates.TEMPLATE_REPO_PATH.
Proof.
  intros path. unfold TemplateBuild.get_dataflow_template_repo. fold path.
  unfold DataprocTemplates.get_dataproc_template_repo.
  set (path' := py "./" ++ DataprocTemplates.GIT_PATH
                ++ py "/dataproc_template").
  assert (∀ e : pystr, contains (py "error") (py "error - " ++ e) = true)
    as Herr by done.
  destruct (Machines.os_path_exists M path s);
    [destruct (Machines.git_pull M path s) as [s1 [e|]]
    |destruct (Machines.git_clone M URL path s) as [s1 [e|]]];
    (destruct (Machines.os_path_exists M path' s);
     [destruct (Machines.git_pull M path' s) as [s2 [e'|]]
     |destruct (Machines.git_clone M _ path' s) as [s2 [e'|]]]);
    cbn [Machines.status Machines.repo_path];
    repeat split; try done;
    try (left; by eexists); try (right; done).
Qed.

(** ** The template build *)

Lemma dataflow_repo_status {S : Type} (M : Machines.Machine S)
    (GIT_PATH URL : pystr) (s : S) :
  let st := (TemplateBuild.get_dataflow_template_repo M GIT_PATH URL s).2 in
  (contains (py "error") (Machines.status st) = true
   ∧ Machines.repo_path st = None)
  ∨ (Machines.status st = py "success"
     ∧ Machines.repo_path st
       = Some (py "./" ++ GIT_PATH ++ py "/DataflowTemplates")).
Proof.
  unfold TemplateBuild.get_dataflow_template_repo.
  destruct (Machines.os_path_exists M _ s);
    [destruct (Machines.git_pull M _ s) as [s1 [e|]]
    |destruct (Machines.git_clone M URL _ s) as [s1 [e|]]];
    cbn [snd Machines.status Machines.repo_path];
    by (left + right).
Qed.

Section BuildFacts.
Context {S : Type} (M : Machines.Machine S) (ws : N → bool).
Context (GIT_PATH URL : pystr).
Context (gcp_project bucket_name template_name template_path
  sttm_gcs_path : pystr).

Local Abbreviation repo := (py "./" ++ GIT_PATH ++ py "/DataflowTemplates").
Local Abbreviation dir := (os_path_join repo [template_path]).
Local Abbreviation mvn :=
  (TemplateBuild.mvn_cmd_of gcp_project bucket_name template_name dir).
Local Abbreviation asked files :=
  (Machines.AskModel (py "CORRECT_JAVA_FILE_INSTRUCTION")
     [template_name; join nl files]).

Lemma build_and_stage_did (s : S) :
  (TemplateBuild.build_and_stage M ws gcp_project bucket_name template_name
     template_path repo s).1.2 = [Machines.Shell mvn].
Proof.
  unfold TemplateBuild.build_and_stage.
  destruct (Machines.run M _ true s) as [s1 [e|p]]; [done|].
  case_bool_decide; [done|].
  by destruct (TemplateBuild.staged_path_of ws (Machines.stdout p)).
Qed.

(** The call, step by step. *)
Lemma customize_cases (s : S) :
  let '(s1, did1, st) :=
    TemplateBuild.get_dataflow_template_repo M GIT_PATH URL s in
  let '(s2, did2, files) :=
    DataflowUtils.find_all_java_files_in_dir M ws dir s1 in
  let call :=
    TemplateBuild.customize_and_build_template M ws GIT_PATH URL gcp_project
      bucket_name template_name template_path sttm_gcs_path s in
  (Machines.repo_path st = None
   ∧ call
     = (s1, did1,
        TemplateBuild.build_failed
          (py "Could not access template repo: " ++ Machines.status st)
          None None))
  ∨ (Machines.repo_path st = Some repo
     ∧ ((files = []
         ∧ call
           = (s2, did1 ++ did2,
              TemplateBuild.build_failed
                (py "No .java source files found in directory: " ++ dir)
                None None))
        ∨ (files ≠ []
           ∧ ∃ s3 answer,
               Machines.generate_content M
                 (py "CORRECT_JAVA_FILE_INSTRUCTION")
                 [template_name; join nl files] s2 = (s3, answer)
               ∧ match answer with
                 | inl str_err =>
                     call
                     = (s3, (did1 ++ did2) ++ [asked files],
                        TemplateBuild.build_failed
                          (py "An unexpected error occurred: " ++ str_err)
                          None None)
                 | inr text =>
                     match DataflowUtils.existing_choice M ws text s3 with
                     | None =>
                         call
                         = (s3, (did1 ++ did2) ++ [asked files],
                            TemplateBuild.build_failed
                              (py "LLM could not identify the correct source file for "
                               ++ template_name ++ py ".") None None)
                     | Some _ =>
                         let built :=
                           TemplateBuild.build_and_stage M ws gcp_project
                             bucket_name template_name template_path repo
                             s3 in
                         call
                         = (built.1.1,
                            ((did1 ++ did2) ++ [asked files])
                            ++ [Machines.Shell mvn],
                            built.2)
                     end
                 end))).
Proof.
  unfold TemplateBuild.customize_and_build_template.
  pose proof (dataflow_repo_status M GIT_PATH URL s) as Hrepo.
  destruct (TemplateBuild.get_dataflow_template_repo M GIT_PATH URL s)
    as [[s1 did1] st].
  cbn [snd] in Hrepo.
  destruct Hrepo as [[Herr Hpath]|[Hstatus Hpath]].
  - destruct (DataflowUtils.find_all_java_files_in_dir M ws dir s1)
      as [[s2 did2] files].
    left. split; [done|]. by rewrite Herr.
  - rewrite Hstatus, Hpath. change (contains (py "error") (py "success"))
      with false. cbn match.
    destruct (DataflowUtils.find_all_java_files_in_dir M ws dir s1)
      as [[s2 did2] files].
    right. split; [done|]. destruct files as [|f files]; [by left|].
    right. split; [done|].
    destruct (Machines.generate_content M _ _ s2) as [s3 [e|text]] eqn:Eg.
    + by exists s3, (inl e).
    + exists s3, (inr text). split; [done|].
      destruct (DataflowUtils.existing_choice M ws text s3); [|done].
      pose proof (build_and_stage_did s3) as Hdid.
      destruct (TemplateBuild.build_and_stage M ws gcp_project bucket_name
                  template_name template_path repo s3) as [[s4 built] r].
      cbn [fst snd] in *. by rewrite Hdid.
Qed.

End BuildFacts.

Lemma find_java_did {S : Type} (M : Machines.Machine S) (ws : N → bool)
    (directory : pystr) (s : S) :
  let did :=
    (DataflowUtils.find_all_java_files_in_dir M ws directory s).1.2 in
  did = []
  ∨ did = [Machines.Shell
             (py "find " ++ dq ++ directory ++ dq ++ py " -name " ++ dq
              ++ py "*.java" ++ dq)].
Proof.
  unfold DataflowUtils.find_all_java_files_in_dir.
  destruct (negb _); [by left|].
  destruct (Machines.stdout_of_checked M _ s) as [s1 out]. by right.
Qed.

Lemma existing_choice_Some {S : Type} (M : Machines.Machine S)
    (ws : N → bool) (text choice : pystr) (s : S) :
  DataflowUtils.existing_choice M ws text s = Some choice →
  choice = strip_ws ws text ∧ choice ≠ py "not_found"
  ∧ Machines.os_path_exists M choice s = true.
Proof.
  unfold DataflowUtils.existing_choice.
  case_bool_decide as Hn; cbn [orb]; [done|].
  destruct (Machines.os_path_exists M (strip_ws ws text) s) eqn:Ex;
    cbn [negb]; [|done].
  by intros [= <-].
Qed.

Lemma mvn_is_not_find (gcp_project bucket_name template_name module
    directory : pystr) :
  TemplateBuild.mvn_cmd_of gcp_project bucket_name template_name module
  ≠ py "find " ++ dq ++ directory ++ dq ++ py " -name " ++ dq
    ++ py "*.java" ++ dq.
Proof. intros H. apply (f_equal (hd 0)) in H. discriminate H. Qed.

(** X21. [customize_and_build_template] runs the build only after every
    check has passed. If the repository could not be refreshed, the git
    operation is all the call did, and the result is [failed] with the
    helper's error status in the comment. The call runs no shell command
    other than the file search and the build; it asks the model only about
    a non-empty list of Java files; and it runs the build only if files
    were found and the model's stripped answer is not [not_found] and names
    an existing path. *)
Theorem build_runs_after_checks {S : Type} (M : Machines.Machine S)
    (ws : N → bool) (GIT_PATH URL : pystr)
    (gcp_project bucket_name template_name template_path
     sttm_gcs_path : pystr) (s : S) :
  let repo := py "./" ++ GIT_PATH ++ py "/DataflowTemplates" in
  let dir := os_path_join repo [template_path] in
  let find_cmd :=
    py "find " ++ dq ++ dir ++ dq ++ py " -name " ++ dq ++ py "*.java"
    ++ dq in
  let mvn :=
    TemplateBuild.mvn_cmd_of gcp_project bucket_name template_name dir in
  let '(s1, did1, st) :=
    TemplateBuild.get_dataflow_template_repo M GIT_PATH URL s in
  let '(s2, did2, files) :=
    DataflowUtils.find_all_java_files_in_dir M ws dir s1 in
  let '(s', did, r) :=
    TemplateBuild.customize_and_build_template M ws GIT_PATH URL gcp_project
      bucket_name template_name template_path sttm_gcs_path s in
  (Machines.repo_path st = None →
   s' = s1 ∧ did = did1
   ∧ r = TemplateBuild.build_failed
           (py "Could not access template repo: " ++ Machines.status st)
           None None)
  ∧ (∀ cmd, Machines.Shell cmd ∈ did → cmd = find_cmd ∨ cmd = mvn)
  ∧ (∀ prompt arguments,
       Machines.AskModel prompt arguments ∈ did →
       files ≠ [] ∧ arguments = [template_name; join nl files])
  ∧ (Machines.Shell mvn ∈ did →
     files ≠ []
     ∧ ∃ s3 text,
         Machines.generate_content M (py "CORRECT_JAVA_FILE_INSTRUCTION")
           [template_name; join nl files] s2 = (s3, inr text)
         ∧ strip_ws ws text ≠ py "not_found"
         ∧ Machines.os_path_exists M (strip_ws ws text) s3 = true).
Proof.
  intros repo dir find_cmd mvn.
  pose proof (customize_cases M ws GIT_PATH URL gcp_project bucket_name
                template_name template_path sttm_gcs_path s) as Hcases.
  fold repo in Hcases. fold dir in Hcases. fold mvn in Hcases.
  assert (∀ a, a ∈ (TemplateBuild.get_dataflow_template_repo M GIT_PATH URL
                      s).1.2 →
               (∀ cmd, a ≠ Machines.Shell cmd)
               ∧ ∀ prompt arguments, a ≠ Machines.AskModel prompt arguments)
    as Hgit.
  { unfold TemplateBuild.get_dataflow_template_repo.
    destruct (Machines.os_path_exists M _ s);
      [destruct (Machines.git_pull M _ s)
      |destruct (Machines.git_clone M _ _ s)];
      cbn [fst snd]; intros a ->%list_elem_of_singleton; done. }
  destruct (TemplateBuild.get_dataflow_template_repo M GIT_PATH URL s)
    as [[s1 did1] st].
  pose proof (find_java_did M ws dir s1) as Hfind.
  destruct (DataflowUtils.find_all_java_files_in_dir M ws dir s1)
    as [[s2 did2] files].
  cbn [fst snd] in Hgit, Hfind. fold find_cmd in Hfind.
  assert (∀ a, a ∈ did1 ++ did2 →
               (∀ cmd, a = Machines.Shell cmd → cmd = find_cmd)
               ∧ ∀ prompt arguments, a ≠ Machines.AskModel prompt arguments)
    as Hfirst.
  { intros a [Ha|Ha]%elem_of_app.
    - destruct (Hgit a Ha) as [H1 H2]. split; [|done].
      intros cmd ->. by destruct (H1 cmd).
    - destruct Hfind as [->| ->]; [by apply elem_of_nil in Ha|].
      apply list_elem_of_singleton in Ha as ->. split; [|done].
      by intros cmd [= <-]. }
  assert (Machines.Shell mvn ∉ did1 ++ did2) as Hnomvn.
  { intros Hin. destruct (Hfirst _ Hin) as [H1 _].
    by apply (mvn_is_not_find gcp_project bucket_name template_name dir dir),
      H1. }
  destruct (TemplateBuild.customize_and_build_template M ws GIT_PATH URL
              gcp_project bucket_name template_name template_path
              sttm_gcs_path s) as [[s' did] r].
  destruct Hcases as [[Hnone Hcall]|[Hsome [[Hfiles Hcall]|[Hfiles Hasked]]]].
  - injection Hcall as -> -> ->. split; [done|].
    split; [|split].
    + intros cmd Hin. exfalso.
      destruct (Hgit _ Hin) as [H1 _]. by destruct (H1 cmd).
    + intros prompt arguments Hin. exfalso.
      destruct (Hgit _ Hin) as [_ H2]. by destruct (H2 prompt arguments).
    + intros Hin. exfalso.
      destruct (Hgit _ Hin) as [H1 _]. by destruct (H1 mvn).
  - injection Hcall as -> -> ->. split; [by rewrite Hsome|].
    split; [|split].
    + intros cmd Hin. left. destruct (Hfirst _ Hin) as [H1 _]. by apply H1.
    + intros prompt arguments Hin. exfalso.
      destruct (Hfirst _ Hin) as [_ H2]. by destruct (H2 prompt arguments).
    + intros Hin. by destruct Hnomvn.
  - destruct Hasked as (s3 & answer & Hgen & Hcall).
    split; [by rewrite Hsome|].
    assert (∀ a, a ∈ (did1 ++ did2)
                     ++ [Machines.AskModel
                           (py "CORRECT_JAVA_FILE_INSTRUCTION")
                           [template_name; join nl files]] →
                 (∀ cmd, a = Machines.Shell cmd → cmd = find_cmd)
                 ∧ ∀ prompt arguments,
                     a = Machines.AskModel prompt arguments →
                     arguments = [template_name; join nl files])
      as Hsecond.
    { intros a [Ha|Ha]%elem_of_app.
      - destruct (Hfirst a Ha) as [H1 H2]. split; [done|].
        intros prompt arguments ->. by destruct (H2 prompt arguments).
      - apply list_elem_of_singleton in Ha as ->. split; [done|].
        by intros prompt arguments [= _ <-]. }
    assert (Machines.Shell mvn
            ∉ (did1 ++ did2)
              ++ [Machines.AskModel (py "CORRECT_JAVA_FILE_INSTRUCTION")
                    [template_name; join nl files]]) as Hnomvn2.
    { intros Hin. destruct (Hsecond _ Hin) as [H1 _].
      by apply (mvn_is_not_find gcp_project bucket_name template_name dir
                  dir), H1. }
    destruct answer as [e|text].
    + injection Hcall as -> -> ->. split; [|split].
      * intros cmd Hin. left. destruct (Hsecond _ Hin) as [H1 _]. by apply H1.
      * intros prompt arguments Hin. split; [done|].
        by destruct (Hsecond _ Hin) as [_ H2]; apply (H2 prompt).
      * intros Hin. by destruct Hnomvn2.
    + destruct (DataflowUtils.existing_choice M ws text s3) as [choice|]
        eqn:Echoice.
      * apply existing_choice_Some in Echoice as (-> & Hnot & Hexists).
        cbn zeta in Hcall. injection Hcall as -> -> ->. split; [|split].
        -- intros cmd [Hin|Hin]%elem_of_app.
           ++ left. destruct (Hsecond _ Hin) as [H1 _]. by apply H1.
           ++ right. apply list_elem_of_singleton in Hin. by injection Hin.
        -- intros prompt arguments [Hin|Hin]%elem_of_app.
           ++ split; [done|]. by destruct (Hsecond _ Hin) as [_ H2]; apply (H2 prompt).
           ++ by apply list_elem_of_singleton in Hin.
        -- intros _. split; [done|]. by exists s3, text.
      * injection Hcall as -> -> ->. split; [|split].
        -- intros cmd Hin. left. destruct (Hsecond _ Hin) as [H1 _]. by apply H1.
        -- intros prompt arguments Hin. split; [done|].
           by destruct (Hsecond _ Hin) as [_ H2]; apply (H2 prompt).
        -- intros Hin. by destruct Hnomvn2.
Qed.

Lemma build_runs_after_checks_witness :
  TemplateBuild.customize_and_build_template offline_machine (λ _, false)
    (py "git") (py "https://github.com/GoogleCloudPlatform/DataflowTemplates")
    (py "proj") (py "bkt") (py "Kafka_to_BQ") (py "v2/kafka") (py "") tt
  = (tt,
     [Machines.GitClone
        (py "https://github.com/GoogleCloudPlatform/DataflowTemplates")
        (py "./git/DataflowTemplates")],
     TemplateBuild.build_failed
       (py "Could not access template repo: error - could not resolve host")
       None None).
Proof.
  pose proof (build_runs_after_checks offline_machine (λ _, false) (py "git")
                (py "https://github.com/GoogleCloudPlatform/DataflowTemplates")
                (py "proj") (py "bkt") (py "Kafka_to_BQ") (py "v2/kafka")
                (py "") tt) as H.
  cbv zeta in H.
  assert (TemplateBuild.get_dataflow_template_repo offline_machine (py "git")
            (py "https://github.com/GoogleCloudPlatform/DataflowTemplates") tt
          = (tt,
             [Machines.GitClone
                (py "https://github.com/GoogleCloudPlatform/DataflowTemplates")
                (py "./git/DataflowTemplates")],
             {| Machines.status := py "error - could not resolve host";
                Machines.repo_path := None |})) as Hrepo by reflexivity.
  rewrite Hrepo in H.
  destruct (DataflowUtils.find_all_java_files_in_dir _ _ _ _)
    as [[s2 did2] files].
  destruct (TemplateBuild.customize_and_build_template _ _ _ _ _ _ _ _ _ _)
    as [[s' did] r].
  destruct H as (H & _). destruct (H eq_refl) as (Hs & Hdid & Hr).
  destruct s'. by rewrite Hdid, Hr.
Defined.

Lemma build_and_stage_success {S : Type} (M : Machines.Machine S)
    (ws : N → bool)
    (gcp_project bucket_name template_name template_path repo : pystr)
    (s : S) :
  let built :=
    TemplateBuild.build_and_stage M ws gcp_project bucket_name template_name
      template_path repo s in
  TemplateBuild.build_status built.2 = py "success" →
  ∃ p path,
    Machines.run M
      (TemplateBuild.mvn_cmd_of gcp_project bucket_name template_name
         (os_path_join repo [template_path])) true s
    = (built.1.1, inr p)
    ∧ Machines.returncode p = 0%Z
    ∧ built.2
      = {| TemplateBuild.build_status := py "success";
           TemplateBuild.build_comment :=
             py "Template '" ++ template_name
             ++ py "' was built and staged.";
           TemplateBuild.staged_template_gcs_path := Some path;
           TemplateBuild.stdout_key := None;
           TemplateBuild.stderr_key := None |}
    ∧ path ≠ []
    ∧ (search_staged ws TemplateBuild.flex_announcement (Machines.stdout p)
       = Some path
       ∨ (search_staged ws TemplateBuild.flex_announcement
            (Machines.stdout p) = None
          ∧ search_staged ws TemplateBuild.classic_announcement
              (Machines.stdout p) = Some path)).
Proof.
  unfold TemplateBuild.build_and_stage.
  destruct (Machines.run M _ true s) as [s1 [e|p]]; [done|].
  case_bool_decide as Hrc; [done|].
  assert (Machines.returncode p = 0%Z) as Hrc0
    by (destruct (decide (Machines.returncode p = 0%Z)); done).
  destruct (TemplateBuild.staged_path_of ws (Machines.stdout p))
    as [|c path] eqn:Ep; [done|].
  cbn [fst snd]. intros _. exists p, (c :: path).
  split; [done|]. split; [done|]. split; [done|]. split; [done|].
  unfold TemplateBuild.staged_path_of in Ep.
  destruct (search_staged ws TemplateBuild.flex_announcement _);
    [left; by f_equal|].
  destruct (search_staged ws TemplateBuild.classic_announcement _);
    [right; split; [done|by f_equal]|done].
Qed.

(** X22. When [customize_and_build_template] reports [success], the build
    command was the last thing it did and exited with status 0, and the
    staged path it returns was found in the build's output: after the flex
    announcement if there is one, and after the classic announcement only
    if there is no flex one. The result then has no [stdout] or [stderr]
    key. *)
Theorem build_success_means {S : Type} (M : Machines.Machine S)
    (ws : N → bool) (GIT_PATH URL : pystr)
    (gcp_project bucket_name template_name template_path
     sttm_gcs_path : pystr) (s s' : S) (did : list Machines.action)
    (r : TemplateBuild.build_result) :
  TemplateBuild.customize_and_build_template M ws GIT_PATH URL gcp_project
    bucket_name template_name template_path sttm_gcs_path s = (s', did, r) →
  TemplateBuild.build_status r = py "success" →
  let mvn :=
    TemplateBuild.mvn_cmd_of gcp_project bucket_name template_name
      (os_path_join (py "./" ++ GIT_PATH ++ py "/DataflowTemplates")
         [template_path]) in
  ∃ s3 p path before,
    Machines.run M mvn true s3 = (s', inr p)
    ∧ Machines.returncode p = 0%Z
    ∧ did = before ++ [Machines.Shell mvn]
    ∧ r = {| TemplateBuild.build_status := py "success";
             TemplateBuild.build_comment :=
               py "Template '" ++ template_name
               ++ py "' was built and staged.";
             TemplateBuild.staged_template_gcs_path := Some path;
             TemplateBuild.stdout_key := None;
             TemplateBuild.stderr_key := None |}
    ∧ path ≠ []
    ∧ (search_staged ws TemplateBuild.flex_announcement (Machines.stdout p)
       = Some path
       ∨ (search_staged ws TemplateBuild.flex_announcement
            (Machines.stdout p) = None
          ∧ search_staged ws TemplateBuild.classic_announcement
              (Machines.stdout p) = Some path)).
Proof.
  intros Hcall Hok mvn.
  pose proof (customize_cases M ws GIT_PATH URL gcp_project bucket_name
                template_name template_path sttm_gcs_path s) as Hcases.
  destruct (TemplateBuild.get_dataflow_template_repo M GIT_PATH URL s)
    as [[s1 did1] st].
  destruct (DataflowUtils.find_all_java_files_in_dir M ws _ s1)
    as [[s2 did2] files].
  cbn zeta in Hcases. rewrite Hcall in Hcases.
  destruct Hcases as [[_ E]|[_ [[_ E]|[_ (s3 & answer & _ & E)]]]].
  - injection E as _ _ ->. done.
  - injection E as _ _ ->. done.
  - destruct answer as [e|text]; [injection E as _ _ ->; done|].
    destruct (DataflowUtils.existing_choice M ws text s3);
      [|injection E as _ _ ->; done].
    injection E as -> -> ->.
    destruct (build_and_stage_success M ws gcp_project bucket_name
                template_name template_path
                (py "./" ++ GIT_PATH ++ py "/DataflowTemplates") s3 Hok)
      as (p & path & Hrun & Hrc & Hr & Hne & Hfound).
    by eexists s3, p, path, _.
Qed.

Lemma build_success_means_witness :
  ∃ did,
    TemplateBuild.customize_and_build_template build_machine (λ _, false)
      (py "git") (py "https://github.com/GoogleCloudPlatform/DataflowTemplates")
      (py "proj") (py "bkt") (py "Kafka_to_BQ") (py "v2/kafka") (py "") tt
    = (tt, did,
       {| TemplateBuild.build_status := py "success";
          TemplateBuild.build_comment :=
            py "Template 'Kafka_to_BQ' was built and staged.";
          TemplateBuild.staged_template_gcs_path :=
            Some (py "gs://bkt/templates/flex/Kafka_to_BQ");
          TemplateBuild.stdout_key := None;
          TemplateBuild.stderr_key := None |})
    ∧ ∃ before,
        did
        = before
          ++ [Machines.Shell
                (TemplateBuild.mvn_cmd_of (py "proj") (py "bkt")
                   (py "Kafka_to_BQ") (py "./git/DataflowTemplates/v2/kafka"))].
Proof.
  eexists. split; [vm_compute; reflexivity|].
  edestruct (build_success_means build_machine (λ _, false) (py "git")
               (py "https://github.com/GoogleCloudPlatform/DataflowTemplates")
               (py "proj") (py "bkt") (py "Kafka_to_BQ") (py "v2/kafka")
               (py "") tt)
    as (s3 & p & path & before & _ & _ & Hdid & _);
    [vm_compute; reflexivity|reflexivity|].
  exists before. exact Hdid.
Defined.

(** ** dataflow_agent/utils.py: choosing the source file, the SQL query *)

(** X23. [find_template_source_file_with_llm] asks the model only when the
    search found two files or more, and then about exactly those files; a
    single file found is returned as it is, without a question; and a
    non-empty result is either that single file or a path that is not
    [not_found] and exists when the function returns. *)
Theorem source_file_choice {S : Type} (M : Machines.Machine S)
    (ws : N → bool) (repo_root_path template_name
     template_path_in_repo : pystr) (s : S) :
  let dir := os_path_join repo_root_path [template_path_in_repo] in
  let '(s1, did1, files) :=
    DataflowUtils.find_all_java_files_in_dir M ws dir s in
  let '(s', did, path) :=
    DataflowUtils.find_template_source_file_with_llm M ws repo_root_path
      template_name template_path_in_repo s in
  (∀ only, files = [only] → path = only ∧ did = did1 ∧ s' = s1)
  ∧ (files = [] → path = [] ∧ did = did1 ∧ s' = s1)
  ∧ (∀ prompt arguments,
       Machines.AskModel prompt arguments ∈ did →
       (2 ≤ length files)%nat
       ∧ arguments = [template_name; join nl files])
  ∧ (path ≠ [] →
     files = [path]
     ∨ ((2 ≤ length files)%nat ∧ path ≠ py "not_found"
        ∧ Machines.os_path_exists M path s' = true)).
Proof.
  intros dir. unfold DataflowUtils.find_template_source_file_with_llm.
  fold dir. pose proof (find_java_did M ws dir s) as Hfind.
  destruct (DataflowUtils.find_all_java_files_in_dir M ws dir s)
    as [[s1 did1] files].
  cbn [fst snd] in Hfind.
  assert (∀ prompt arguments, Machines.AskModel prompt arguments ∉ did1)
    as Hquiet.
  { intros prompt arguments Hin.
    destruct Hfind as [->| ->]; [by apply elem_of_nil in Hin|].
    by apply list_elem_of_singleton in Hin. }
  destruct files as [|f [|g files]].
  - split; [done|]. split; [done|]. split; [|done].
    intros prompt arguments Hin. by destruct (Hquiet prompt arguments).
  - split; [by intros only [= <-]|]. split; [done|]. split; [|by left].
    intros prompt arguments Hin. by destruct (Hquiet prompt arguments).
  - assert (∀ a prompt arguments,
              a ∈ did1
                  ++ [Machines.AskModel (py "CORRECT_JAVA_FILE_INSTRUCTION")
                        [template_name; join nl (f :: g :: files)]] →
              a = Machines.AskModel prompt arguments →
              (2 ≤ length (f :: g :: files))%nat
              ∧ arguments = [template_name; join nl (f :: g :: files)])
      as Hasked.
    { intros a prompt arguments [Hin|Hin]%elem_of_app ->.
      - by destruct (Hquiet prompt arguments).
      - apply list_elem_of_singleton in Hin. injection Hin as _ ->.
        split; [cbn; lia|done]. }
    destruct (Machines.generate_content M _ _ s1) as [s2 [e|text]].
    + split; [done|]. split; [done|]. split; [|done].
      intros prompt arguments Hin. by eapply Hasked.
    + split; [done|]. split; [done|]. split.
      * intros prompt arguments Hin. by eapply Hasked.
      * destruct (DataflowUtils.existing_choice M ws text s2) as [choice|]
          eqn:Echoice; [|done].
        apply existing_choice_Some in Echoice as (_ & Hnot & Hexists).
        cbn [default]. intros _. right. split; [cbn; lia|done].
Qed.

Lemma source_file_choice_witness :
  DataflowUtils.find_template_source_file_with_llm single_file_machine
    (λ _, false) (py "./r") (py "Main") (py "t") tt
  = (tt, [Machines.Shell (py "find " ++ dq ++ py "./r/t" ++ dq ++ py " -name "
                          ++ dq ++ py "*.java" ++ dq)],
     py "./r/t/Main.java").
Proof.
  pose proof (source_file_choice single_file_machine (λ _, false) (py "./r")
                (py "Main") (py "t") tt) as H.
  cbv zeta in H.
  assert (DataflowUtils.find_all_java_files_in_dir single_file_machine
            (λ _, false) (os_path_join (py "./r") [py "t"]) tt
          = (tt, [Machines.Shell (py "find " ++ dq ++ py "./r/t" ++ dq
                                  ++ py " -name " ++ dq ++ py "*.java" ++ dq)],
             [py "./r/t/Main.java"])) as Hfind by reflexivity.
  rewrite Hfind in H.
  destruct (DataflowUtils.find_template_source_file_with_llm _ _ _ _ _ _)
    as [[s' did] path].
  destruct H as (H & _). destruct (H _ eq_refl) as (-> & -> & ->).
  reflexivity.
Defined.

Lemma split_once_first (bucket blob : pystr) :
  47 ∉ bucket →
  DataflowUtils.split_once (bucket ++ 47 :: blob) = Some (bucket, blob).
Proof.
  induction bucket as [|c bucket IH]; [done|].
  intros [Hc Hb]%not_elem_of_cons. cbn [app DataflowUtils.split_once].
  assert ((c =? 47) = false) as -> by (apply N.eqb_neq; congruence).
  by rewrite IH.
Qed.

Lemma split_once_none (s : pystr) :
  47 ∉ s → DataflowUtils.split_once s = None.
Proof.
  induction s as [|c s IH]; [done|].
  intros [Hc Hs]%not_elem_of_cons. cbn [DataflowUtils.split_once].
  assert ((c =? 47) = false) as -> by (apply N.eqb_neq; congruence).
  by rewrite IH.
Qed.

(** X24. [generate_beam_sql_query_from_sttm]: the query it returns holds no
    code fence and no whitespace at either end, whatever the model
    answered. The object it reads is the one named by the path: the bucket
    is what stands between [gs://] and the first slash, the object name
    everything after that slash. The model is asked only about the text of
    that object, so not when the object is missing or storage fails; and a
    path without a slash after [gs://] gives the empty string with nothing
    done. *)
Theorem beam_sql_query_is_unfenced {S : Type} (M : Machines.Machine S)
    (ws : N → bool) (gcs_path : pystr) (s : S) :
  let '(s', did, sql) :=
    DataflowUtils.generate_beam_sql_query_from_sttm M ws gcs_path s in
  contains (py "```") sql = false
  ∧ (sql = []
     ∨ (isspace ws (hd 0 sql) = false
        ∧ isspace ws (List.last sql 0) = false))
  ∧ (∀ rest, gcs_path = py "gs://" ++ rest → 47 ∉ rest →
             contains (py "gs://") rest = false →
             sql = [] ∧ did = [] ∧ s' = s)
  ∧ ∀ bucket blob,
      gcs_path = py "gs://" ++ bucket ++ py "/" ++ blob →
      47 ∉ bucket →
      contains (py "gs://") (bucket ++ py "/" ++ blob) = false →
      (Machines.blob_exists M bucket blob s ≠ inr true →
       sql = [] ∧ did = [] ∧ s' = s)
      ∧ ∀ prompt arguments,
          Machines.AskModel prompt arguments ∈ did →
          ∃ file_content,
            Machines.download_as_text M bucket blob s = inr file_content
            ∧ arguments = [file_content].
Proof.
  unfold DataflowUtils.generate_beam_sql_query_from_sttm.
  set (parsed := DataflowUtils.split_once (replace (py "gs://") [] gcs_path)).
  assert (∀ rest, gcs_path = py "gs://" ++ rest →
                  contains (py "gs://") rest = false →
                  parsed = DataflowUtils.split_once rest) as Hparsed.
  { intros rest -> Habsent. unfold parsed.
    rewrite replace_prefix by done. by rewrite replace_absent. }
  assert (∀ rest, gcs_path = py "gs://" ++ rest → 47 ∉ rest →
                  contains (py "gs://") rest = false → parsed = None)
    as Hnone.
  { intros rest Hp Hr Ha. rewrite (Hparsed rest Hp Ha).
    by apply split_once_none. }
  assert (∀ bucket blob,
            gcs_path = py "gs://" ++ bucket ++ py "/" ++ blob →
            47 ∉ bucket →
            contains (py "gs://") (bucket ++ py "/" ++ blob) = false →
            parsed = Some (bucket, blob)) as Hsome.
  { intros bucket blob Hp Hb Ha. rewrite (Hparsed _ Hp Ha).
    by apply split_once_first. }
  destruct parsed as [[bucket_name blob_name]|].
  2: { split; [done|]. split; [by left|]. split; [done|].
       intros bucket blob Hp Hb Ha. by pose proof (Hsome bucket blob Hp Hb Ha). }
  destruct (Machines.blob_exists M bucket_name blob_name s) as [e|[|]] eqn:Ex.
  1, 3: split; [done|]; split; [by left|];
    (split; [intros rest Hp Hr Ha; by pose proof (Hnone rest Hp Hr Ha)|]);
    intros bucket blob Hp Hb Ha; split; [done|];
    by intros prompt arguments ?%elem_of_nil.
  destruct (Machines.download_as_text M bucket_name blob_name s)
    as [e|file_content] eqn:Ed.
  { split; [done|]. split; [by left|].
    split; [intros rest Hp Hr Ha; by pose proof (Hnone rest Hp Hr Ha)|].
    intros bucket blob Hp Hb Ha.
    specialize (Hsome bucket blob Hp Hb Ha). injection Hsome as <- <-.
    split; [by rewrite Ex|]. by intros prompt arguments ?%elem_of_nil. }
  destruct (Machines.generate_content M _ _ s) as [s1 [e|text]].
  - split; [done|]. split; [by left|].
    split; [intros rest Hp Hr Ha; by pose proof (Hnone rest Hp Hr Ha)|].
    intros bucket blob Hp Hb Ha.
    specialize (Hsome bucket blob Hp Hb Ha). injection Hsome as <- <-.
    split; [by rewrite Ex|].
    intros prompt arguments [= _ ->]%list_elem_of_singleton.
    by exists file_content.
  - split; [apply strip_ws_absent, replace_fence_gone|].
    split; [apply strip_ws_ends|].
    split; [intros rest Hp Hr Ha; by pose proof (Hnone rest Hp Hr Ha)|].
    intros bucket blob Hp Hb Ha.
    specialize (Hsome bucket blob Hp Hb Ha). injection Hsome as <- <-.
    split; [by rewrite Ex|].
    intros prompt arguments [= _ ->]%list_elem_of_singleton.
    by exists file_content.
Qed.

Lemma beam_sql_query_is_unfenced_witness :
  ∃ file_content,
    Machines.download_as_text copy_machine (py "bkt") (py "maps/sttm.csv") tt
    = inr file_content
    ∧ [py "a,b"] = [file_content].
Proof.
  pose proof (beam_sql_query_is_unfenced copy_machine (λ _, false)
                (py "gs://bkt/maps/sttm.csv") tt) as H.
  assert (DataflowUtils.generate_beam_sql_query_from_sttm copy_machine
            (λ _, false) (py "gs://bkt/maps/sttm.csv") tt
          = (tt, [Machines.AskModel (py "STTM_PARSING_INSTRUCTIONS_BEAM")
                    [py "a,b"]], py "python" ++ nl ++ py "print(2)"))
    as Hcall by reflexivity.
  rewrite Hcall in H. destruct H as (_ & _ & _ & H).
  destruct (H (py "bkt") (py "maps/sttm.csv")) as [_ Hasked];
    [reflexivity| |reflexivity|].
  - apply (bool_decide_unpack _). vm_compute. exact I.
  - eapply Hasked. left.
Defined.

(** ** The dbt runner *)

Lemma dbt_commands_differ (path : pystr) :
  DbtRunner.dbt_run_cmd path ≠ DbtRunner.dbt_debug_cmd path.
Proof. intros H. apply (f_equal (λ s, s !! 4%nat)) in H. discriminate H. Qed.

(** X25. [run_dbt_project] runs [dbt run] only after the call of
    [subprocess.run] for [dbt debug] has come back with exit status 0. Its
    status is [success] exactly when both calls came back with exit status
    0, and then it returns code 0 and the standard output of [dbt run].
    It is [error] exactly when one of the two calls came back with another
    exit status, [dbt debug] included, and the result carries that status
    and the standard error of that command. It is [failure] exactly when
    one of the two calls raised without an exit status (the shell could
    not be started, the output could not be decoded), and the result
    carries the exception's text and no return code. There is no other
    status. *)
Theorem dbt_run_follows_debug {S : Type} (M : Machines.Machine S)
    (dbt_project_path : pystr) (s : S) :
  let debug_cmd := DbtRunner.dbt_debug_cmd dbt_project_path in
  let run_cmd := DbtRunner.dbt_run_cmd dbt_project_path in
  let debug_passed := λ s1,
    ∃ p1, Machines.run M debug_cmd false s = (s1, inr p1)
          ∧ Machines.returncode p1 = 0%Z in
  let '(s', did, r) := DbtRunner.run_dbt_project M dbt_project_path s in
  (Machines.Shell run_cmd ∈ did → ∃ s1, debug_passed s1)
  ∧ (DbtRunner.dbt_status r = py "success"
     ↔ ∃ s1 p2,
         debug_passed s1
         ∧ Machines.run M run_cmd false s1 = (s', inr p2)
         ∧ Machines.returncode p2 = 0%Z
         ∧ r = {| DbtRunner.dbt_status := py "success";
                  DbtRunner.return_code := Some 0%Z;
                  DbtRunner.output := Machines.stdout p2 |})
  ∧ (DbtRunner.dbt_status r = py "error"
     ↔ ∃ p,
         Machines.returncode p ≠ 0%Z
         ∧ r = {| DbtRunner.dbt_status := py "error";
                  DbtRunner.return_code := Some (Machines.returncode p);
                  DbtRunner.output := Machines.stderr p |}
         ∧ (did = [Machines.Shell debug_cmd]
            ∧ Machines.run M debug_cmd false s = (s', inr p)
            ∨ did = [Machines.Shell debug_cmd; Machines.Shell run_cmd]
              ∧ ∃ s1, debug_passed s1
                      ∧ Machines.run M run_cmd false s1 = (s', inr p)))
  ∧ (DbtRunner.dbt_status r = py "failure"
     ↔ ∃ str_err,
         r = {| DbtRunner.dbt_status := py "failure";
                DbtRunner.return_code := None;
                DbtRunner.output := str_err |}
         ∧ (did = [Machines.Shell debug_cmd]
            ∧ Machines.run M debug_cmd false s = (s', inl str_err)
            ∨ did = [Machines.Shell debug_cmd; Machines.Shell run_cmd]
              ∧ ∃ s1, debug_passed s1
                      ∧ Machines.run M run_cmd false s1
                        = (s', inl str_err)))
  ∧ (DbtRunner.dbt_status r = py "success"
     ∨ DbtRunner.dbt_status r = py "error"
     ∨ DbtRunner.dbt_status r = py "failure")
  ∧ (DbtRunner.return_code r = None
     ↔ DbtRunner.dbt_status r = py "failure").
Proof.
  intros debug_cmd run_cmd debug_passed.
  unfold DbtRunner.run_dbt_project, DbtRunner.checked_run.
  fold debug_cmd run_cmd.
  assert (Machines.Shell run_cmd ∉ [Machines.Shell debug_cmd]) as Hfirst.
  { intros H%list_elem_of_singleton.
    apply (dbt_commands_differ dbt_project_path).
    apply (f_equal (λ a, match a with
                         | Machines.Shell cmd => cmd
                         | _ => []
                         end)) in H.
    exact H. }
  destruct (Machines.run M debug_cmd false s) as [s1 [e|p1]] eqn:E1;
    cbv beta iota zeta.
  { (* [dbt debug] raised *)
    split; [done|]. split; [split; [done|]|].
    { intros (? & ? & _ & _ & _ & Hr). status_clash Hr. }
    split; [split; [done|]|].
    { intros (? & _ & Hr & _). status_clash Hr. }
    split; [split; [intros _|done]|].
    { exists e. split; [done|]. by left. }
    split; [by right; right|done]. }
  destruct (Machines.returncode p1 =? 0)%Z eqn:Erc1; cbv beta iota zeta.
  2: { (* [dbt debug] exited with another status *)
       apply Z.eqb_neq in Erc1. split; [done|]. split; [split; [done|]|].
       { intros (? & ? & _ & _ & _ & Hr). status_clash Hr. }
       split; [split; [intros _|done]|].
       { exists p1. split; [done|]. split; [done|]. by left. }
       split; [split; [done|]|].
       { intros (? & Hr & _). status_clash Hr. }
       split; [by right; left|done]. }
  apply Z.eqb_eq in Erc1.
  assert (debug_passed s1) as Hpassed by (by exists p1).
  destruct (Machines.run M run_cmd false s1) as [s2 [e|p2]] eqn:E2;
    cbv beta iota zeta.
  { (* [dbt run] raised *)
    split; [intros _; by exists s1|]. split; [split; [done|]|].
    { intros (? & ? & _ & _ & _ & Hr). status_clash Hr. }
    split; [split; [done|]|].
    { intros (? & _ & Hr & _). status_clash Hr. }
    split; [split; [intros _|done]|].
    { exists e. split; [done|]. right. split; [done|]. by exists s1. }
    split; [by right; right|done]. }
  destruct (Machines.returncode p2 =? 0)%Z eqn:Erc2; cbv beta iota zeta.
  - (* both exited with status 0 *)
    apply Z.eqb_eq in Erc2. split; [intros _; by exists s1|].
    split; [split; [intros _|done]|].
    { exists s1, p2. rewrite Erc2. done. }
    split; [split; [done|]|].
    { intros (? & _ & Hr & _). status_clash Hr. }
    split; [split; [done|]|].
    { intros (? & Hr & _). status_clash Hr. }
    split; [by left|done].
  - (* [dbt run] exited with another status *)
    apply Z.eqb_neq in Erc2. split; [intros _; by exists s1|].
    split; [split; [done|]|].
    { intros (? & ? & _ & _ & _ & Hr). status_clash Hr. }
    split; [split; [intros _|done]|].
    { exists p2. split; [done|]. split; [done|]. right. split; [done|].
      by exists s1. }
    split; [split; [done|]|].
    { intros (? & Hr & _). status_clash Hr. }
    split; [by right; left|done].
Qed.

(** ** The repository path *)

Section RepoPathFacts.
Import GithubUtils.

Lemma split_str_from_skip (sep : pystr) (k : nat) (s : pystr) :
  split_str_from sep k s = split_str_from sep 0 (drop k s).
Proof.
  revert k. induction s as [|c s IH]; intros [|k]; [done|by destruct k|done|].
  cbn [split_str_from drop]. apply IH.
Qed.

Lemma split_str_prefix (sep t : pystr) :
  sep ≠ [] → split_str sep (sep ++ t) = [] :: split_str sep t.
Proof.
  intros Hsep. destruct sep as [|a sep]; [done|]. unfold split_str.
  change ((a :: sep) ++ t) with (a :: (sep ++ t)). cbn [split_str_from].
  change (a :: (sep ++ t)) with ((a :: sep) ++ t).
  rewrite startswith_app. f_equal. rewrite split_str_from_skip.
  replace (length (a :: sep) - 1)%nat with (length sep) by (cbn; lia).
  by rewrite drop_app_length.
Qed.

Lemma split_str_absent (sep s : pystr) :
  sep ≠ [] → contains sep s = false → split_str sep s = [s].
Proof.
  intros Hsep. unfold split_str. induction s as [|c s IH]; [done|].
  cbn [contains]. intros [Hs Hc]%orb_false_iff.
  cbn [split_str_from]. rewrite Hs. by rewrite IH.
Qed.

Lemma split_str_cons (sep : pystr) (c : N) (s : pystr) :
  startswith sep (c :: s) = false →
  split_str sep (c :: s)
  = match split_str sep s with
    | w :: ws => (c :: w) :: ws
    | [] => [[c]]
    end.
Proof. unfold split_str. cbn [split_str_from]. by intros ->. Qed.

Lemma last_piece_of_url (scheme rest : pystr) :
  scheme = py "https://" ∨ scheme = py "http://" →
  contains (py "github.com/") rest = false →
  List.last (split_str (py "github.com/") (scheme ++ py "github.com/" ++ rest))
    []
  = rest.
Proof.
  intros [-> | ->] Habsent.
  - change (py "https://") with [104; 116; 116; 112; 115; 58; 47; 47].
    cbn [app]. rewrite !split_str_cons by reflexivity.
    rewrite split_str_prefix by done. by rewrite split_str_absent.
  - change (py "http://") with [104; 116; 116; 112; 58; 47; 47].
    cbn [app]. rewrite !split_str_cons by reflexivity.
    rewrite split_str_prefix by done. by rewrite split_str_absent.
Qed.

Lemma rstrip_chars_snoc (chars s : pystr) (c : N) :
  c ∈ chars → rstrip_chars chars (s ++ [c]) = rstrip_chars chars s.
Proof.
  intros Hc. unfold rstrip_chars. rewrite rev_app_distr.
  cbn [rev app lstrip_chars]. by rewrite bool_decide_eq_true_2.
Qed.

Lemma rstrip_chars_id (chars s : pystr) :
  s ≠ [] → List.last s 0 ∉ chars → rstrip_chars chars s = s.
Proof.
  intros Hs Hl. destruct (exists_last Hs) as (s' & c & ->).
  rewrite last_last in Hl. unfold rstrip_chars. rewrite rev_app_distr.
  cbn [rev app lstrip_chars]. rewrite bool_decide_eq_false_2 by done.
  change (c :: rev s') with (rev [c] ++ rev s').
  by rewrite <- rev_app_distr, rev_involutive.
Qed.

End RepoPathFacts.

Lemma rstrip_chars_tail (chars s tail : pystr) :
  Forall (λ c, c ∈ chars) tail →
  GithubUtils.rstrip_chars chars (s ++ tail) = GithubUtils.rstrip_chars chars s.
Proof.
  induction tail as [|c tail IH] using rev_ind; intros Htail.
  - by rewrite app_nil_r.
  - apply Forall_app in Htail as [Htail Hc%Forall_inv].
    rewrite app_assoc, rstrip_chars_snoc by done. by apply IH.
Qed.

Lemma slash_is_contained (owner rest : pystr) :
  contains (py "/") (owner ++ py "/" ++ rest) = true.
Proof.
  apply contains_app_r. change (py "/" ++ rest) with (47 :: rest).
  by destruct rest.
Qed.

Lemma parse_owner_and_rest (owner rest : pystr) :
  47 ∉ owner →
  (if negb (contains (py "/") (owner ++ py "/" ++ rest))
   then (None, None)
   else match DataflowUtils.split_once (owner ++ py "/" ++ rest) with
        | Some (o, r) => (Some o, Some r)
        | None => (None, None)
        end)
  = (Some owner, Some rest).
Proof.
  intros Howner. rewrite slash_is_contained. cbn [negb].
  change (py "/" ++ rest) with (47 :: rest). by rewrite split_once_first.
Qed.

(** X26. [_parse_repo_path]: a repository written [owner/rest], with no
    slash in [owner] and no [http://] or [https://] in front, is split at
    its first slash, a trailing [.git] included in the name. Written as a
    URL on [github.com/], the name loses every trailing code point that is
    one of [.], [g], [i], [t]: the suffix [.git] goes, and so does the
    last letter of a name that ends in one of them. *)
Theorem repository_path_is_parsed (owner : pystr) :
  47 ∉ owner →
  (∀ rest,
     let repository := owner ++ py "/" ++ rest in
     startswith (py "http://") repository = false →
     startswith (py "https://") repository = false →
     GithubUtils._parse_repo_path repository = (Some owner, Some rest))
  ∧ (∀ scheme name tail,
       scheme = py "https://" ∨ scheme = py "http://" →
       name ≠ [] →
       List.last name 0 ∉ py ".git" →
       Forall (λ c, c ∈ py ".git") tail →
       contains (py "github.com/") (owner ++ py "/" ++ name ++ tail) = false →
       GithubUtils._parse_repo_path
         (scheme ++ py "github.com/" ++ owner ++ py "/" ++ name ++ tail)
       = (Some owner, Some name)).
Proof.
  intros Howner. split.
  - intros rest repository Hhttp Hhttps. unfold GithubUtils._parse_repo_path.
    rewrite Hhttp, Hhttps. cbn [orb]. by apply parse_owner_and_rest.
  - intros scheme name tail Hscheme Hname Hlast Htail Habsent.
    unfold GithubUtils._parse_repo_path.
    assert (startswith (py "http://")
              (scheme ++ py "github.com/" ++ owner ++ py "/" ++ name ++ tail)
            || startswith (py "https://")
                 (scheme ++ py "github.com/" ++ owner ++ py "/" ++ name
                    ++ tail) = true) as ->.
    { destruct Hscheme as [-> | ->].
      - by rewrite (startswith_app (py "https://")), orb_true_r.
      - by rewrite (startswith_app (py "http://")). }
    rewrite last_piece_of_url by done.
    assert (GithubUtils.rstrip_chars (py ".git")
              (owner ++ py "/" ++ name ++ tail)
            = owner ++ py "/" ++ name) as ->.
    { rewrite !app_assoc, rstrip_chars_tail by done.
      apply rstrip_chars_id.
      - intros [_ ?]%app_eq_nil. done.
      - destruct (exists_last Hname) as (name' & c & ->).
        rewrite last_last in Hlast. by rewrite app_assoc, last_last. }
    by apply parse_owner_and_rest.
Qed.

Lemma repository_path_is_parsed_witness :
  GithubUtils._parse_repo_path (py "google/adk-samples.git")
  = (Some (py "google"), Some (py "adk-samples.git"))
  ∧ GithubUtils._parse_repo_path
      (py "https://github.com/google/adk-samples.git")
    = (Some (py "google"), Some (py "adk-samples"))
  ∧ GithubUtils._parse_repo_path (py "https://github.com/google/widget")
    = (Some (py "google"), Some (py "widge")).
Proof.
  assert (47 ∉ py "google") as Howner
    by (apply (bool_decide_unpack _); vm_compute; exact I).
  destruct (repository_path_is_parsed (py "google") Howner) as [Hshort Hurl].
  split; [|split].
  - apply (Hshort (py "adk-samples.git")); reflexivity.
  - apply (Hurl (py "https://") (py "adk-samples") (py ".git")).
    + by left.
    + discriminate.
    + apply (bool_decide_unpack _). vm_compute. exact I.
    + apply (bool_decide_unpack _). vm_compute. exact I.
    + reflexivity.
  - apply (Hurl (py "https://") (py "widge") (py "t")).
    + by left.
    + discriminate.
    + apply (bool_decide_unpack _). vm_compute. exact I.
    + apply (bool_decide_unpack _). vm_compute. exact I.
    + reflexivity.
Defined.
